(** * PyGrid infrastructure CLI: a shallow embedding of
      [apps/infrastructure/cli/cli.py] and the properties of its
      configuration-collection and submission workflow.

    The development is laid out as follows:
    - [PyStr], [PyJson]: the Python values the program handles (strings,
      attribute bags, JSON data) with [json.dumps] and [json.loads];
    - [Url]: [urllib.parse.urljoin] as the program calls it;
    - [Cli]: the click commands [cli], [deploy], [get_app_arguments],
      [status] and the result callback [logging], written in a small
      state-and-exit monad over a recorded trace of effects;
    - [JsonProps], [UrlProps], [CliProps], [RunProps]: the predicates the
      theorems are stated with, and [Demo], [Cases]: concrete environments
      and inputs;
    - [JsonFacts], [UrlFacts], [CliFacts]: the lemmas about the layers
      above, followed by the properties of the workflow;
    - [RunFacts]: runs however they end, followed by further properties of
      the commands. *)

From Stdlib Require Import String Ascii List ZArith NArith Lia Bool.
From Stdlib Require Import Decimal DecimalFacts DecimalPos DecimalZ.
Import ListNotations.

Local Open Scope string_scope.
Local Open Scope Z_scope.

Set Warnings "-register-all".

(* ------------------------------------------------------------------ *)
(** ** Python strings *)

Module PyStr.

(** A Python [str] is modelled as a Rocq [string]; every [ascii] stands for
    the code point of the same number, so the model covers the code points
    0..255. *)

Definition dquote : ascii := ascii_of_N 34.
Definition newline : ascii := ascii_of_N 10.

Definition code (c : ascii) : N := N_of_ascii c.

Fixpoint smap (f : ascii -> ascii) (s : string) : string :=
  match s with
  | EmptyString => EmptyString
  | String c s' => String (f c) (smap f s')
  end.

(** [str.lower] on one code point below 256: A-Z and the Latin-1 capitals
    (all of 0xC0..0xDE but the multiplication sign 0xD7) move up by 32. *)
Definition lower_char (c : ascii) : ascii :=
  let n := code c in
  if (((65 <=? n) && (n <=? 90)) ||
      ((192 <=? n) && (n <=? 222) && negb (n =? 215)))%N
  then ascii_of_N (n + 32) else c.

Definition lower (s : string) : string := smap lower_char s.

Definition str_eqb (a b : string) : bool := String.eqb a b.

Fixpoint spaces (n : nat) : string :=
  match n with
  | O => EmptyString
  | S n' => String " " (spaces n')
  end.

(** Decimal digits of a [Decimal.uint], most significant first. *)
Fixpoint uint_digits (u : Decimal.uint) : string :=
  match u with
  | Nil => EmptyString
  | D0 u' => String "0" (uint_digits u')
  | D1 u' => String "1" (uint_digits u')
  | D2 u' => String "2" (uint_digits u')
  | D3 u' => String "3" (uint_digits u')
  | D4 u' => String "4" (uint_digits u')
  | D5 u' => String "5" (uint_digits u')
  | D6 u' => String "6" (uint_digits u')
  | D7 u' => String "7" (uint_digits u')
  | D8 u' => String "8" (uint_digits u')
  | D9 u' => String "9" (uint_digits u')
  end.

(** [str(n)] for a Python [int]. *)
Definition str_of_int (z : Z) : string :=
  match Z.to_int z with
  | Decimal.Pos u => uint_digits u
  | Decimal.Neg u => String "-" (uint_digits u)
  end.

Definition is_digit (c : ascii) : bool :=
  ((48 <=? code c) && (code c <=? 57))%N.

(** [s.startswith(p)]. *)
Fixpoint startswith (p s : string) : bool :=
  match p, s with
  | EmptyString, _ => true
  | String a p', String b s' => Ascii.eqb a b && startswith p' s'
  | String _ _, EmptyString => false
  end.

End PyStr.
Import PyStr.

(* ------------------------------------------------------------------ *)
(** ** Python values and the [json] module *)

Module PyJson.

(** The values the program stores and serialises.  [PDict] is a [dict] with
    [str] keys, in insertion order; [PObj] is an instance of the attribute
    bag [Config], represented by its [__dict__].  Numbers are Python [int]s:
    [float] is not part of the model. *)
Inductive pyval : Type :=
| PNone
| PBool (b : bool)
| PInt (z : Z)
| PStr (s : string)
| PList (l : list pyval)
| PDict (d : list (string * pyval))
| PObj (d : list (string * pyval)).

Definition pydict : Type := list (string * pyval).

(** [d[k] = v] on an insertion-ordered dict: an existing key keeps its
    place and takes the new value, a new key goes to the end. *)
Fixpoint dict_set (d : pydict) (k : string) (v : pyval) : pydict :=
  match d with
  | [] => [(k, v)]
  | (k', v') :: d' =>
      if str_eqb k' k then (k, v) :: d' else (k', v') :: dict_set d' k v
  end.

Fixpoint dict_get (d : pydict) (k : string) : option pyval :=
  match d with
  | [] => None
  | (k', v') :: d' => if str_eqb k' k then Some v' else dict_get d' k
  end.

Definition dict_keys (d : pydict) : list string := map fst d.

Definition has_key (d : pydict) (k : string) : bool :=
  match dict_get d k with Some _ => true | None => false end.

(** [dict(pairs)]: later pairs overwrite earlier ones. *)
Definition dict_of_pairs (pairs : list (string * pyval)) : pydict :=
  fold_left (fun d kv => dict_set d (fst kv) (snd kv)) pairs [].

(** *** [json.dumps]

    [py_encode_basestring_ascii]: the encoder with [ensure_ascii=True]. *)
Definition hex_digit (n : N) : ascii :=
  match String.get (N.to_nat n) "0123456789abcdef" with
  | Some c => c
  | None => "0"%char
  end.

Definition escape_char (c : ascii) : string :=
  let n := code c in
  if (n =? 34)%N then String "\" (String dquote EmptyString)
  else if (n =? 92)%N then "\\"
  else if (n =? 10)%N then "\n"
  else if (n =? 13)%N then "\r"
  else if (n =? 9)%N then "\t"
  else if (n =? 8)%N then "\b"
  else if (n =? 12)%N then "\f"
  else if ((32 <=? n) && (n <=? 126))%N then String c EmptyString
  else "\u00" ++ String (hex_digit (n / 16)) (String (hex_digit (n mod 16)) EmptyString).

Fixpoint escape (s : string) : string :=
  match s with
  | EmptyString => EmptyString
  | String c s' => escape_char c ++ escape s'
  end.

Definition encode_str (s : string) : string :=
  String dquote (escape s ++ String dquote EmptyString).

(** [indent=None] gives the separators [", "] and [": "] and no line
    breaks; [indent=n] gives [","] and [": "] and a line break followed by
    [n * level] spaces before every item and before the closing bracket. *)
Definition newline_indent (indent : option nat) (level : nat) : string :=
  match indent with
  | None => EmptyString
  | Some n => String newline (spaces (n * level))
  end.

Definition item_separator (indent : option nat) : string :=
  match indent with
  | None => ", "
  | Some _ => ","
  end.

Definition key_separator : string := ": ".

(** The body of a non-empty list or dict as [_iterencode_list] and
    [_iterencode_dict] emit it: the first item bare, every later item after
    the separator, all between the brackets and the line breaks. *)
Section Items.
Context {A : Type} (sep : string) (f : A -> string).

Fixpoint tail_items (l : list A) : string :=
  match l with
  | [] => EmptyString
  | y :: l' => sep ++ f y ++ tail_items l'
  end.

Definition bracketed (opening closing nl_in nl_out : string) (l : list A)
  : string :=
  match l with
  | [] => opening ++ closing
  | x :: l' =>
      opening ++ nl_in ++ f x ++ tail_items l' ++ nl_out ++ closing
  end.
End Items.

(** [json.dumps(v, indent=indent, default=lambda o: o.__dict__)] at nesting
    depth [level]: a [Config] instance is not serialisable, so the encoder
    calls [default] on it and encodes the returned [__dict__]. *)
Fixpoint encode (indent : option nat) (level : nat) (v : pyval) : string :=
  let sep := item_separator indent ++ newline_indent indent (S level) in
  let member (kv : string * pyval) :=
    encode_str (fst kv) ++ key_separator ++ encode indent (S level) (snd kv) in
  let encode_dict (d : list (string * pyval)) :=
    bracketed sep member "{" "}"
      (newline_indent indent (S level)) (newline_indent indent level) d in
  match v with
  | PNone => "null"
  | PBool true => "true"
  | PBool false => "false"
  | PInt z => str_of_int z
  | PStr s => encode_str s
  | PList l =>
      bracketed sep (encode indent (S level)) "[" "]"
        (newline_indent indent (S level)) (newline_indent indent level) l
  | PDict d => encode_dict d
  | PObj d => encode_dict d
  end.

Definition dumps (indent : option nat) (v : pyval) : string :=
  encode indent 0 v.

(** *** [json.loads] *)

Definition is_ws (c : ascii) : bool :=
  let n := code c in ((n =? 32) || (n =? 9) || (n =? 10) || (n =? 13))%N.

Fixpoint skip_ws (s : string) : string :=
  match s with
  | String c s' => if is_ws c then skip_ws s' else s
  | EmptyString => s
  end.

Definition hex_val (c : ascii) : option N :=
  let n := code c in
  if ((48 <=? n) && (n <=? 57))%N then Some (n - 48)%N
  else if ((97 <=? n) && (n <=? 102))%N then Some (n - 87)%N
  else if ((65 <=? n) && (n <=? 70))%N then Some (n - 55)%N
  else None.

(** [py_scanstring] in strict mode, entered after the opening quote.  An
    escape [\uXXXX] above 255 leaves the string model and is refused. *)
Fixpoint scanstring (s : string) : option (string * string) :=
  match s with
  | EmptyString => None
  | String c s' =>
      if (code c =? 34)%N then Some (EmptyString, s')
      else if (code c =? 92)%N then
        match s' with
        | EmptyString => None
        | String e s'' =>
            let plain (x : N) :=
              match scanstring s'' with
              | Some (t, r) => Some (String (ascii_of_N x) t, r)
              | None => None
              end in
            if (code e =? 34)%N then plain 34%N
            else if (code e =? 92)%N then plain 92%N
            else if (code e =? 47)%N then plain 47%N
            else if (code e =? 98)%N then plain 8%N
            else if (code e =? 102)%N then plain 12%N
            else if (code e =? 110)%N then plain 10%N
            else if (code e =? 114)%N then plain 13%N
            else if (code e =? 116)%N then plain 9%N
            else if (code e =? 117)%N then
              match s'' with
              | String h1 (String h2 (String h3 (String h4 s4))) =>
                  match hex_val h1, hex_val h2, hex_val h3, hex_val h4 with
                  | Some a, Some b, Some c', Some d =>
                      let u := (((a * 16 + b) * 16 + c') * 16 + d)%N in
                      if (u <? 256)%N then
                        match scanstring s4 with
                        | Some (t, r) => Some (String (ascii_of_N u) t, r)
                        | None => None
                        end
                      else None
                  | _, _, _, _ => None
                  end
              | _ => None
              end
            else None
        end
      else if (code c <? 32)%N then None
      else
        match scanstring s' with
        | Some (t, r) => Some (String c t, r)
        | None => None
        end
  end.

(** The longest run of decimal digits, as a [Decimal.uint]. *)
Fixpoint scan_digits (s : string) : Decimal.uint * string :=
  match s with
  | EmptyString => (Nil, s)
  | String c s' =>
      let go (f : Decimal.uint -> Decimal.uint) :=
        let (u, r) := scan_digits s' in (f u, r) in
      if (code c =? 48)%N then go D0
      else if (code c =? 49)%N then go D1
      else if (code c =? 50)%N then go D2
      else if (code c =? 51)%N then go D3
      else if (code c =? 52)%N then go D4
      else if (code c =? 53)%N then go D5
      else if (code c =? 54)%N then go D6
      else if (code c =? 55)%N then go D7
      else if (code c =? 56)%N then go D8
      else if (code c =? 57)%N then go D9
      else (Nil, s)
  end.

(** [NUMBER_RE]: the integer part is a single 0 or a digit 1-9 followed by
    any digits; a following fraction or exponent would make the literal a
    [float], which the model refuses. *)
Definition scan_uint (s : string) : option (Decimal.uint * string) :=
  match s with
  | EmptyString => None
  | String c s' =>
      let res :=
        if (code c =? 48)%N then Some (D0 Nil, s')
        else if is_digit c then Some (scan_digits s)
        else None in
      match res with
      | Some (u, String d r) =>
          if ((code d =? 46) || (code d =? 101) || (code d =? 69))%N
          then None else Some (u, String d r)
      | other => other
      end
  end.

Definition scan_number (s : string) : option (Z * string) :=
  match s with
  | String c s' =>
      if (code c =? 45)%N then
        match scan_uint s' with
        | Some (u, r) => Some (Z.of_int (Decimal.Neg u), r)
        | None => None
        end
      else
        match scan_uint s with
        | Some (u, r) => Some (Z.of_int (Decimal.Pos u), r)
        | None => None
        end
  | EmptyString => None
  end.

(** [s[len(p):]] when [s] starts with [p]. *)
Fixpoint drop_prefix (p s : string) : option string :=
  match p, s with
  | EmptyString, _ => Some s
  | String a p', String b s' =>
      if Ascii.eqb a b then drop_prefix p' s' else None
  | String _ _, EmptyString => None
  end.

(** [scan_once], [JSONArray] and [JSONObject] of [json.decoder] and
    [json.scanner].  [fuel] bounds the nesting of calls; [json_elems] is
    entered where an array element starts and [json_members] after the
    opening quote of a key. *)
Fixpoint scan_once (fuel : nat) (s : string) : option (pyval * string) :=
  match fuel with
  | O => None
  | S f =>
      match s with
      | EmptyString => None
      | String c s' =>
          if (code c =? 34)%N then
            match scanstring s' with
            | Some (t, r) => Some (PStr t, r)
            | None => None
            end
          else if (code c =? 123)%N then
            match skip_ws s' with
            | String c1 r1 =>
                if (code c1 =? 125)%N then Some (PDict [], r1)
                else if (code c1 =? 34)%N then
                  match json_members f r1 with
                  | Some (pairs, r) => Some (PDict (dict_of_pairs pairs), r)
                  | None => None
                  end
                else None
            | EmptyString => None
            end
          else if (code c =? 91)%N then
            match skip_ws s' with
            | String c1 r1 =>
                if (code c1 =? 93)%N then Some (PList [], r1)
                else
                  match json_elems f (String c1 r1) with
                  | Some (l, r) => Some (PList l, r)
                  | None => None
                  end
            | EmptyString => None
            end
          else
            match drop_prefix "null" s with
            | Some r => Some (PNone, r)
            | None =>
            match drop_prefix "true" s with
            | Some r => Some (PBool true, r)
            | None =>
            match drop_prefix "false" s with
            | Some r => Some (PBool false, r)
            | None =>
            match scan_number s with
            | Some (z, r) => Some (PInt z, r)
            | None => None
            end end end end
      end
  end

with json_elems (fuel : nat) (s : string) : option (list pyval * string) :=
  match fuel with
  | O => None
  | S f =>
      match scan_once f s with
      | Some (v, r) =>
          match skip_ws r with
          | String c r1 =>
              if (code c =? 93)%N then Some ([v], r1)
              else if (code c =? 44)%N then
                match json_elems f (skip_ws r1) with
                | Some (l, r2) => Some (v :: l, r2)
                | None => None
                end
              else None
          | EmptyString => None
          end
      | None => None
      end
  end

with json_members (fuel : nat) (s : string)
  : option (list (string * pyval) * string) :=
  match fuel with
  | O => None
  | S f =>
      match scanstring s with
      | Some (k, r) =>
          match skip_ws r with
          | String c r1 =>
              if (code c =? 58)%N then
                match scan_once f (skip_ws r1) with
                | Some (v, r2) =>
                    match skip_ws r2 with
                    | String c2 r3 =>
                        if (code c2 =? 125)%N then Some ([(k, v)], r3)
                        else if (code c2 =? 44)%N then
                          match skip_ws r3 with
                          | String c3 r4 =>
                              if (code c3 =? 34)%N then
                                match json_members f r4 with
                                | Some (pairs, r5) => Some ((k, v) :: pairs, r5)
                                | None => None
                                end
                              else None
                          | EmptyString => None
                          end
                        else None
                    | EmptyString => None
                    end
                | None => None
                end
              else None
          | EmptyString => None
          end
      | None => None
      end
  end.

(** [json.loads(s)]: leading whitespace, one value, trailing whitespace and
    nothing else.  Every call of the scanner consumes a character before the
    next one starts, so the length of the text is fuel enough. *)
Definition loads (s : string) : option pyval :=
  match scan_once (S (String.length s)) (skip_ws s) with
  | Some (v, r) =>
      match skip_ws r with
      | EmptyString => Some v
      | String _ _ => None
      end
  | None => None
  end.

(** What a value looks like after serialisation: every [Config] instance
    has become a plain [dict]. *)
Fixpoint plain (v : pyval) : pyval :=
  match v with
  | PList l => PList (map plain l)
  | PDict d => PDict (map (fun kv => (fst kv, plain (snd kv))) d)
  | PObj d => PDict (map (fun kv => (fst kv, plain (snd kv))) d)
  | other => other
  end.

Fixpoint nodup_keys (ks : list string) : bool :=
  match ks with
  | [] => true
  | k :: ks' => forallb (fun k' => negb (str_eqb k k')) ks' && nodup_keys ks'
  end.

(** The invariant of Python's [dict]: no key occurs twice, at any depth. *)
Fixpoint wf (v : pyval) : bool :=
  match v with
  | PList l => forallb wf l
  | PDict d => nodup_keys (map fst d) && forallb (fun kv => wf (snd kv)) d
  | PObj d => nodup_keys (map fst d) && forallb (fun kv => wf (snd kv)) d
  | _ => true
  end.

(** Number of constructors and list cells of a value: the nesting of scanner
    calls that reading it back takes. *)
Fixpoint size (v : pyval) : nat :=
  match v with
  | PList l => S (fold_right (fun x n => S (size x) + n)%nat O l)
  | PDict d => S (fold_right (fun kv n => S (size (snd kv)) + n)%nat O d)
  | PObj d => S (fold_right (fun kv n => S (size (snd kv)) + n)%nat O d)
  | _ => 1%nat
  end.

(** [v[k1][k2]...] through dicts and [Config] objects. *)
Fixpoint lookup_path (path : list string) (v : pyval) : option pyval :=
  match path with
  | [] => Some v
  | k :: path' =>
      match v with
      | PDict d | PObj d =>
          match dict_get d k with
          | Some x => lookup_path path' x
          | None => None
          end
      | _ => None
      end
  end.

End PyJson.
Import PyJson.


(* ------------------------------------------------------------------ *)
(** ** [urllib.parse.urljoin] *)

Module Url.

(** [cli.py] joins the API base URL with three references, ["/deploy"],
    ["/deployed/{app}s"] and ["/deployed/{app}/{id}"]: each is an absolute
    path and carries no scheme, authority, parameters, query or fragment.
    [urljoin] below is CPython's [urljoin(base, url)] for such a reference.
    [urlsplit] raises [ValueError] on unbalanced IPv6 brackets in the
    authority; that case is left out. *)

Definition uses_relative : list string :=
  [EmptyString; "ftp"; "http"; "gopher"; "nntp"; "imap"; "wais"; "file";
   "https"; "shttp"; "mms"; "prospero"; "rtsp"; "rtspu"; "sftp";
   "svn"; "svn+ssh"; "ws"; "wss"].

Definition uses_netloc : list string :=
  [EmptyString; "ftp"; "http"; "gopher"; "nntp"; "telnet"; "imap"; "wais";
   "file"; "mms"; "https"; "shttp"; "snews"; "prospero"; "rtsp";
   "rtspu"; "rsync"; "svn"; "svn+ssh"; "sftp"; "nfs"; "git"; "git+ssh";
   "ws"; "wss"].

Definition mem (s : string) (l : list string) : bool := existsb (str_eqb s) l.

Definition is_ascii_alpha (c : ascii) : bool :=
  (((65 <=? code c) && (code c <=? 90)) ||
   ((97 <=? code c) && (code c <=? 122)))%N.

(** [scheme_chars]: letters, digits and [+-.]. *)
Definition is_scheme_char (c : ascii) : bool :=
  is_ascii_alpha c || is_digit c ||
  ((code c =? 43) || (code c =? 45) || (code c =? 46))%N.

Fixpoint all_chars (p : ascii -> bool) (s : string) : bool :=
  match s with
  | EmptyString => true
  | String c s' => p c && all_chars p s'
  end.

(** [s[:i]] and [s[i:]] for the first index [i] whose character satisfies
    [p]; the whole of [s] and the empty string when there is none. *)
Fixpoint break_at (p : ascii -> bool) (s : string) : string * string :=
  match s with
  | EmptyString => (EmptyString, EmptyString)
  | String c s' =>
      if p c then (EmptyString, s)
      else let (a, b) := break_at p s' in (String c a, b)
  end.

(** [url.lstrip(_WHATWG_C0_CONTROL_OR_SPACE)]. *)
Fixpoint lstrip_c0 (s : string) : string :=
  match s with
  | String c s' => if (code c <=? 32)%N then lstrip_c0 s' else s
  | EmptyString => s
  end.

(** Tab, line feed and carriage return are removed from the URL. *)
Fixpoint remove_unsafe (s : string) : string :=
  match s with
  | EmptyString => EmptyString
  | String c s' =>
      if ((code c =? 9) || (code c =? 10) || (code c =? 13))%N
      then remove_unsafe s' else String c (remove_unsafe s')
  end.

(** The scheme and the authority of [urlsplit(base)]. *)
Definition split_scheme (url : string) : string * string :=
  let (pre, rest) := break_at (fun c => (code c =? 58)%N) url in
  match pre, rest with
  | String c _, String _ after =>
      if is_ascii_alpha c && all_chars is_scheme_char pre
      then (lower pre, after) else (EmptyString, url)
  | _, _ => (EmptyString, url)
  end.

Definition is_netloc_end (c : ascii) : bool :=
  ((code c =? 47) || (code c =? 63) || (code c =? 35))%N.

Definition split_netloc (url : string) : string * string :=
  match url with
  | String a (String b rest) =>
      if ((code a =? 47) && (code b =? 47))%N
      then break_at is_netloc_end rest else (EmptyString, url)
  | _ => (EmptyString, url)
  end.

Definition base_scheme_netloc (base : string) : string * string :=
  let url := remove_unsafe (lstrip_c0 base) in
  let (scheme, rest) := split_scheme url in
  (scheme, fst (split_netloc rest)).

(** [s.split("/")] and ["/".join(l)]. *)
Fixpoint split_slash (s : string) : list string :=
  match s with
  | EmptyString => [EmptyString]
  | String c s' =>
      if (code c =? 47)%N then EmptyString :: split_slash s'
      else
        match split_slash s' with
        | h :: t => String c h :: t
        | [] => [String c EmptyString]
        end
  end.

Fixpoint join_slash (l : list string) : string :=
  match l with
  | [] => EmptyString
  | [x] => x
  | x :: l' => x ++ String "/" (join_slash l')
  end.

(** The loop that resolves ["."] and [".."], on the reversed result. *)
Fixpoint resolve_dots (segments : list string) (acc : list string)
  : list string :=
  match segments with
  | [] => acc
  | seg :: rest =>
      if str_eqb seg ".." then resolve_dots rest (tl acc)
      else if str_eqb seg "." then resolve_dots rest acc
      else resolve_dots rest (seg :: acc)
  end.

Definition resolve_path (path : string) : string :=
  let segments := split_slash path in
  let resolved := List.rev (resolve_dots segments []) in
  let resolved :=
    match List.last segments EmptyString with
    | s => if str_eqb s "." || str_eqb s ".."
           then (resolved ++ [EmptyString])%list else resolved
    end in
  match join_slash resolved with
  | EmptyString => "/"
  | p => p
  end.

(** [urlunsplit] of a scheme, an authority and a path, with neither query
    nor fragment. *)
Definition urlunsplit (scheme netloc path : string) : string :=
  let url :=
    if negb (str_eqb netloc EmptyString) ||
       (negb (str_eqb scheme EmptyString) && mem scheme uses_netloc
        && negb (startswith "//" path))
    then
      "//" ++ netloc ++
      (if negb (str_eqb path EmptyString) && negb (startswith "/" path)
       then String "/" path else path)
    else path in
  if str_eqb scheme EmptyString then url else scheme ++ ":" ++ url.

(** [urljoin(base, path)] for an absolute [path]: the reference inherits
    the scheme of the base and, for a scheme that has one, its authority;
    the path of the base plays no part. *)
Definition urljoin (base path : string) : string :=
  if str_eqb base EmptyString then path
  else
    let (scheme, bnetloc) := base_scheme_netloc base in
    if negb (mem scheme uses_relative) then path
    else
      let netloc := if mem scheme uses_netloc then bnetloc else EmptyString in
      urlunsplit scheme netloc (resolve_path path).

End Url.
Import Url.


(* ------------------------------------------------------------------ *)
(** ** The command-line program *)

Module Cli.

(** *** Effects

    What the process does to the outside is recorded as a trace. *)
Inductive event : Type :=
| Echo (text : string)                      (* click.echo *)
| Prompt (text answer : string)             (* click.prompt and its value *)
| Confirm (text : string) (answer : bool)   (* click.confirm and its value *)
| HttpGet (url : string)                    (* requests.get *)
| HttpPost (url body : string)              (* requests.post *)
| OpenRead (path : string)                  (* open(path, "r") *)
| Makedirs (path : string)                  (* os.makedirs *)
| WriteFile (path content : string)         (* open(path, "w") and json.dump *)
| Call (name : string).                     (* a provider_utils function *)

Inductive http_reply : Type :=
| Response (status_code : Z) (text : string)
| RequestException.

(** The part of the program that is not in [cli.py], and the machine it
    runs on.  [colored] is [utils.colored] with the name of the [COLORS]
    member it is given, if any; [get_vpc_config] and [get_db_config] are
    the functions of [provider_utils.aws]: they are interactive, so they
    take the pending input lines and return their value with the lines
    left, or nothing when they raise. *)
Record world : Type := {
  home : string;
  environ : string -> option string;
  http_get : string -> http_reply;
  http_post : string -> string -> http_reply;
  read_file : string -> option string;
  makedirs_ok : string -> bool;
  writable : string -> bool;
  colored : pyval -> option string -> string;
  get_vpc_config : list string -> option (pyval * list string);
  get_db_config : list string -> option (pyval * list string)
}.

(** The shared [Config] object that [pass_config] hands to every command,
    the lines waiting on standard input, and the trace so far. *)
Record state : Type := {
  config : pydict;
  stdin : list string;
  trace : list event
}.

(** A command returns, calls [quit()], or dies of an uncaught exception. *)
Inductive outcome (A : Type) : Type :=
| Done (a : A)
| Quit
| Raised (exc : string).
Arguments Done {A} a.
Arguments Quit {A}.
Arguments Raised {A} exc.

Definition M (A : Type) : Type := state -> outcome A * state.

Definition ret {A} (a : A) : M A := fun s => (Done a, s).

Definition bind {A B} (m : M A) (k : A -> M B) : M B :=
  fun s =>
    match m s with
    | (Done a, s') => k a s'
    | (Quit, s') => (Quit, s')
    | (Raised e, s') => (Raised e, s')
    end.

Notation "x <- m ;; k" := (bind m (fun x => k))
  (at level 61, m at next level, right associativity).
Notation "m ;; k" := (bind m (fun _ => k))
  (at level 61, right associativity).

Definition raise {A} (exc : string) : M A := fun s => (Raised exc, s).

Definition quit {A} : M A := fun s => (Quit, s).

(** [try: body except: handler] with a bare [except]. *)
Definition try_except {A} (body handler : M A) : M A :=
  fun s =>
    match body s with
    | (Raised _, s') => handler s'
    | other => other
    end.

Definition emit (e : event) : M unit :=
  fun s => (Done tt, {| config := config s; stdin := stdin s;
                        trace := (trace s ++ [e])%list |}).

Definition echo (text : string) : M unit := emit (Echo text).

(** Modelled from the spec: the class [Config] of [utils.py], which is not
    among the sources.  The specification describes the configuration as a
    nested, dynamically shaped record, created empty and grown field by
    field; so an instance is its attribute dictionary, [Config()] has no
    attribute and [Config(name=x)] has the one attribute [name]. *)
Definition Config (kwargs : pydict) : pyval := PObj kwargs.

(** [o.k = v] on an instance held in a local variable. *)
Definition obj_setattr (o : pyval) (k : string) (v : pyval) : pyval :=
  match o with
  | PObj d => PObj (dict_set d k v)
  | other => other
  end.

(** [config.k = v] and [config.k] on the shared instance. *)
Definition setattr (k : string) (v : pyval) : M unit :=
  fun s => (Done tt, {| config := dict_set (config s) k v;
                        stdin := stdin s; trace := trace s |}).

Definition getattr (k : string) : M pyval :=
  fun s =>
    match dict_get (config s) k with
    | Some v => (Done v, s)
    | None => (Raised "AttributeError", s)
    end.

(** [o.k] and [config.app.k = v] on a nested [Config]. *)
Definition attr_of (o : pyval) (k : string) : M pyval :=
  match o with
  | PObj d =>
      match dict_get d k with
      | Some v => ret v
      | None => raise "AttributeError"
      end
  | _ => raise "AttributeError"
  end.

Definition set_app_attr (k : string) (v : pyval) : M unit :=
  app <- getattr "app" ;;
  match app with
  | PObj d => setattr "app" (PObj (dict_set d k v))
  | _ => raise "AttributeError"
  end.

(** [v == "text"] and the truth value of [v]. *)
Definition eq_str (v : pyval) (text : string) : bool :=
  match v with
  | PStr s => str_eqb s text
  | _ => false
  end.

Definition truthy (v : pyval) : bool :=
  match v with
  | PNone => false
  | PBool b => b
  | PInt z => negb (z =? 0)
  | PStr s => negb (str_eqb s EmptyString)
  | PList l => match l with [] => false | _ => true end
  | PDict d => match d with [] => false | _ => true end
  | PObj _ => true
  end.

(** *** click

    [click.prompt(text, type=str, default=d)]: lines are read until one is
    not empty, or is empty while there is a default; the end of the input
    raises [Abort]. *)
Fixpoint prompt_lines (default : option string) (lines : list string)
  : option (string * list string) :=
  match lines with
  | [] => None
  | l :: rest =>
      if str_eqb l EmptyString then
        match default with
        | Some d => Some (d, rest)
        | None => prompt_lines default rest
        end
      else Some (l, rest)
  end.

Definition click_prompt (text : string) (default : option string) : M string :=
  fun s =>
    match prompt_lines default (stdin s) with
    | Some (v, rest) =>
        (Done v, {| config := config s; stdin := rest;
                    trace := (trace s ++ [Prompt text v])%list |})
    | None => (Raised "Abort", {| config := config s; stdin := [];
                                  trace := trace s |})
    end.

(** [str.strip] and the whitespace code points below 256. *)
Definition is_space (c : ascii) : bool :=
  let n := code c in
  (((9 <=? n) && (n <=? 13)) || ((28 <=? n) && (n <=? 32)) ||
   (n =? 133) || (n =? 160))%N.

Fixpoint lstrip (s : string) : string :=
  match s with
  | String c s' => if is_space c then lstrip s' else s
  | EmptyString => s
  end.

Fixpoint rstrip (s : string) : string :=
  match s with
  | EmptyString => EmptyString
  | String c s' =>
      match rstrip s' with
      | EmptyString => if is_space c then EmptyString else String c EmptyString
      | t => String c t
      end
  end.

Definition strip (s : string) : string := rstrip (lstrip s).

(** [click.confirm(text)] with its default [False]: a line is lower-cased
    and stripped; y/yes and n/no decide, the empty line takes the default,
    any other line asks again. *)
Fixpoint confirm_lines (lines : list string) : option (bool * list string) :=
  match lines with
  | [] => None
  | l :: rest =>
      let v := strip (lower l) in
      if str_eqb v "y" || str_eqb v "yes" then Some (true, rest)
      else if str_eqb v "n" || str_eqb v "no" then Some (false, rest)
      else if str_eqb v EmptyString then Some (false, rest)
      else confirm_lines rest
  end.

Definition click_confirm (text : string) : M bool :=
  fun s =>
    match confirm_lines (stdin s) with
    | Some (b, rest) =>
        (Done b, {| config := config s; stdin := rest;
                    trace := (trace s ++ [Confirm text b])%list |})
    | None => (Raised "Abort", {| config := config s; stdin := [];
                                  trace := trace s |})
    end.

(** [click.Choice(choices, case_sensitive=False)]: a value is accepted when
    it equals a choice up to case. *)
Definition choice_accepts (choices : list string) (value : string) : bool :=
  existsb (fun c => str_eqb (lower c) (lower value)) choices.

Definition provider_choices : list string := ["AWS"; "GCP"; "AZURE"].
Definition deploy_app_choices : list string := ["Node"; "Network"; "Worker"].
Definition status_app_choices : list string := ["Node"; "Network"].

Section Program.

Variable w : world.

(** *** requests, files and the provider helpers *)

Definition requests_get (url : string) : M http_reply :=
  emit (HttpGet url) ;;
  match http_get w url with
  | RequestException => raise "RequestException"
  | r => ret r
  end.

(** [requests.post(url, json=data)]: the body is [json.dumps(data)]. *)
Definition requests_post (url : string) (json : pyval) : M http_reply :=
  let body := dumps None json in
  emit (HttpPost url body) ;;
  match http_post w url body with
  | RequestException => raise "RequestException"
  | r => ret r
  end.

Definition status_code (r : http_reply) : Z :=
  match r with
  | Response c _ => c
  | RequestException => 0
  end.

Definition text_of (r : http_reply) : string :=
  match r with
  | Response _ t => t
  | RequestException => EmptyString
  end.

Definition json_loads (text : string) : M pyval :=
  match loads text with
  | Some v => ret v
  | None => raise "JSONDecodeError"
  end.

(** [v["message"]] *)
Definition subscript_message (v : pyval) : M pyval :=
  match v with
  | PDict d =>
      match dict_get d "message" with
      | Some m => ret m
      | None => raise "KeyError"
      end
  | _ => raise "TypeError"
  end.

Definition open_read (path : string) : M string :=
  emit (OpenRead path) ;;
  match read_file w path with
  | Some text => ret text
  | None => raise "OSError"
  end.

Definition makedirs (path : string) : M unit :=
  emit (Makedirs path) ;;
  if makedirs_ok w path then ret tt else raise "OSError".

Definition write_json (path : string) (v : pyval) : M unit :=
  if writable w path
  then emit (WriteFile path (dumps (Some 2%nat) v))
  else raise "OSError".

Definition call_helper (name : string)
    (f : list string -> option (pyval * list string)) : M pyval :=
  emit (Call name) ;;
  fun s =>
    match f (stdin s) with
    | Some (v, rest) =>
        (Done v, {| config := config s; stdin := rest; trace := trace s |})
    | None => (Raised name, s)
    end.

(** [vars(config)] *)
Definition vars_config : M pyval := fun s => (Done (PDict (config s)), s).

(** [str(Path.home() / ".pygrid/cli/")]: the trailing slash is dropped. *)
Definition pygrid_root : string :=
  if str_eqb (home w) "/" then "/.pygrid/cli" else home w ++ "/.pygrid/cli".

(** *** [cli]: the group callback (lines 22-44) *)
Definition cli (output_file api_url : string) : M unit :=
  try_except
    (setattr "api_url" (PStr api_url) ;;
     response <- requests_get api_url ;;
     if status_code response =? 200 then
       body <- json_loads (text_of response) ;;
       message <- subscript_message body ;;
       echo (colored w message None) ;;
       echo (colored w (PStr "Welcome to OpenMined PyGrid CLI") (Some "blue"))
     else ret tt)
    (echo (colored w (PStr "Please enter a valid API URL") (Some "red")) ;;
     quit) ;;
  setattr "pygrid_root_path" (PStr pygrid_root) ;;
  root <- getattr "pygrid_root_path" ;;
  match root with
  | PStr root_path =>
      makedirs root_path ;;
      setattr "output_file" (PStr (root_path ++ "/" ++ output_file))
  | _ => raise "TypeError"
  end.

(** [os.environ.get(name, fallback)] turned into the text click shows and
    returns as the default of a [type=str] prompt. *)
Definition environ_get (name : string) (fallback : option string)
  : option string :=
  match environ w name with
  | Some v => Some v
  | None => fallback
  end.

(** *** [get_app_arguments] (lines 118-157); [config.serverless] is read
    only when the name is ["network"], as [and] evaluates it. *)
Definition get_app_arguments : M unit :=
  app <- getattr "app" ;;
  name <- attr_of app "name" ;;
  if eq_str name "node" then
    id <- click_prompt "PyGrid Node ID" (environ_get "NODE_ID" None) ;;
    set_app_attr "id" (PStr id) ;;
    port <- click_prompt "Port number of the socket.io server"
              (environ_get "GRID_NODE_PORT" (Some "5000")) ;;
    set_app_attr "port" (PStr port) ;;
    host <- click_prompt "Grid node host"
              (environ_get "GRID_NODE_HOST" (Some "0.0.0.0")) ;;
    set_app_attr "host" (PStr host) ;;
    network <- click_prompt "Grid Network address (e.g. --network=0.0.0.0:7000)"
                 (environ_get "NETWORK" None) ;;
    set_app_attr "network" (PStr network)
  else if eq_str name "network" then
    serverless <- getattr "serverless" ;;
    if negb (truthy serverless) then
      port <- click_prompt "Port number of the socket.io server"
                (environ_get "GRID_NETWORK_PORT" (Some "7000")) ;;
      set_app_attr "port" (PStr port) ;;
      host <- click_prompt "Grid Network host"
                (environ_get "GRID_NETWORK_HOST" (Some "0.0.0.0")) ;;
      set_app_attr "host" (PStr host)
    else ret tt
  else ret tt.

(** The text of the last question of [deploy]. *)
Definition continue_text (shown : string) : string :=
  "Your current configration are: " ++ String newline (String newline
    (shown ++ " " ++ String newline (String newline "Continue?"))).

(** *** [deploy], up to the database step (lines 63-99); the value is the
    local [credentials] object. *)
Definition deploy_gather (provider app : string) : M pyval :=
  setattr "provider" (PStr (lower provider)) ;;
  p <- getattr "provider" ;;
  match p with
  | PStr config_provider =>
      let credentials := Config [] in
      path <- click_prompt
                ("Please enter path to your  " ++
                 colored w (PStr (config_provider ++ " credentials")) None ++
                 " json file")
                (Some (home w ++ "/." ++ config_provider ++ "/credentials.json")) ;;
      text <- open_read path ;;
      cloud <- json_loads text ;;
      let credentials := obj_setattr credentials "cloud" cloud in
      setattr "app" (Config [("name", PStr (lower app))]) ;;
      serverless <- click_confirm "Do you want to deploy serverless?" ;;
      setattr "serverless" (PBool serverless) ;;
      websockets <- click_confirm "Will you need to support Websockets?" ;;
      setattr "websockets" (PBool websockets) ;;
      get_app_arguments ;;
      p <- getattr "provider" ;;
      (if eq_str p "aws" then
         vpc <- call_helper "aws.get_vpc_config" (get_vpc_config w) ;;
         setattr "vpc" vpc
       else if eq_str p "gcp" then ret tt
       else if eq_str p "azure" then ret tt
       else ret tt) ;;
      db <- call_helper "aws.get_db_config" (get_db_config w) ;;
      ret (obj_setattr credentials "db" db)
  | _ => raise "TypeError"
  end.

(** [click.echo(colored(json.dumps(json.loads(r.text), indent=2)))] *)
Definition echo_response (r : http_reply) : M unit :=
  body <- json_loads (text_of r) ;;
  echo (colored w (PStr (dumps (Some 2%nat) body)) None).

(** *** [deploy], from the confirmation on (lines 101-115) *)
Definition deploy_submit (credentials : pyval) : M unit :=
  shown <- vars_config ;;
  ok <- click_confirm
          (continue_text (colored w (PStr (dumps (Some 2%nat) shown)) None)) ;;
  if ok then
    setattr "credentials" credentials ;;
    api <- getattr "api_url" ;;
    match api with
    | PStr api_url =>
        let url := urljoin api_url "/deploy" in
        cfg <- vars_config ;;
        let data := dumps (Some 2%nat) cfg in
        r <- requests_post url (PStr data) ;;
        if status_code r =? 200 then echo_response r else echo_response r
    | _ => raise "TypeError"
    end
  else ret tt.

Definition deploy (provider app : string) : M unit :=
  credentials <- deploy_gather provider app ;;
  deploy_submit credentials.

(** *** [status] (lines 174-187) *)
Definition status_url (api_url app : string) (id : option Z) : string :=
  let app := lower app in
  match id with
  | None => urljoin api_url ("/deployed/" ++ app ++ "s")
  | Some n => urljoin api_url ("/deployed/" ++ app ++ "/" ++ str_of_int n)
  end.

Definition status (app : string) (id : option Z) : M unit :=
  api <- getattr "api_url" ;;
  match api with
  | PStr api_url =>
      r <- requests_get (status_url api_url app id) ;;
      if status_code r =? 200 then echo_response r
      else echo (colored w (PStr "There was an error in reaching the API") None)
  | _ => raise "TypeError"
  end.

(** *** [logging]: the result callback (lines 192-195) *)
Definition logging : M unit :=
  out <- getattr "output_file" ;;
  match out with
  | PStr output_file =>
      echo ("Writing configs to " ++ output_file) ;;
      cfg <- vars_config ;;
      write_json output_file cfg
  | _ => raise "TypeError"
  end.

(** *** The process *)
Inductive command : Type :=
| Deploy (provider app : string)
| Status (app : string) (id : option Z).

(** The options of a subcommand are converted by their [click.Choice]
    before its callback runs, and after the group callback has run.  The
    callbacks only use the lowercased option, which is the same for the
    text given and for the choice it matches, so the text is passed on. *)
Definition run_command (c : command) : M unit :=
  match c with
  | Deploy provider app =>
      if choice_accepts provider_choices provider &&
         choice_accepts deploy_app_choices app
      then deploy provider app else raise "UsageError"
  | Status app id =>
      if choice_accepts status_app_choices app
      then status app id else raise "UsageError"
  end.

(** click runs the group callback, then the subcommand, then the result
    callback, on one [Config] that [pass_config] creates with [Config()]. *)
Definition main (output_file api_url : string) (c : command) : M unit :=
  cli output_file api_url ;;
  run_command c ;;
  logging.

Definition start (input : list string) : state :=
  {| config := []; stdin := input; trace := [] |}.

Definition run (output_file api_url : string) (c : command)
    (input : list string) : outcome unit * state :=
  main output_file api_url c (start input).

End Program.

(** *** Reading a trace *)

Definition is_post (e : event) : bool :=
  match e with HttpPost _ _ => true | _ => false end.

Definition posts (tr : list event) : list event := filter is_post tr.

Definition is_prompt (e : event) : bool :=
  match e with Prompt _ _ | Confirm _ _ => true | _ => false end.

Definition written (tr : list event) : list (string * string) :=
  flat_map (fun e => match e with
                     | WriteFile p c => [(p, c)]
                     | _ => []
                     end) tr.

(** The answer to the last question of [deploy], if it was asked. *)
Definition confirm_step (acc : option bool) (e : event) : option bool :=
  match e with
  | Confirm text b =>
      if startswith "Your current configration are: " text
      then Some b else acc
  | _ => acc
  end.

Definition confirmation (tr : list event) : option bool :=
  fold_left confirm_step tr None.

End Cli.
Import Cli.

(* ------------------------------------------------------------------ *)
(** ** Vocabulary of the properties

    Predicates on values, URLs, traces and runs in which the properties of
    the workflow are stated and proved. *)

Module JsonProps.

(** Only whitespace, as [json.dumps] puts between tokens. *)
Fixpoint all_ws (s : string) : bool :=
  match s with
  | EmptyString => true
  | String c s' => is_ws c && all_ws s'
  end.

(** Text may follow a number only if it does not extend the literal. *)
Definition follow_ok (s : string) : bool :=
  match s with
  | EmptyString => true
  | String c _ =>
      negb (is_digit c) &&
      negb ((code c =? 46) || (code c =? 101) || (code c =? 69))%N
  end.

(** The first character of an encoded value. *)
Definition value_start (c : ascii) : bool :=
  is_digit c ||
  ((code c =? 45) || (code c =? 34) || (code c =? 123) || (code c =? 91) ||
   (code c =? 110) || (code c =? 116) || (code c =? 102))%N.

(** The scanner, given fuel for the size of [v], reads the text of [v]
    back and stops right behind it. *)
Definition reads_back (v : pyval) : Prop :=
  forall indent level fuel rest,
    wf v = true -> (size v <= fuel)%nat -> follow_ok rest = true ->
    scan_once fuel (encode indent level v ++ rest) = Some (plain v, rest).

Definition items_size (l : list pyval) : nat :=
  fold_right (fun x n => S (size x) + n)%nat O l.

Definition members_size (d : pydict) : nat :=
  fold_right (fun kv n => S (size (snd kv)) + n)%nat O d.

(** One [key: value] item of an encoded dict. *)
Definition member (indent : option nat) (level : nat) (kv : string * pyval)
  : string :=
  encode_str (fst kv) ++ key_separator ++ encode indent level (snd kv).

Definition plain_members (d : pydict) : pydict :=
  map (fun kv => (fst kv, plain (snd kv))) d.

End JsonProps.
Import JsonProps.

Module UrlProps.

(** A base URL that is nothing but [http://authority] or
    [https://authority]: no path, query or fragment, no trailing slash. *)
Definition is_authority_char (c : ascii) : bool :=
  negb (is_netloc_end c) &&
  negb ((code c =? 9) || (code c =? 10) || (code c =? 13))%N.

Definition is_authority (n : string) : bool :=
  negb (str_eqb n EmptyString) && all_chars is_authority_char n.

Definition is_origin (api_url : string) : bool :=
  match drop_prefix "http://" api_url with
  | Some n => is_authority n
  | None =>
      match drop_prefix "https://" api_url with
      | Some n => is_authority n
      | None => false
      end
  end.

(** A path that [urljoin] leaves as it is. *)
Definition is_plain_path (path : string) : bool :=
  startswith "/" path && str_eqb (resolve_path path) path.

(** The text of an [int] holds digits and a sign, so it is one path
    segment and neither ["."] nor [".."]. *)
Definition is_int_char (c : ascii) : bool := is_digit c || (code c =? 45)%N.

Definition not_dots (seg : string) : bool :=
  negb (str_eqb seg ".." || str_eqb seg ".").

End UrlProps.
Import UrlProps.

Module CliProps.

(** Every event that [m] adds to the trace, however [m] ends, satisfies
    [ok]. *)
Definition emits {A} (ok : event -> bool) (m : M A) : Prop :=
  forall s r s', m s = (r, s') ->
    exists evs, trace s' = (trace s ++ evs)%list /\ forallb ok evs = true.

(** Classes of events. *)
Definition is_echo (e : event) : bool :=
  match e with Echo _ => true | _ => false end.

Definition is_write (e : event) : bool :=
  match e with WriteFile _ _ => true | _ => false end.

Definition is_call (name : string) (e : event) : bool :=
  match e with Call n => str_eqb n name | _ => false end.

Definition is_final_confirm (e : event) : bool :=
  match e with
  | Confirm text _ => startswith "Your current configration are: " text
  | _ => false
  end.

(** What [cli] may emit: requests, output and directories. *)
Definition probing (e : event) : bool :=
  match e with
  | HttpGet _ | Echo _ | Makedirs _ => true
  | _ => false
  end.

(** What [get_app_arguments] may emit. *)
Definition prompting (e : event) : bool :=
  match e with Prompt _ _ => true | _ => false end.

(** What may happen before the last question of [deploy]: anything but a
    POST, a written file or that question. *)
Definition gathering (e : event) : bool :=
  negb (is_post e) && negb (is_write e) && negb (is_final_confirm e).

(** What [logging] may emit. *)
Definition reporting (e : event) : bool :=
  match e with Echo _ | WriteFile _ _ => true | _ => false end.

(** The probe is answered 200 with a JSON object that has a [message]; the
    probe raises inside the [try], by itself or for want of that. *)
Definition probe_welcomes (r : http_reply) : bool :=
  match r with
  | Response code text =>
      (code =? 200) &&
      match loads text with
      | Some (PDict d) => has_key d "message"
      | _ => false
      end
  | RequestException => false
  end.

Definition probe_fails (r : http_reply) : bool :=
  match r with
  | Response code text => (code =? 200) && negb (probe_welcomes r)
  | RequestException => true
  end.

(** The fields that section 4.2.1 of the specification lists for an
    application name and a deployment mode. *)
Definition spec_app_fields (name : string) (serverless : bool)
  : list string :=
  if str_eqb name "node" then ["id"; "port"; "host"; "network"]
  else if str_eqb name "network" && negb serverless then ["port"; "host"]
  else [].

(** The configuration after the gathering steps of [deploy], from the one
    before: [fields] are the application arguments, [vpc] the VPC
    configuration if one was fetched. *)
Definition gathered (c : pydict) (provider app : string) (sl ws : bool)
    (fields : pydict) (vpc : option pyval) : pydict :=
  let c := dict_set c "provider" (PStr provider) in
  let c := dict_set c "app" (PObj (("name", PStr app) :: fields)) in
  let c := dict_set c "serverless" (PBool sl) in
  let c := dict_set c "websockets" (PBool ws) in
  match vpc with
  | Some v => dict_set c "vpc" v
  | None => c
  end.

Definition is_some {A} (o : option A) : bool :=
  match o with Some _ => true | None => false end.

Definition all_str (d : pydict) : bool :=
  forallb (fun kv => match snd kv with PStr _ => true | _ => false end) d.

(** The body of the POST for a configuration [c]: its JSON text, encoded
    as a JSON string. *)
Definition deploy_body (c : pydict) : string :=
  dumps None (PStr (dumps (Some 2%nat) (PDict c))).

Section Shapes.

Variable w : world.

(** The last question of [deploy], showing the configuration [c]. *)
Definition final_text (c : pydict) : string :=
  continue_text (colored w (PStr (dumps (Some 2%nat) (PDict c))) None).

(** The configuration that [cli] leaves, and the file it names. *)
Definition base_config (out api : string) : pydict :=
  [("api_url", PStr api);
   ("pygrid_root_path", PStr (pygrid_root w));
   ("output_file", PStr (pygrid_root w ++ "/" ++ out))].

Definition output_path (out : string) : string := pygrid_root w ++ "/" ++ out.

(** The final state of a [deploy] run that returned: the configuration and
    the trace in terms of what was gathered and of the answer [ok] to the
    last question. *)
Inductive deploy_shape (out api p a : string) (s' : state) : Prop :=
| DeployShape (cloud db : pyval) (sl ws : bool) (fields : pydict)
    (vpc : option pyval) (ok : bool) (pre tail : list event)
    (g := gathered (base_config out api) (lower p) (lower a) sl ws fields vpc)
    (ds_config :
       config s' =
       if ok
       then dict_set g "credentials" (PObj [("cloud", cloud); ("db", db)])
       else g)
    (ds_trace :
       trace s' =
       (pre ++
        Confirm (final_text g) ok ::
        (if ok
         then HttpPost (urljoin api "/deploy") (deploy_body (config s')) :: tail
         else []) ++
        [Echo ("Writing configs to " ++ output_path out);
         WriteFile (output_path out)
           (dumps (Some 2%nat) (PDict (config s')))])%list)
    (ds_pre : forallb gathering pre = true)
    (ds_tail : forallb is_echo tail = true)
    (ds_fields : map fst fields = spec_app_fields (lower a) sl)
    (ds_fields_str : all_str fields = true)
    (ds_vpc : is_some vpc = str_eqb (lower p) "aws")
    (ds_vpc_call :
       existsb (is_call "aws.get_vpc_config") pre = str_eqb (lower p) "aws")
    (ds_db_call : existsb (is_call "aws.get_db_config") pre = true)
    (ds_cloud_src : exists text, loads text = Some cloud)
    (ds_db_src : exists input rest, get_db_config w input = Some (db, rest))
    (ds_vpc_src : forall v, vpc = Some v ->
       exists input rest, get_vpc_config w input = Some (v, rest))
    (ds_accepted :
       choice_accepts provider_choices p = true /\
       choice_accepts deploy_app_choices a = true)
    (ds_writable : writable w (output_path out) = true).

(** The final state of a [deploy] run that got as far as the last question,
    however it ended afterwards. *)
Inductive submit_shape (out api p a : string) (r : outcome unit)
    (s' : state) : Prop :=
| SubmitShape (cloud db : pyval) (sl ws : bool) (fields : pydict)
    (vpc : option pyval) (ok : bool) (pre post : list event)
    (g := gathered (base_config out api) (lower p) (lower a) sl ws fields vpc)
    (ss_config :
       config s' =
       if ok
       then dict_set g "credentials" (PObj [("cloud", cloud); ("db", db)])
       else g)
    (ss_trace :
       trace s' =
       (pre ++
        Confirm (final_text g) ok ::
        (if ok
         then [HttpPost (urljoin api "/deploy") (deploy_body (config s'))]
         else []) ++ post)%list)
    (ss_pre : forallb gathering pre = true)
    (ss_post : forallb reporting post = true)
    (ss_declined :
       ok = false -> writable w (output_path out) = true ->
       r = Done tt /\
       post = [Echo ("Writing configs to " ++ output_path out);
               WriteFile (output_path out)
                 (dumps (Some 2%nat) (PDict (config s')))]).

(** The helpers of [provider_utils] return Python values, whose dicts have
    no repeated key. *)
Definition helpers_wf : Prop :=
  forall input v rest,
    get_vpc_config w input = Some (v, rest) \/
    get_db_config w input = Some (v, rest) ->
    wf v = true.

End Shapes.

End CliProps.
Import CliProps.

(* ------------------------------------------------------------------ *)
(** ** A concrete machine, for running the program

    A home directory with AWS credentials of one key, an API that
    answers the probe at [api] with [probe] and everything else with 200,
    and helpers that return fixed records. *)

Module Demo.

Definition credentials_path : string := "/home/user/.aws/credentials.json".

Definition demo_world (probe : http_reply) (api : string) : world := {|
  home := "/home/user";
  environ := fun _ => None;
  http_get := fun url => if str_eqb url api then probe
                         else Response 200 (dumps None (PList []));
  http_post := fun _ _ =>
    Response 200 (dumps None (PDict [("status", PStr "created")]));
  read_file := fun path =>
    if str_eqb path credentials_path
    then Some (dumps None (PDict [("key", PStr "secret")])) else None;
  makedirs_ok := fun _ => true;
  writable := fun _ => true;
  colored := fun v _ => match v with PStr s => s | other => dumps None other end;
  get_vpc_config := fun input =>
    Some (PObj [("cidr_block", PStr "10.0.0.0/16")], input);
  get_db_config := fun input =>
    Some (PObj [("username", PStr "admin")], input)
|}.

Definition ok_probe : http_reply :=
  Response 200 (dumps None (PDict [("message", PStr "ok")])).

(** The answers of the scenario in the specification: default credentials
    path, not serverless, no websockets, node n1 on 0.0.0.0:5000 in the
    network 0.0.0.0:7000, and the answer to the last question. *)
Definition node_answers (final : string) : list string :=
  [EmptyString; "n"; "n"; "n1"; "5000"; "0.0.0.0"; "0.0.0.0:7000"; final].

Definition origin_api : string := "http://localhost:5000".
Definition path_api : string := "http://localhost:5000/api".

Definition healthy (api : string) : world := demo_world ok_probe api.

Definition failing : world :=
  demo_world (Response 500 "Internal Server Error") origin_api.

(** The state in which [deploy] reaches [get_app_arguments]. *)
Definition before_arguments (name : string) (serverless : bool)
    (input : list string) : state :=
  {| config := [("app", PObj [("name", PStr name)]);
                ("serverless", PBool serverless)];
     stdin := input; trace := [] |}.

Definition get_url (e : event) : list string :=
  match e with HttpGet u => [u] | _ => [] end.

Definition post_url (e : event) : list string :=
  match e with HttpPost u _ => [u] | _ => [] end.

End Demo.

(* ------------------------------------------------------------------ *)
(** ** Vocabulary for whole runs, however they end *)

Module RunProps.

(** The URLs requested with GET, in order. *)
Definition gets (tr : list event) : list string :=
  flat_map (fun e => match e with HttpGet u => [u] | _ => [] end) tr.

Definition not_write (e : event) : bool := negb (is_write e).

(** What a [status] run may emit: requests with GET, output, the root
    directory and the output file; no question, no POST, no file read and
    no call of a provider helper. *)
Definition reading (e : event) : bool :=
  match e with
  | HttpGet _ | Echo _ | Makedirs _ | WriteFile _ _ => true
  | _ => false
  end.


(** The first question of [deploy] and its default answer, for the stored
    provider name. *)
Definition credentials_question (w : world) (provider : string) : string :=
  "Please enter path to your  " ++
  colored w (PStr (provider ++ " credentials")) None ++ " json file".

Definition default_credentials (w : world) (provider : string) : string :=
  home w ++ "/." ++ provider ++ "/credentials.json".


(** The value of an environment variable, or a fallback. *)
Definition env_or (w : world) (name fallback : string) : string :=
  match environ w name with
  | Some v => v
  | None => fallback
  end.

(** What a prompt with a default returns for a line of input. *)
Definition answered (line default : string) : string :=
  if str_eqb line EmptyString then default else line.

(** The last question of [deploy] was asked and answered yes. *)
Definition said_yes (tr : list event) : bool :=
  match confirmation tr with
  | Some true => true
  | _ => false
  end.

(** The fields of the written configuration of a [deploy] run, in order. *)
Definition deploy_keys (aws confirmed : bool) : list string :=
  (["api_url"; "pygrid_root_path"; "output_file";
    "provider"; "app"; "serverless"; "websockets"] ++
   (if aws then ["vpc"] else []) ++
   (if confirmed then ["credentials"] else []))%list.

(** A base URL with something after the authority: a path, a query or a
    fragment. *)
Definition below (origin : string) (c : ascii) (rest : string) : string :=
  origin ++ String c rest.

End RunProps.
Import RunProps.

(* ------------------------------------------------------------------ *)
(** ** Further machines *)

Module Cases.

Import Demo.

(** [demo_world] with other answers to requests and another environment. *)
Definition machine (get : string -> http_reply)
    (post : string -> string -> http_reply)
    (env : string -> option string) (dirs : bool) : world := {|
  home := "/home/user";
  environ := env;
  http_get := get;
  http_post := post;
  read_file := read_file (healthy origin_api);
  makedirs_ok := fun _ => dirs;
  writable := fun _ => true;
  colored := colored (healthy origin_api);
  get_vpc_config := get_vpc_config (healthy origin_api);
  get_db_config := get_db_config (healthy origin_api)
|}.

Definition no_env : string -> option string := fun _ => None.

Definition created : string -> string -> http_reply :=
  http_post (healthy origin_api).



(** The root directory cannot be made. *)
Definition read_only_home : world :=
  machine (http_get (healthy origin_api)) created no_env false.


(** An environment that presets the node. *)
Definition node_env : string -> option string :=
  fun name =>
    if str_eqb name "NODE_ID" then Some "n7"
    else if str_eqb name "GRID_NODE_PORT" then Some "5001"
    else None.

Definition preset : world :=
  machine (http_get (healthy origin_api)) created node_env true.

End Cases.

(* ------------------------------------------------------------------ *)
(** ** Facts about strings and the JSON codec *)

Module JsonFacts.

Lemma sapp_assoc (a b c : string) : (a ++ b) ++ c = a ++ (b ++ c).
Proof.
  induction a as [|x a IH]; simpl; [reflexivity|]. now rewrite IH.
Qed.

Lemma sapp_nil_r (a : string) : a ++ EmptyString = a.
Proof.
  induction a as [|x a IH]; simpl; [reflexivity|]. now rewrite IH.
Qed.

Lemma slength_app (a b : string) :
  String.length (a ++ b) = (String.length a + String.length b)%nat.
Proof.
  induction a as [|x a IH]; simpl; [reflexivity|]. now rewrite IH.
Qed.

(** Case analysis on all 256 code points. *)
Ltac each_char c :=
  destruct c as [[] [] [] [] [] [] [] []].

(** *** Strings *)

Lemma scanstring_escape_char (c : ascii) (t : string) :
  scanstring (escape_char c ++ t) =
  match scanstring t with
  | Some (u, r) => Some (String c u, r)
  | None => None
  end.
Proof. each_char c; reflexivity. Qed.

Lemma scanstring_escape (s rest : string) :
  scanstring (escape s ++ String dquote rest) = Some (s, rest).
Proof.
  induction s as [|c s IH]; simpl.
  - reflexivity.
  - rewrite sapp_assoc, scanstring_escape_char, IH. reflexivity.
Qed.

Lemma encode_str_app (s rest : string) :
  encode_str s ++ rest = String dquote (escape s ++ String dquote rest).
Proof. unfold encode_str. simpl. now rewrite sapp_assoc. Qed.

(** *** Whitespace *)


Lemma skip_ws_all_ws (w s : string) :
  all_ws w = true -> skip_ws (w ++ s) = skip_ws s.
Proof.
  induction w as [|c w IH]; simpl; [reflexivity|].
  intros H. apply andb_prop in H as [Hc Hw]. rewrite Hc. auto.
Qed.

Lemma all_ws_spaces (n : nat) : all_ws (spaces n) = true.
Proof. induction n; simpl; auto. Qed.

Lemma all_ws_newline_indent (indent : option nat) (level : nat) :
  all_ws (newline_indent indent level) = true.
Proof.
  destruct indent; simpl; [apply all_ws_spaces | reflexivity].
Qed.

Lemma skip_ws_newline_indent indent level s :
  skip_ws (newline_indent indent level ++ s) = skip_ws s.
Proof. apply skip_ws_all_ws, all_ws_newline_indent. Qed.

Lemma skip_ws_stop (c : ascii) (s : string) :
  is_ws c = false -> skip_ws (String c s) = String c s.
Proof. intros H. simpl. now rewrite H. Qed.

(** *** Numbers *)

Lemma scan_digits_stop (c : ascii) (r : string) :
  is_digit c = false -> scan_digits (String c r) = (Nil, String c r).
Proof. each_char c; intros H; try discriminate H; reflexivity. Qed.


Lemma scan_digits_uint (u : Decimal.uint) (rest : string) :
  follow_ok rest = true ->
  scan_digits (uint_digits u ++ rest) = (u, rest).
Proof.
  intros H. induction u; simpl; try (rewrite IHu; reflexivity).
  destruct rest as [|c r]; [reflexivity|].
  apply scan_digits_stop. simpl in H.
  apply andb_prop in H as [H _]. now apply negb_true_iff in H.
Qed.

Lemma follow_ok_float (c : ascii) (r : string) :
  follow_ok (String c r) = true ->
  ((code c =? 46) || (code c =? 101) || (code c =? 69))%N = false.
Proof.
  simpl. intros H. apply andb_prop in H as [_ H]. now apply negb_true_iff in H.
Qed.

Lemma scan_uint_zero (rest : string) :
  follow_ok rest = true ->
  scan_uint (String "0" rest) = Some (D0 Nil, rest).
Proof.
  intros H. unfold scan_uint. simpl. destruct rest as [|c r]; [reflexivity|].
  now rewrite (follow_ok_float c r H).
Qed.

Lemma to_uint_head (p : positive) :
  exists c t, uint_digits (Pos.to_uint p) = String c t /\
              is_digit c = true /\ (code c =? 48)%N = false.
Proof.
  assert (Hn : Pos.to_uint p = unorm (Pos.to_uint p)).
  { pose proof (DecimalPos.Unsigned.to_of (Pos.to_uint p)) as H.
    rewrite DecimalPos.Unsigned.of_to in H. simpl in H. exact H. }
  pose proof (DecimalPos.Unsigned.to_uint_nonnil p) as Hnil.
  pose proof (DecimalPos.Unsigned.to_uint_nonzero p) as Hz.
  destruct (Pos.to_uint p) as [|u|u|u|u|u|u|u|u|u|u] eqn:E;
    try (simpl; do 2 eexists; split; [reflexivity|split; reflexivity]).
  - contradiction.
  - exfalso. unfold unorm in Hn. rewrite nzhead_D0 in Hn.
    destruct (nzhead u) eqn:En; try (rewrite <- En in Hn;
      exact (nzhead_nonzero _ _ (eq_sym Hn))).
    apply Hz. exact Hn.
Qed.

Lemma scan_uint_pos (p : positive) (rest : string) :
  follow_ok rest = true ->
  scan_uint (uint_digits (Pos.to_uint p) ++ rest) = Some (Pos.to_uint p, rest).
Proof.
  intros H. destruct (to_uint_head p) as (c & t & E & Hd & Hz).
  pose proof (scan_digits_uint (Pos.to_uint p) rest H) as Hs.
  rewrite E in Hs |- *.
  change (String c t ++ rest) with (String c (t ++ rest)) in Hs |- *.
  unfold scan_uint. rewrite Hz, Hd, Hs. destruct rest as [|d r]; [reflexivity|].
  now rewrite (follow_ok_float d r H).
Qed.

Lemma scan_number_digit (c : ascii) (s : string) :
  is_digit c = true ->
  scan_number (String c s) =
  match scan_uint (String c s) with
  | Some (u, r) => Some (Z.of_int (Decimal.Pos u), r)
  | None => None
  end.
Proof.
  intros Hd. unfold scan_number.
  assert (Hm : (code c =? 45)%N = false).
  { clear - Hd. each_char c; try discriminate Hd; reflexivity. }
  now rewrite Hm.
Qed.

Lemma scan_number_minus (s : string) :
  scan_number (String "-" s) =
  match scan_uint s with
  | Some (u, r) => Some (Z.of_int (Decimal.Neg u), r)
  | None => None
  end.
Proof. reflexivity. Qed.

Lemma scan_number_str_of_int (z : Z) (rest : string) :
  follow_ok rest = true ->
  scan_number (str_of_int z ++ rest) = Some (z, rest).
Proof.
  intros H. destruct z as [|p|p].
  - change (str_of_int 0 ++ rest) with (String "0" rest).
    rewrite scan_number_digit by reflexivity.
    rewrite scan_uint_zero by assumption. reflexivity.
  - change (str_of_int (Z.pos p)) with (uint_digits (Pos.to_uint p)).
    destruct (to_uint_head p) as (c & t & E & Hd & Hz).
    pose proof (scan_uint_pos p rest H) as Hs.
    rewrite E in Hs |- *.
    change (String c t ++ rest) with (String c (t ++ rest)) in Hs |- *.
    rewrite scan_number_digit, Hs by assumption. f_equal. f_equal.
    change (Z.of_int (Z.to_int (Z.pos p)) = Z.pos p). apply DecimalZ.of_to.
  - change (str_of_int (Z.neg p) ++ rest)
      with (String "-" (uint_digits (Pos.to_uint p) ++ rest)).
    rewrite scan_number_minus, scan_uint_pos by assumption.
    f_equal. f_equal.
    change (Z.of_int (Z.to_int (Z.neg p)) = Z.neg p). apply DecimalZ.of_to.
Qed.

(** *** Values *)

(** Nested induction on [pyval]: the items of a list or dict satisfy the
    property before the container does. *)
Lemma pyval_nested_ind (P : pyval -> Prop) :
  P PNone -> (forall b, P (PBool b)) -> (forall z, P (PInt z)) ->
  (forall s, P (PStr s)) ->
  (forall l, Forall P l -> P (PList l)) ->
  (forall d, Forall (fun kv => P (snd kv)) d -> P (PDict d)) ->
  (forall d, Forall (fun kv => P (snd kv)) d -> P (PObj d)) ->
  forall v, P v.
Proof.
  intros Hn Hb Hz Hs Hl Hd Ho.
  fix go 1. intros v. destruct v as [|b|z|s|l|d|d].
  - exact Hn.
  - apply Hb.
  - apply Hz.
  - apply Hs.
  - apply Hl. induction l as [|x l IH]; constructor; [apply go | exact IH].
  - apply Hd. induction d as [|[k x] d IH]; constructor; [apply go | exact IH].
  - apply Ho. induction d as [|[k x] d IH]; constructor; [apply go | exact IH].
Qed.


Lemma str_of_int_start (z : Z) :
  exists c t, str_of_int z = String c t /\
              (is_digit c || (code c =? 45)%N) = true.
Proof.
  destruct z as [|p|p].
  - exists "0"%char, EmptyString. split; reflexivity.
  - destruct (to_uint_head p) as (c & t & E & Hd & _).
    exists c, t. split; [exact E | now rewrite Hd].
  - exists "-"%char, (uint_digits (Pos.to_uint p)). split; reflexivity.
Qed.

Lemma encode_start indent level v :
  exists c t, encode indent level v = String c t /\ value_start c = true.
Proof.
  destruct v as [|[]|z|s|[|x l]|[|kx d]|[|kx d]]; simpl;
    try (do 2 eexists; split; [reflexivity | reflexivity]).
  destruct (str_of_int_start z) as (c & t & E & H).
  exists c, t. split; [exact E|]. unfold value_start.
  apply orb_prop in H as [H|H]; rewrite H; [reflexivity|].
  now rewrite orb_true_r.
Qed.

Lemma value_start_facts (c : ascii) :
  value_start c = true ->
  is_ws c = false /\ (code c =? 93)%N = false /\ (code c =? 125)%N = false.
Proof. each_char c; intros H; try discriminate H; repeat split. Qed.

Lemma skip_ws_encode indent level v rest :
  skip_ws (encode indent level v ++ rest) = encode indent level v ++ rest.
Proof.
  destruct (encode_start indent level v) as (c & t & E & H).
  rewrite E. apply skip_ws_stop. now apply value_start_facts.
Qed.

(** The scanner, one step at a time. *)
Lemma scan_once_number (f : nat) (c : ascii) (s : string) :
  (is_digit c || (code c =? 45)%N) = true ->
  scan_once (S f) (String c s) =
  match scan_number (String c s) with
  | Some (z, r) => Some (PInt z, r)
  | None => None
  end.
Proof. each_char c; intros H; try discriminate H; reflexivity. Qed.

Lemma scan_once_string (f : nat) (s : string) :
  scan_once (S f) (String dquote s) =
  match scanstring s with
  | Some (t, r) => Some (PStr t, r)
  | None => None
  end.
Proof. reflexivity. Qed.

Lemma scan_once_array (f : nat) (s : string) :
  scan_once (S f) (String "[" s) =
  match skip_ws s with
  | String c1 r1 =>
      if (code c1 =? 93)%N then Some (PList [], r1)
      else
        match json_elems f (String c1 r1) with
        | Some (l, r) => Some (PList l, r)
        | None => None
        end
  | EmptyString => None
  end.
Proof. reflexivity. Qed.

Lemma scan_once_object (f : nat) (s : string) :
  scan_once (S f) (String "{" s) =
  match skip_ws s with
  | String c1 r1 =>
      if (code c1 =? 125)%N then Some (PDict [], r1)
      else if (code c1 =? 34)%N then
        match json_members f r1 with
        | Some (pairs, r) => Some (PDict (dict_of_pairs pairs), r)
        | None => None
        end
      else None
  | EmptyString => None
  end.
Proof. reflexivity. Qed.

Lemma json_elems_S (f : nat) (s : string) :
  json_elems (S f) s =
  match scan_once f s with
  | Some (v, r) =>
      match skip_ws r with
      | String c r1 =>
          if (code c =? 93)%N then Some ([v], r1)
          else if (code c =? 44)%N then
            match json_elems f (skip_ws r1) with
            | Some (l, r2) => Some (v :: l, r2)
            | None => None
            end
          else None
      | EmptyString => None
      end
  | None => None
  end.
Proof. reflexivity. Qed.

Lemma json_members_S (f : nat) (s : string) :
  json_members (S f) s =
  match scanstring s with
  | Some (k, r) =>
      match skip_ws r with
      | String c r1 =>
          if (code c =? 58)%N then
            match scan_once f (skip_ws r1) with
            | Some (v, r2) =>
                match skip_ws r2 with
                | String c2 r3 =>
                    if (code c2 =? 125)%N then Some ([(k, v)], r3)
                    else if (code c2 =? 44)%N then
                      match skip_ws r3 with
                      | String c3 r4 =>
                          if (code c3 =? 34)%N then
                            match json_members f r4 with
                            | Some (pairs, r5) => Some ((k, v) :: pairs, r5)
                            | None => None
                            end
                          else None
                      | EmptyString => None
                      end
                    else None
                | EmptyString => None
                end
            | None => None
            end
          else None
      | EmptyString => None
      end
  | None => None
  end.
Proof. reflexivity. Qed.

(** The separator between items: a comma, then only whitespace. *)
Lemma separator_shape indent level (s : string) :
  exists w, all_ws w = true /\
    (item_separator indent ++ newline_indent indent level) ++ s =
    String "," (w ++ s).
Proof.
  destruct indent as [n|].
  - exists (newline_indent (Some n) level). split.
    + apply all_ws_newline_indent.
    + reflexivity.
  - exists " ". split; reflexivity.
Qed.

Lemma follow_ok_ws (w s : string) :
  all_ws w = true -> follow_ok s = true -> follow_ok (w ++ s) = true.
Proof.
  destruct w as [|c w]; simpl; [auto|]. intros H _.
  apply andb_prop in H as [H _]. revert H. clear.
  each_char c; intros H; try discriminate H; reflexivity.
Qed.

(** *** [dict(pairs)] on distinct keys *)

Lemma dict_set_fresh (d : pydict) (k : string) (v : pyval) :
  forallb (fun k' => negb (str_eqb k' k)) (map fst d) = true ->
  dict_set d k v = (d ++ [(k, v)])%list.
Proof.
  induction d as [|[k' v'] d IH]; simpl; [reflexivity|]. intros H.
  apply andb_prop in H as [H1 H2]. apply negb_true_iff in H1.
  rewrite H1, IH by assumption. reflexivity.
Qed.

Lemma nodup_keys_app (ks1 : list string) (k : string) (ks2 : list string) :
  nodup_keys (ks1 ++ k :: ks2)%list = true ->
  forallb (fun k' => negb (str_eqb k' k)) ks1 = true /\
  nodup_keys ((ks1 ++ [k]) ++ ks2)%list = true.
Proof.
  intros H. split.
  - induction ks1 as [|a ks1 IH]; simpl in *; [reflexivity|].
    apply andb_prop in H as [H1 H2]. rewrite IH by assumption.
    rewrite forallb_app in H1. apply andb_prop in H1 as [_ H1].
    simpl in H1. apply andb_prop in H1 as [H1 _]. now rewrite H1.
  - now rewrite <- List.app_assoc.
Qed.

Lemma fold_dict_set_nodup (d acc : pydict) :
  nodup_keys (map fst (acc ++ d)%list) = true ->
  fold_left (fun a kv => dict_set a (fst kv) (snd kv)) d acc = (acc ++ d)%list.
Proof.
  revert acc. induction d as [|[k v] d IH]; intros acc H; simpl.
  - now rewrite List.app_nil_r.
  - rewrite List.map_app in H. simpl in H.
    apply nodup_keys_app in H as [Hk Hn].
    rewrite dict_set_fresh by assumption.
    rewrite IH.
    + now rewrite <- List.app_assoc.
    + now rewrite !List.map_app in *.
Qed.

Lemma dict_of_pairs_nodup (d : pydict) :
  nodup_keys (map fst d) = true -> dict_of_pairs d = d.
Proof. intros H. unfold dict_of_pairs. now rewrite fold_dict_set_nodup. Qed.

(** *** Reading back what [encode] wrote *)






Lemma encode_list indent level l :
  encode indent level (PList l) =
  bracketed (item_separator indent ++ newline_indent indent (S level))
    (encode indent (S level)) "[" "]"
    (newline_indent indent (S level)) (newline_indent indent level) l.
Proof. reflexivity. Qed.

Lemma encode_dict indent level d :
  encode indent level (PDict d) =
  bracketed (item_separator indent ++ newline_indent indent (S level))
    (member indent (S level)) "{" "}"
    (newline_indent indent (S level)) (newline_indent indent level) d.
Proof. reflexivity. Qed.

Lemma encode_obj indent level d :
  encode indent level (PObj d) = encode indent level (PDict d).
Proof. reflexivity. Qed.

Lemma bracketed_cons_app {A} sep (f : A -> string) o c nin nout x l rest :
  bracketed sep f o c nin nout (x :: l) ++ rest =
  o ++ nin ++ f x ++ tail_items sep f l ++ nout ++ c ++ rest.
Proof. unfold bracketed. now rewrite !sapp_assoc. Qed.

Lemma tail_items_cons {A} sep (f : A -> string) (y : A) (l : list A) :
  tail_items sep f (y :: l) = sep ++ f y ++ tail_items sep f l.
Proof. reflexivity. Qed.

Lemma json_elems_items indent level (l : list pyval) :
  Forall reads_back l ->
  forall x fuel w rest,
    reads_back x -> wf x = true -> forallb wf l = true ->
    (S (size x) + items_size l <= fuel)%nat ->
    all_ws w = true ->
    json_elems fuel
      (encode indent level x ++
       tail_items (item_separator indent ++ newline_indent indent level)
         (encode indent level) l ++ w ++ String "]" rest) =
    Some (plain x :: map plain l, rest).
Proof.
  induction 1 as [|y l Hy Hl IH]; intros x fuel w rest Hx Wx Wl Hf Hw;
    (destruct fuel as [|f]; [simpl in Hf; lia|]); rewrite json_elems_S.
  - simpl tail_items. simpl append at 2.
    rewrite Hx; [ | assumption | simpl in Hf; lia
                  | apply follow_ok_ws; [assumption | reflexivity] ].
    rewrite skip_ws_all_ws by assumption. reflexivity.
  - simpl in Wl. apply andb_prop in Wl as [Wy Wl].
    simpl tail_items. rewrite !sapp_assoc.
    destruct (separator_shape indent level
                (encode indent level y ++
                 tail_items (item_separator indent ++ newline_indent indent level)
                   (encode indent level) l ++ w ++ String "]" rest))
      as (w' & Hw' & E).
    rewrite sapp_assoc in E. rewrite E.
    change (items_size (y :: l)) with (S (size y) + items_size l)%nat in Hf.
    rewrite Hx; [ | assumption | lia | reflexivity ].
    rewrite skip_ws_stop by reflexivity.
    change (code "," =? 93)%N with false. change (code "," =? 44)%N with true.
    cbv iota.
    rewrite skip_ws_all_ws, skip_ws_encode by assumption.
    rewrite (IH y f w rest Hy Wy Wl); [reflexivity | | assumption].
    change (items_size (y :: l)) with (S (size y) + items_size l)%nat in Hf.
    lia.
Qed.

Lemma member_app indent level (kv : string * pyval) (rest : string) :
  member indent level kv ++ rest =
  String dquote
    (escape (fst kv) ++
     String dquote (String ":" (String " "
       (encode indent level (snd kv) ++ rest)))).
Proof.
  unfold member. rewrite !sapp_assoc. rewrite encode_str_app. reflexivity.
Qed.

Lemma json_members_items indent level (d : pydict) :
  Forall (fun kv => reads_back (snd kv)) d ->
  forall k x fuel w rest,
    reads_back x -> wf x = true ->
    forallb (fun kv => wf (snd kv)) d = true ->
    (S (size x) + members_size d <= fuel)%nat ->
    all_ws w = true ->
    json_members fuel
      (escape k ++
       String dquote (String ":" (String " "
         (encode indent level x ++
          tail_items (item_separator indent ++ newline_indent indent level)
            (member indent level) d ++ w ++ String "}" rest)))) =
    Some ((k, plain x) :: plain_members d, rest).
Proof.
  induction 1 as [|[k' y] d Hy Hd IH]; intros k x fuel w rest Hx Wx Wd Hf Hw;
    (destruct fuel as [|f]; [simpl in Hf; lia|]);
    rewrite json_members_S, scanstring_escape;
    rewrite skip_ws_stop by reflexivity;
    change (code ":" =? 58)%N with true; cbv iota;
    change (skip_ws (String " " ?s)) with (skip_ws s);
    rewrite skip_ws_encode.
  - simpl tail_items. simpl append at 2.
    rewrite Hx; [ | assumption | simpl in Hf; lia
                  | apply follow_ok_ws; [assumption | reflexivity] ].
    rewrite skip_ws_all_ws by assumption. reflexivity.
  - simpl in Wd. apply andb_prop in Wd as [Wy Wd]. simpl in Hy.
    change (members_size ((k', y) :: d))
      with (S (size y) + members_size d)%nat in Hf.
    rewrite tail_items_cons, !sapp_assoc.
    destruct (separator_shape indent level
                (member indent level (k', y) ++
                 tail_items (item_separator indent ++ newline_indent indent level)
                   (member indent level) d ++ w ++ String "}" rest))
      as (w' & Hw' & E).
    rewrite sapp_assoc in E. rewrite E.
    rewrite Hx; [ | assumption | lia | reflexivity ].
    rewrite skip_ws_stop by reflexivity.
    change (code "," =? 125)%N with false. change (code "," =? 44)%N with true.
    cbv iota.
    rewrite skip_ws_all_ws by assumption.
    rewrite member_app. rewrite skip_ws_stop by reflexivity.
    change (code dquote =? 34)%N with true. cbv iota.
    simpl fst. simpl snd.
    rewrite (IH k' y f w rest Hy Wy Wd); [reflexivity | lia | assumption].
Qed.

Lemma wf_plain_keys (d : pydict) : map fst (plain_members d) = map fst d.
Proof. unfold plain_members. rewrite map_map. reflexivity. Qed.

Lemma reads_back_dict indent level fuel rest (d : pydict) :
  Forall (fun kv => reads_back (snd kv)) d ->
  nodup_keys (map fst d) && forallb (fun kv => wf (snd kv)) d = true ->
  (S (members_size d) <= fuel)%nat ->
  follow_ok rest = true ->
  scan_once fuel (encode indent level (PDict d) ++ rest) =
  Some (PDict (plain_members d), rest).
Proof.
  intros Hd W Hf Hr. apply andb_prop in W as [Wk Wd].
  destruct fuel as [|f]; [lia|].
  rewrite encode_dict. destruct d as [|[k x] d].
  - reflexivity.
  - rewrite bracketed_cons_app.
    change ("{" ++ ?s) with (String "{" s).
    rewrite scan_once_object, skip_ws_newline_indent.
    rewrite member_app. rewrite skip_ws_stop by reflexivity.
    change (code dquote =? 125)%N with false.
    change (code dquote =? 34)%N with true. cbv iota.
    simpl fst. simpl snd. simpl in Wd. apply andb_prop in Wd as [Wx Wd].
    change ("}" ++ rest) with (String "}" rest).
    rewrite (json_members_items indent (S level) d);
      [ | now inversion Hd | now inversion Hd | assumption | assumption
        | | apply all_ws_newline_indent ].
    + rewrite dict_of_pairs_nodup; [reflexivity|].
      change ((k, plain x) :: plain_members d)
        with (plain_members ((k, x) :: d)).
      now rewrite wf_plain_keys.
    + change (members_size ((k, x) :: d))
        with (S (size x) + members_size d)%nat in Hf. lia.
Qed.

Theorem scan_once_encode (v : pyval) : reads_back v.
Proof.
  induction v as [|b|z|s|l Hl|d Hd|d Hd] using pyval_nested_ind;
    intros indent level fuel rest W Hf Hr;
    (destruct fuel as [|f]; [simpl in Hf; lia|]).
  - reflexivity.
  - destruct b; reflexivity.
  - simpl encode. destruct (str_of_int_start z) as (c & t & E & Hc).
    pose proof (scan_number_str_of_int z rest Hr) as Hn.
    rewrite E in Hn |- *.
    change (String c t ++ rest) with (String c (t ++ rest)) in Hn |- *.
    rewrite scan_once_number, Hn by assumption. reflexivity.
  - simpl encode. rewrite encode_str_app, scan_once_string, scanstring_escape.
    reflexivity.
  - rewrite encode_list. destruct l as [|x l].
    + reflexivity.
    + rewrite bracketed_cons_app.
      change ("[" ++ ?s) with (String "[" s).
      rewrite scan_once_array, skip_ws_newline_indent.
      destruct (encode_start indent (S level) x) as (c & t & E & Hc).
      pose proof (json_elems_items indent (S level) l) as Hitems.
      simpl in W. apply andb_prop in W as [Wx Wl].
      specialize (Hitems (Forall_inv_tail Hl) x f
                    (newline_indent indent level) rest
                    (Forall_inv Hl) Wx Wl).
      change ("]" ++ rest) with (String "]" rest).
      rewrite E in Hitems |- *.
      change (String c t ++ ?s) with (String c (t ++ s)) in Hitems |- *.
      destruct (value_start_facts c Hc) as (Hws & H93 & _).
      rewrite skip_ws_stop, H93 by assumption.
      rewrite Hitems; [reflexivity | | apply all_ws_newline_indent].
      change (size (PList (x :: l)))
        with (S (S (size x) + items_size l))%nat in Hf. lia.
  - apply reads_back_dict; assumption.
  - rewrite encode_obj. apply reads_back_dict; assumption.
Qed.

(** [size v] calls suffice, and the text is at least that long. *)
Lemma tail_items_length {A} sep (f : A -> string) (g : A -> nat) (l : list A) :
  (1 <= String.length sep)%nat ->
  Forall (fun x => g x <= String.length (f x))%nat l ->
  (fold_right (fun x n => S (g x) + n) O l
   <= String.length (tail_items sep f l))%nat.
Proof.
  intros Hs. induction 1 as [|x l Hx Hl IH]; [simpl; lia|].
  rewrite tail_items_cons, !slength_app. cbv beta in Hx.
  change (fold_right (fun y n => S (g y) + n) O (x :: l))%nat
    with (S (g x) + fold_right (fun y n => S (g y) + n) O l)%nat.
  lia.
Qed.

Lemma separator_length indent level :
  (1 <= String.length (item_separator indent ++ newline_indent indent level))%nat.
Proof. destruct indent; simpl; lia. Qed.

Lemma bracketed_length {A} sep (f : A -> string) (g : A -> nat)
      (o c nin nout : string) (l : list A) :
  (1 <= String.length sep)%nat ->
  (1 <= String.length o)%nat -> (1 <= String.length c)%nat ->
  Forall (fun x => g x <= String.length (f x))%nat l ->
  (S (fold_right (fun x n => S (g x) + n) O l)
   <= String.length (bracketed sep f o c nin nout l))%nat.
Proof.
  intros Hs Ho Hc Hl. destruct l as [|x l]; unfold bracketed.
  - rewrite slength_app. simpl. lia.
  - rewrite !slength_app.
    change (fold_right (fun y n => S (g y) + n) O (x :: l))%nat
      with (S (g x) + fold_right (fun y n => S (g y) + n) O l)%nat.
    pose proof (tail_items_length sep f g l Hs (Forall_inv_tail Hl)).
    pose proof (Forall_inv Hl) as Hx. cbv beta in Hx. lia.
Qed.

Lemma size_le_length indent (v : pyval) :
  forall level, (size v <= String.length (encode indent level v))%nat.
Proof.
  induction v as [|b|z|s|l Hl|d Hd|d Hd] using pyval_nested_ind; intros level.
  - simpl. lia.
  - destruct b; simpl; lia.
  - simpl. destruct (str_of_int_start z) as (c & t & E & _). rewrite E.
    simpl. lia.
  - simpl. lia.
  - rewrite encode_list. apply bracketed_length;
      [apply separator_length | simpl; lia | simpl; lia | ].
    eapply Forall_impl; [|exact Hl]. intros x Hx. apply Hx.
  - rewrite encode_dict.
    apply (bracketed_length _ (member indent (S level))
             (fun kv => size (snd kv)));
      [apply separator_length | simpl; lia | simpl; lia | ].
    eapply Forall_impl; [|exact Hd]. intros kv Hx. unfold member.
    rewrite !slength_app. specialize (Hx (S level)). lia.
  - rewrite encode_obj, encode_dict.
    apply (bracketed_length _ (member indent (S level))
             (fun kv => size (snd kv)));
      [apply separator_length | simpl; lia | simpl; lia | ].
    eapply Forall_impl; [|exact Hd]. intros kv Hx. unfold member.
    rewrite !slength_app. specialize (Hx (S level)). lia.
Qed.

(** [json.loads(json.dumps(v))] is [v] with every [Config] turned into a
    [dict], for either layout. *)
Theorem loads_dumps (indent : option nat) (v : pyval) :
  wf v = true -> loads (dumps indent v) = Some (plain v).
Proof.
  intros W. unfold loads, dumps.
  pose proof (skip_ws_encode indent 0 v EmptyString) as Hs.
  rewrite sapp_nil_r in Hs. rewrite Hs.
  pose proof (scan_once_encode v indent 0%nat
                (S (String.length (encode indent 0 v))) EmptyString W) as H.
  rewrite sapp_nil_r in H. rewrite H; [reflexivity | | reflexivity].
  pose proof (size_le_length indent v 0%nat). lia.
Qed.

(** *** What [loads] returns is well formed *)

Lemma keys_dict_set (P : string -> bool) (d : pydict) (k : string) (v : pyval) :
  forallb P (map fst d) = true -> P k = true ->
  forallb P (map fst (dict_set d k v)) = true.
Proof.
  intros Hd Hk. induction d as [|[k' v'] d IH]; simpl in *.
  - now rewrite Hk.
  - apply andb_prop in Hd as [H1 H2].
    destruct (str_eqb k' k); simpl; rewrite ?Hk, ?H1, ?H2; auto.
Qed.

Lemma nodup_dict_set (d : pydict) (k : string) (v : pyval) :
  nodup_keys (map fst d) = true ->
  nodup_keys (map fst (dict_set d k v)) = true.
Proof.
  induction d as [|[k' v'] d IH]; simpl; [reflexivity|]. intros H.
  apply andb_prop in H as [H1 H2].
  destruct (str_eqb k' k) eqn:E; simpl.
  - apply String.eqb_eq in E. subst k'. now rewrite H1, H2.
  - rewrite IH by assumption. rewrite andb_true_r.
    apply keys_dict_set; [assumption | now rewrite E].
Qed.

Lemma values_dict_set (Q : pyval -> bool) (d : pydict) (k : string) (v : pyval) :
  forallb (fun kv => Q (snd kv)) d = true -> Q v = true ->
  forallb (fun kv => Q (snd kv)) (dict_set d k v) = true.
Proof.
  intros Hd Hv. induction d as [|[k' v'] d IH]; simpl in *.
  - now rewrite Hv.
  - apply andb_prop in Hd as [H1 H2].
    destruct (str_eqb k' k); simpl; rewrite ?Hv, ?H1, ?H2; auto.
Qed.

Lemma wf_dict_set (d : pydict) (k : string) (v : pyval) :
  wf (PDict d) = true -> wf v = true -> wf (PDict (dict_set d k v)) = true.
Proof.
  simpl. intros H Hv. apply andb_prop in H as [H1 H2].
  now rewrite nodup_dict_set, values_dict_set.
Qed.

Lemma wf_dict_of_pairs (pairs : list (string * pyval)) :
  forallb (fun kv => wf (snd kv)) pairs = true ->
  wf (PDict (dict_of_pairs pairs)) = true.
Proof.
  unfold dict_of_pairs.
  assert (G : forall acc, wf (PDict acc) = true ->
              forallb (fun kv => wf (snd kv)) pairs = true ->
              wf (PDict (fold_left (fun d kv => dict_set d (fst kv) (snd kv))
                           pairs acc)) = true).
  { induction pairs as [|[k v] l IH]; intros acc Ha H; [exact Ha|].
    simpl in H. apply andb_prop in H as [Hv Hl]. simpl fold_left.
    apply IH; [|assumption]. now apply wf_dict_set. }
  apply G. reflexivity.
Qed.

Lemma scan_once_S (f : nat) (s : string) :
  scan_once (S f) s =
  match s with
  | EmptyString => None
  | String c s' =>
      if (code c =? 34)%N then
        match scanstring s' with
        | Some (t, r) => Some (PStr t, r)
        | None => None
        end
      else if (code c =? 123)%N then
        match skip_ws s' with
        | String c1 r1 =>
            if (code c1 =? 125)%N then Some (PDict [], r1)
            else if (code c1 =? 34)%N then
              match json_members f r1 with
              | Some (pairs, r) => Some (PDict (dict_of_pairs pairs), r)
              | None => None
              end
            else None
        | EmptyString => None
        end
      else if (code c =? 91)%N then
        match skip_ws s' with
        | String c1 r1 =>
            if (code c1 =? 93)%N then Some (PList [], r1)
            else
              match json_elems f (String c1 r1) with
              | Some (l, r) => Some (PList l, r)
              | None => None
              end
        | EmptyString => None
        end
      else
        match drop_prefix "null" s with
        | Some r => Some (PNone, r)
        | None =>
        match drop_prefix "true" s with
        | Some r => Some (PBool true, r)
        | None =>
        match drop_prefix "false" s with
        | Some r => Some (PBool false, r)
        | None =>
        match scan_number s with
        | Some (z, r) => Some (PInt z, r)
        | None => None
        end end end end
  end.
Proof. destruct s; reflexivity. Qed.

Ltac split_scan H :=
  match type of H with
  | context [match ?X with _ => _ end] =>
      lazymatch X with
      | context [match _ with _ => _ end] => fail
      | _ => destruct X eqn:?
      end
  end.

Ltac scan_cases H :=
  repeat (split_scan H; cbv beta iota in H; try discriminate H).

Lemma scan_wf (fuel : nat) :
  (forall s v r, scan_once fuel s = Some (v, r) -> wf v = true) /\
  (forall s l r, json_elems fuel s = Some (l, r) -> forallb wf l = true) /\
  (forall s pairs r, json_members fuel s = Some (pairs, r) ->
     forallb (fun kv => wf (snd kv)) pairs = true).
Proof.
  induction fuel as [|f (IH1 & IH2 & IH3)].
  - repeat split; intros; discriminate.
  - split; [|split].
    + intros s v r H. rewrite scan_once_S in H. scan_cases H.
      all: injection H as <- _; try reflexivity.
      * apply wf_dict_of_pairs. eauto.
      * simpl. eauto.
    + intros s l r H. rewrite json_elems_S in H. scan_cases H.
      all: injection H as <- _; simpl.
      * erewrite IH1 by eassumption. reflexivity.
      * erewrite IH1, IH2 by eassumption. reflexivity.
    + intros s pairs r H. rewrite json_members_S in H. scan_cases H.
      all: injection H as <- _; simpl.
      * erewrite IH1 by eassumption. reflexivity.
      * erewrite IH1, IH3 by eassumption. reflexivity.
Qed.

Theorem loads_wf (s : string) (v : pyval) : loads s = Some v -> wf v = true.
Proof.
  unfold loads. intros H.
  destruct (scan_once (S (String.length s)) (skip_ws s)) as [[v' r]|] eqn:E;
    [|discriminate H].
  destruct (skip_ws r); [|discriminate H]. injection H as <-.
  exact (proj1 (scan_wf _) _ _ _ E).
Qed.

(** *** Fields, at any depth *)


Lemma dict_get_plain (d : pydict) (k : string) :
  dict_get (map (fun kv => (fst kv, plain (snd kv))) d) k =
  option_map plain (dict_get d k).
Proof.
  induction d as [|[k' v'] d IH]; simpl; [reflexivity|].
  destruct (str_eqb k' k); [reflexivity | exact IH].
Qed.

Lemma lookup_path_plain (path : list string) (v : pyval) :
  lookup_path path (plain v) = option_map plain (lookup_path path v).
Proof.
  revert v. induction path as [|k path IH]; intros v; [reflexivity|].
  destruct v; try reflexivity; simpl; rewrite dict_get_plain;
    destruct (dict_get d k); simpl; auto.
Qed.

End JsonFacts.

(* ------------------------------------------------------------------ *)
(** ** Facts about [urljoin] *)

Module UrlFacts.

Import JsonFacts.





Lemma drop_prefix_app (p s r : string) :
  drop_prefix p s = Some r -> s = p ++ r.
Proof.
  revert s. induction p as [|a p IH]; intros s H; simpl in *.
  - now inversion H.
  - destruct s as [|b s]; [discriminate|].
    destruct (Ascii.eqb a b) eqn:E; [|discriminate].
    apply Ascii.eqb_eq in E. subst b. now rewrite (IH s H).
Qed.

Lemma remove_unsafe_authority (n : string) :
  all_chars is_authority_char n = true -> remove_unsafe n = n.
Proof.
  induction n as [|c n IH]; simpl; [reflexivity|]. intros H.
  apply andb_prop in H as [Hc Hn]. unfold is_authority_char in Hc.
  apply andb_prop in Hc as [_ Hc]. apply negb_true_iff in Hc.
  rewrite Hc, IH by assumption. reflexivity.
Qed.

Lemma break_at_authority (n : string) :
  all_chars is_authority_char n = true ->
  break_at is_netloc_end n = (n, EmptyString).
Proof.
  induction n as [|c n IH]; simpl; [reflexivity|]. intros H.
  apply andb_prop in H as [Hc Hn]. unfold is_authority_char in Hc.
  apply andb_prop in Hc as [Hc _]. apply negb_true_iff in Hc.
  rewrite Hc, IH by assumption. reflexivity.
Qed.

Lemma urlunsplit_authority (scheme n path : string) :
  str_eqb scheme EmptyString = false ->
  str_eqb n EmptyString = false ->
  startswith "/" path = true ->
  urlunsplit scheme n path = scheme ++ "://" ++ n ++ path.
Proof.
  intros Hs Hn Hp. unfold urlunsplit. rewrite Hs, Hn, Hp. simpl.
  now rewrite andb_false_r.
Qed.

Lemma urljoin_authority (scheme n path : string) :
  (scheme = "http" \/ scheme = "https") ->
  is_authority n = true ->
  urljoin (scheme ++ "://" ++ n) path =
  urlunsplit scheme n (resolve_path path).
Proof.
  intros Hs Hn. unfold is_authority in Hn. apply andb_prop in Hn as [Hne Hn].
  unfold urljoin, base_scheme_netloc.
  destruct Hs; subst scheme; simpl;
    rewrite (remove_unsafe_authority n Hn), (break_at_authority n Hn);
    reflexivity.
Qed.

(** On a bare origin [urljoin] is concatenation. *)
Theorem urljoin_origin (api_url path : string) :
  is_origin api_url = true -> is_plain_path path = true ->
  urljoin api_url path = api_url ++ path.
Proof.
  intros Ho Hp. unfold is_plain_path in Hp. apply andb_prop in Hp as [Hp Hr].
  apply String.eqb_eq in Hr. unfold is_origin in Ho.
  assert (H : exists scheme n,
             (scheme = "http" \/ scheme = "https") /\ is_authority n = true /\
             api_url = scheme ++ "://" ++ n).
  { destruct (drop_prefix "http://" api_url) as [n|] eqn:E.
    - exists "http", n. apply drop_prefix_app in E. auto.
    - destruct (drop_prefix "https://" api_url) as [n|] eqn:E'; [|discriminate].
      exists "https", n. apply drop_prefix_app in E'. auto. }
  destruct H as (scheme & n & Hs & Hn & ->).
  rewrite urljoin_authority, Hr by assumption.
  rewrite urlunsplit_authority.
  - now rewrite !sapp_assoc.
  - destruct Hs; subst; reflexivity.
  - unfold is_authority in Hn. apply andb_prop in Hn as [Hn _].
    now apply negb_true_iff in Hn.
  - assumption.
Qed.


Lemma uint_digits_chars (u : Decimal.uint) :
  all_chars is_int_char (uint_digits u) = true.
Proof. induction u; simpl; auto. Qed.

Lemma str_of_int_chars (z : Z) : all_chars is_int_char (str_of_int z) = true.
Proof.
  unfold str_of_int. destruct (Z.to_int z); simpl; apply uint_digits_chars.
Qed.

Lemma split_slash_int (d : string) :
  all_chars is_int_char d = true -> split_slash d = [d].
Proof.
  induction d as [|c d IH]; simpl; [reflexivity|]. intros H.
  apply andb_prop in H as [Hc Hd]. rewrite IH by assumption.
  assert (E : (code c =? 47)%N = false).
  { revert Hc. clear. each_char c; intros H; try discriminate H; reflexivity. }
  now rewrite E.
Qed.

Lemma int_not_dots (d : string) :
  all_chars is_int_char d = true ->
  str_eqb d "." = false /\ str_eqb d ".." = false.
Proof.
  destruct d as [|c d]; [split; reflexivity|]. simpl. intros H.
  apply andb_prop in H as [Hc _]. revert Hc. clear.
  each_char c; intros H; try discriminate H; split; reflexivity.
Qed.

Lemma split_slash_nonempty (s : string) : split_slash s <> [].
Proof.
  destruct s as [|c s]; simpl; [discriminate|].
  destruct (code c =? 47)%N; [discriminate|].
  destruct (split_slash s); discriminate.
Qed.

Lemma code_slash (c : ascii) : (code c =? 47)%N = true -> c = "/"%char.
Proof. each_char c; intros H; try discriminate H; reflexivity. Qed.

Lemma join_slash_cons (x : string) (l : list string) :
  l <> [] -> join_slash (x :: l) = x ++ String "/" (join_slash l).
Proof. destruct l; [contradiction | reflexivity]. Qed.

Lemma join_split_slash (s : string) : join_slash (split_slash s) = s.
Proof.
  induction s as [|c s IH]; [reflexivity|].
  pose proof (split_slash_nonempty s) as Hn. simpl.
  destruct (code c =? 47)%N eqn:E.
  - apply code_slash in E. subst c.
    rewrite join_slash_cons by assumption. now rewrite IH.
  - destruct (split_slash s) as [|h t]; [contradiction|].
    destruct t as [|h' t].
    + simpl in *. now rewrite IH.
    + change (join_slash (String c h :: h' :: t))
        with (String c (join_slash (h :: h' :: t))).
      now rewrite IH.
Qed.

Lemma split_slash_app (a s : string) :
  split_slash (a ++ String "/" s) = (split_slash a ++ split_slash s)%list.
Proof.
  induction a as [|c a IH]; [reflexivity|].
  pose proof (split_slash_nonempty a) as Hn.
  change (String c a ++ String "/" s) with (String c (a ++ String "/" s)).
  simpl. rewrite IH. destruct (code c =? 47)%N; [reflexivity|].
  destruct (split_slash a) as [|h t]; [contradiction | reflexivity].
Qed.


Lemma resolve_dots_plain (segments acc : list string) :
  forallb not_dots segments = true ->
  resolve_dots segments acc = (List.rev segments ++ acc)%list.
Proof.
  revert acc. induction segments as [|seg l IH]; intros acc H; [reflexivity|].
  simpl in H. apply andb_prop in H as [Hs Hl]. unfold not_dots in Hs.
  apply negb_true_iff, orb_false_elim in Hs as [H2 H1].
  simpl. rewrite H2, H1, IH by assumption.
  now rewrite <- List.app_assoc.
Qed.

Lemma last_not_dots (l : list string) (d : string) :
  forallb not_dots l = true -> l <> [] ->
  str_eqb (List.last l d) "." || str_eqb (List.last l d) ".." = false.
Proof.
  induction l as [|x l IH]; [contradiction|]. intros H _.
  simpl in H. apply andb_prop in H as [Hx Hl].
  destruct l as [|y l].
  - simpl. unfold not_dots in Hx. apply negb_true_iff in Hx.
    now rewrite orb_comm.
  - apply IH; [assumption | discriminate].
Qed.

(** A path without dot segments is left alone. *)
Lemma resolve_path_no_dots (path : string) :
  startswith "/" path = true ->
  forallb not_dots (split_slash path) = true ->
  resolve_path path = path.
Proof.
  intros Hp H. unfold resolve_path.
  rewrite (last_not_dots _ EmptyString H (split_slash_nonempty path)).
  rewrite resolve_dots_plain, List.app_nil_r, List.rev_involutive by assumption.
  rewrite join_split_slash. destruct path; [discriminate Hp | reflexivity].
Qed.

Lemma resolve_path_instance (kind : string) (d : string) :
  (kind = "node" \/ kind = "network") ->
  all_chars is_int_char d = true ->
  resolve_path ("/deployed/" ++ kind ++ "/" ++ d) =
  "/deployed/" ++ kind ++ "/" ++ d.
Proof.
  intros Hk Hd. destruct (int_not_dots d Hd) as [H1 H2].
  apply resolve_path_no_dots; [reflexivity|].
  replace ("/deployed/" ++ kind ++ "/" ++ d)
    with (("/deployed/" ++ kind) ++ String "/" d)
    by (now rewrite !sapp_assoc).
  rewrite split_slash_app, forallb_app, (split_slash_int d Hd).
  simpl forallb at 2. unfold not_dots at 2. rewrite H1, H2.
  destruct Hk; subst kind; reflexivity.
Qed.

Lemma accepted_status_app (app : string) :
  choice_accepts status_app_choices app = true ->
  lower app = "node" \/ lower app = "network".
Proof.
  unfold choice_accepts, status_app_choices. cbn [existsb].
  change (lower "Node") with "node". change (lower "Network") with "network".
  intros H. apply orb_prop in H as [H|H].
  - left. symmetry. now apply String.eqb_eq in H.
  - rewrite orb_false_r in H. right. symmetry. now apply String.eqb_eq in H.
Qed.

Lemma status_paths_plain (app : string) (id : Z) :
  choice_accepts status_app_choices app = true ->
  is_plain_path ("/deployed/" ++ lower app ++ "s") = true /\
  is_plain_path ("/deployed/" ++ lower app ++ "/" ++ str_of_int id) = true.
Proof.
  intros H. apply accepted_status_app in H. split.
  - destruct H as [-> | ->]; reflexivity.
  - unfold is_plain_path. rewrite resolve_path_instance;
      [ | assumption | apply str_of_int_chars ].
    unfold str_eqb. rewrite String.eqb_refl. now rewrite andb_true_r.
Qed.

End UrlFacts.


Module CliFacts.

(** *** Attribute bags *)

Lemma dict_get_set_same (d : pydict) (k : string) (v : pyval) :
  dict_get (dict_set d k v) k = Some v.
Proof.
  induction d as [|[k' v'] d IH]; simpl.
  - unfold str_eqb. now rewrite String.eqb_refl.
  - destruct (str_eqb k' k) eqn:E; simpl.
    + unfold str_eqb. now rewrite String.eqb_refl.
    + now rewrite E.
Qed.

Lemma dict_get_set_other (d : pydict) (k k' : string) (v : pyval) :
  str_eqb k k' = false ->
  dict_get (dict_set d k v) k' = dict_get d k'.
Proof.
  intros Hk. induction d as [|[k0 v0] d IH]; simpl.
  - now rewrite Hk.
  - destruct (str_eqb k0 k) eqn:E; simpl.
    + apply String.eqb_eq in E. subst k0. now rewrite Hk.
    + now rewrite IH.
Qed.

Lemma dict_set_set_same (d : pydict) (k : string) (v v' : pyval) :
  dict_set (dict_set d k v) k v' = dict_set d k v'.
Proof.
  induction d as [|[k0 v0] d IH]; simpl.
  - unfold str_eqb. now rewrite String.eqb_refl.
  - destruct (str_eqb k0 k) eqn:E; simpl.
    + unfold str_eqb. now rewrite String.eqb_refl.
    + now rewrite E, IH.
Qed.

Lemma str_eqb_sym (a b : string) : str_eqb a b = str_eqb b a.
Proof. apply String.eqb_sym. Qed.

(** Updating a key that is already there commutes with a later insertion. *)
Lemma dict_set_update_after (d : pydict) (k k' : string) (v0 v' v1 : pyval) :
  str_eqb k k' = false ->
  dict_set (dict_set (dict_set d k v0) k' v') k v1 =
  dict_set (dict_set d k v1) k' v'.
Proof.
  intros Hk. assert (Hk' : str_eqb k' k = false) by now rewrite str_eqb_sym.
  assert (Hr : forall x, str_eqb x x = true) by apply String.eqb_refl.
  induction d as [|[k0 w0] d IH]; simpl.
  - rewrite Hk. simpl. now rewrite Hr.
  - destruct (str_eqb k0 k) eqn:E; simpl.
    + apply String.eqb_eq in E. subst k0. rewrite Hk. simpl. now rewrite Hr.
    + destruct (str_eqb k0 k') eqn:E'; simpl.
      * rewrite Hk'. now rewrite dict_set_set_same.
      * now rewrite E, IH.
Qed.

Lemma dict_set_comm_update (d : pydict) (k k' : string) (v v' : pyval) :
  str_eqb k k' = false -> has_key d k = true ->
  dict_set (dict_set d k' v') k v = dict_set (dict_set d k v) k' v'.
Proof.
  intros Hk. assert (Hk' : str_eqb k' k = false) by now rewrite str_eqb_sym.
  unfold has_key. induction d as [|[k0 w0] d IH]; simpl; [discriminate|].
  intros Hd. destruct (str_eqb k0 k) eqn:E; simpl.
  - apply String.eqb_eq in E. subst k0. rewrite Hk. simpl.
    unfold str_eqb. now rewrite String.eqb_refl.
  - destruct (str_eqb k0 k') eqn:E'; simpl.
    + now rewrite Hk'.
    + now rewrite E, IH.
Qed.

Lemma has_key_set_same (d : pydict) (k : string) (v : pyval) :
  has_key (dict_set d k v) k = true.
Proof. unfold has_key. now rewrite dict_get_set_same. Qed.

Lemma has_key_set_other (d : pydict) (k k' : string) (v : pyval) :
  str_eqb k k' = false -> has_key (dict_set d k v) k' = has_key d k'.
Proof. intros H. unfold has_key. now rewrite dict_get_set_other. Qed.

#[local] Arguments lower : simpl never.
#[local] Arguments dumps : simpl never.
#[local] Arguments urljoin : simpl never.
#[local] Arguments loads : simpl never.
#[local] Arguments prompt_lines : simpl never.
#[local] Arguments confirm_lines : simpl never.
#[local] Arguments pygrid_root : simpl never.
#[local] Arguments dict_set : simpl nomatch.
#[local] Arguments dict_get : simpl nomatch.

(** *** What a command may emit *)

Section Emits.
Variable ok : event -> bool.

Lemma emits_weaken {A} (ok' : event -> bool) (m : M A) :
  (forall e, ok' e = true -> ok e = true) -> emits ok' m -> emits ok m.
Proof.
  intros Hw Hm s r s' E. destruct (Hm _ _ _ E) as (evs & Ht & Hok).
  exists evs. split; [assumption|]. rewrite forallb_forall in *. auto.
Qed.

Lemma emits_here {A} (m : M A) :
  (forall s r s', m s = (r, s') -> trace s' = trace s) -> emits ok m.
Proof.
  intros H s r s' E. exists []. rewrite List.app_nil_r. split; [eauto|reflexivity].
Qed.

Lemma emits_ret {A} (a : A) : emits ok (ret a).
Proof. apply emits_here. intros s r s' E. now inversion E. Qed.

Lemma emits_raise {A} (e : string) : emits ok (@raise A e).
Proof. apply emits_here. intros s r s' E. now inversion E. Qed.

Lemma emits_quit {A} : emits ok (@quit A).
Proof. apply emits_here. intros s r s' E. now inversion E. Qed.

Lemma emits_setattr k v : emits ok (setattr k v).
Proof. apply emits_here. intros s r s' E. now inversion E. Qed.

Lemma emits_getattr k : emits ok (getattr k).
Proof.
  apply emits_here. intros s r s' E. unfold getattr in E.
  destruct (dict_get (config s) k); now inversion E.
Qed.

Lemma emits_vars_config : emits ok vars_config.
Proof. apply emits_here. intros s r s' E. now inversion E. Qed.

Lemma emits_attr_of o k : emits ok (attr_of o k).
Proof.
  unfold attr_of. destruct o; try apply emits_raise.
  destruct (dict_get d k); [apply emits_ret | apply emits_raise].
Qed.

Lemma emits_emit e : ok e = true -> emits ok (emit e).
Proof.
  intros He s r s' E. inversion E; subst. exists [e]. simpl.
  now rewrite He.
Qed.

Lemma emits_bind {A B} (m : M A) (k : A -> M B) :
  emits ok m -> (forall a, emits ok (k a)) -> emits ok (bind m k).
Proof.
  intros Hm Hk s r s' E. unfold bind in E.
  destruct (m s) as [[a| |e] s1] eqn:Em;
    destruct (Hm _ _ _ Em) as (evs & Ht & Hok).
  - destruct (Hk a _ _ _ E) as (evs' & Ht' & Hok').
    exists (evs ++ evs')%list. rewrite Ht', Ht, List.app_assoc, forallb_app.
    now rewrite Hok, Hok'.
  - inversion E; subst. eauto.
  - inversion E; subst. eauto.
Qed.

Lemma emits_set_app_attr k v : emits ok (set_app_attr k v).
Proof.
  unfold set_app_attr. apply emits_bind; [apply emits_getattr|].
  intros []; try apply emits_raise. apply emits_setattr.
Qed.

Lemma emits_try {A} (body handler : M A) :
  emits ok body -> emits ok handler -> emits ok (try_except body handler).
Proof.
  intros Hb Hh s r s' E. unfold try_except in E.
  destruct (body s) as [[a| |e] s1] eqn:Eb;
    destruct (Hb _ _ _ Eb) as (evs & Ht & Hok).
  - inversion E; subst. eauto.
  - inversion E; subst. eauto.
  - destruct (Hh _ _ _ E) as (evs' & Ht' & Hok').
    exists (evs ++ evs')%list. rewrite Ht', Ht, List.app_assoc, forallb_app.
    now rewrite Hok, Hok'.
Qed.

Lemma emits_prompt text default :
  (forall v, ok (Prompt text v) = true) -> emits ok (click_prompt text default).
Proof.
  intros H s r s' E. unfold click_prompt in E.
  destruct (prompt_lines default (stdin s)) as [[v rest]|]; inversion E; subst.
  - exists [Prompt text v]. simpl. now rewrite H.
  - exists []. simpl. now rewrite List.app_nil_r.
Qed.

Lemma emits_confirm text :
  (forall b, ok (Confirm text b) = true) -> emits ok (click_confirm text).
Proof.
  intros H s r s' E. unfold click_confirm in E.
  destruct (confirm_lines (stdin s)) as [[v rest]|]; inversion E; subst.
  - exists [Confirm text v]. simpl. now rewrite H.
  - exists []. simpl. now rewrite List.app_nil_r.
Qed.

Lemma emits_call name f :
  ok (Call name) = true -> emits ok (call_helper name f).
Proof.
  intros H s r s' E. unfold call_helper, bind, emit in E. simpl in E.
  exists [Call name]. simpl. rewrite H.
  destruct (f (stdin s)) as [[v rest]|]; inversion E; subst; auto.
Qed.
End Emits.

Ltac emits_step w :=
  first
    [ apply emits_ret | apply emits_raise | apply emits_quit
    | apply emits_setattr | apply emits_getattr | apply emits_vars_config
    | apply emits_attr_of | apply emits_set_app_attr
    | apply emits_emit; reflexivity
    | apply emits_prompt; intros; reflexivity
    | apply emits_confirm; intros; reflexivity
    | apply emits_call; reflexivity
    | apply emits_try
    | apply emits_bind; [|intros ?]
    | match goal with
      | |- emits _ (match ?x with _ => _ end) => destruct x
      | |- emits _ (if ?x then _ else _) => destruct x
      end ].

Ltac emits_auto w := repeat emits_step w.

Section ProgramFacts.

Variable w : world.

Local Abbreviation final_text := (final_text w).
Local Abbreviation base_config := (base_config w).
Local Abbreviation output_path := (output_path w).
Local Abbreviation deploy_shape := (deploy_shape w).
Local Abbreviation submit_shape := (submit_shape w).
Local Abbreviation helpers_wf := (helpers_wf w).
Local Abbreviation DeployShape := (DeployShape w).
Local Abbreviation SubmitShape := (SubmitShape w).

Lemma emits_requests_get ok url :
  ok (HttpGet url) = true -> emits ok (requests_get w url).
Proof.
  intros H. unfold requests_get. apply emits_bind.
  - now apply emits_emit.
  - intros _. destruct (http_get w url); [apply emits_ret | apply emits_raise].
Qed.

Lemma emits_json_loads ok text : emits ok (json_loads text).
Proof. unfold json_loads. emits_auto w. Qed.

Lemma emits_cli_probing out api : emits probing (cli w out api).
Proof.
  unfold cli, echo, subscript_message, makedirs.
  emits_auto w; try apply emits_requests_get; try apply emits_json_loads;
    try reflexivity.
Qed.

(** Symbolic execution of one command in a hypothesis: unfold it, then
    split on the first undetermined scrutinee, innermost first. *)
Ltac unfold_program H :=
  cbv [run_command deploy deploy_submit status
       logging cli set_app_attr attr_of
       requests_get requests_post open_read makedirs write_json call_helper
       json_loads subscript_message echo_response vars_config
       click_prompt click_confirm echo emit setattr getattr
       bind ret raise quit try_except] in H.

Ltac unfold_goal :=
  cbv [run_command deploy deploy_submit status
       logging cli set_app_attr attr_of
       requests_get requests_post open_read makedirs write_json call_helper
       json_loads subscript_message echo_response vars_config
       click_prompt click_confirm echo emit setattr getattr
       bind ret raise quit try_except].

Ltac split_hyp H :=
  match type of H with
  | context [match ?X with _ => _ end] =>
      lazymatch X with
      | context [match _ with _ => _ end] => fail
      | _ => destruct X eqn:?
      end
  end.

Ltac exec_step H :=
  first [ rewrite dict_get_set_same in H
        | rewrite dict_get_set_other in H by reflexivity
        | rewrite dict_set_set_same in H
        | match goal with
          | Hd : dict_get _ _ = Some _ |- _ => rewrite Hd in H
          end
        | split_hyp H ];
  cbn in H; try discriminate H.

Ltac exec H := unfold_program H; cbn in H; repeat exec_step H.

(** [get_app_arguments] when it returns, from a state whose [app] record
    holds just a name: the fields of the specification are added to that
    record, in order, and no other attribute changes. *)
Lemma get_app_arguments_done (s s1 : state) (name : string) (sl : bool) :
  dict_get (config s) "app" = Some (PObj [("name", PStr name)]) ->
  dict_get (config s) "serverless" = Some (PBool sl) ->
  get_app_arguments w s = (Done tt, s1) ->
  exists fields,
    dict_get (config s1) "app" = Some (PObj (("name", PStr name) :: fields)) /\
    map fst fields = spec_app_fields name sl /\
    (forall k, str_eqb "app" k = false ->
               dict_get (config s1) k = dict_get (config s) k).
Proof.
  intros Happ Hsl H. unfold get_app_arguments in H. exec H.
  all: inversion H; subst s1; clear H; cbn [config].
  all: unfold spec_app_fields.
  all: repeat match goal with
              | Hb : str_eqb _ _ = _ |- _ => rewrite Hb
              end.
  all: try (eexists; split; [apply dict_get_set_same|];
            split; [ try destruct sl; try discriminate; reflexivity
                   | intros k Hk; now apply dict_get_set_other ]).
  all: exists []; split; [assumption|];
    (split; [ try destruct sl; try discriminate; reflexivity | reflexivity ]).
Qed.

Lemma emits_get_app_arguments : emits prompting (get_app_arguments w).
Proof. unfold get_app_arguments. emits_auto w. Qed.

(** [cli] when it returns: three attributes set, the input untouched. *)
Lemma cli_done out api s s1 :
  cli w out api s = (Done tt, s1) ->
  config s1 =
    dict_set
      (dict_set (dict_set (config s) "api_url" (PStr api))
         "pygrid_root_path" (PStr (pygrid_root w)))
      "output_file" (PStr (pygrid_root w ++ "/" ++ out)) /\
  stdin s1 = stdin s.
Proof.
  intros H. exec H; inversion H; subst s1; clear H; split; reflexivity.
Qed.


(** [cli] when the probe answers anything but 200: nothing is printed and
    the command goes on as after a welcome. *)
Lemma cli_probe_other_status out api s code text :
  http_get w api = Response code text ->
  (code =? 200) = false ->
  makedirs_ok w (pygrid_root w) = true ->
  cli w out api s =
  (Done tt,
   {| config :=
        dict_set
          (dict_set (dict_set (config s) "api_url" (PStr api))
             "pygrid_root_path" (PStr (pygrid_root w)))
          "output_file" (PStr (pygrid_root w ++ "/" ++ out));
      stdin := stdin s;
      trace := (trace s ++ [HttpGet api; Makedirs (pygrid_root w)])%list |}).
Proof.
  intros Hg Hc Hm. unfold cli. unfold_goal. cbn. rewrite Hg. cbn.
  rewrite Hc. cbn. rewrite dict_get_set_same. cbn. rewrite Hm. cbn.
  now rewrite <- List.app_assoc.
Qed.

Lemma emits_deploy_gather p a : emits gathering (deploy_gather w p a).
Proof.
  unfold deploy_gather, open_read.
  emits_auto w; try apply emits_json_loads.
Qed.

Lemma gathered_vpc c p a sl ws fields v :
  dict_set
    (dict_set (dict_set (dict_set (dict_set c "provider" (PStr p))
       "app" (PObj (("name", PStr a) :: fields)))
       "serverless" (PBool sl)) "websockets" (PBool ws)) "vpc" v =
  gathered c p a sl ws fields (Some v).
Proof. reflexivity. Qed.

Lemma gathered_no_vpc c p a sl ws fields :
  dict_set (dict_set (dict_set (dict_set c "provider" (PStr p))
    "app" (PObj (("name", PStr a) :: fields)))
    "serverless" (PBool sl)) "websockets" (PBool ws) =
  gathered c p a sl ws fields None.
Proof. reflexivity. Qed.

Lemma app_update c a0 sl ws a1 :
  dict_set (dict_set (dict_set (dict_set c "app" a0)
    "serverless" sl) "websockets" ws) "app" a1 =
  dict_set (dict_set (dict_set c "app" a1) "serverless" sl) "websockets" ws.
Proof.
  rewrite (dict_set_comm_update _ "app" "websockets"); [|reflexivity|].
  - rewrite (dict_set_comm_update _ "app" "serverless"); [|reflexivity|].
    + now rewrite dict_set_set_same.
    + apply has_key_set_same.
  - rewrite has_key_set_other by reflexivity. apply has_key_set_same.
Qed.

(** [deploy] up to the database step, when it returns: the local
    [credentials] object, the configuration, and the helpers called. *)
Lemma deploy_gather_done p a s creds s1 :
  deploy_gather w p a s = (Done creds, s1) ->
  exists cloud db sl ws fields vpc evs,
    creds = PObj [("cloud", cloud); ("db", db)] /\
    config s1 = gathered (config s) (lower p) (lower a) sl ws fields vpc /\
    map fst fields = spec_app_fields (lower a) sl /\
    all_str fields = true /\
    is_some vpc = str_eqb (lower p) "aws" /\
    trace s1 = (trace s ++ evs)%list /\
    existsb (is_call "aws.get_vpc_config") evs = str_eqb (lower p) "aws" /\
    existsb (is_call "aws.get_db_config") evs = true /\
    (exists text, loads text = Some cloud) /\
    (exists input rest, get_db_config w input = Some (db, rest)) /\
    (forall v, vpc = Some v ->
       exists input rest, get_vpc_config w input = Some (v, rest)).
Proof.
  intros H. unfold deploy_gather, get_app_arguments in H. exec H.
  all: rewrite <- ?List.app_assoc in H; cbn [List.app] in H.
  all: rewrite ?app_update in H.
  all: first [rewrite gathered_vpc in H | rewrite gathered_no_vpc in H].
  all: apply pair_equal_spec in H as [Hcreds Hs1];
    injection Hcreds as Hcreds; subst creds s1; cbv [config trace].
  all: do 7 eexists.
  all: split; [reflexivity|]; split; [reflexivity|].
  all: split; [unfold spec_app_fields;
               repeat match goal with
                      | Hb : str_eqb _ _ = _ |- _ => rewrite Hb
                      end;
               repeat match goal with
                      | b : bool |- _ => destruct b
                      end; try discriminate; reflexivity|].
  all: repeat (split; [reflexivity|]).
  all: split; [eauto|]; split; [eauto|].
  all: intros v Hv; inversion Hv; subst; eauto.
Qed.

(** [deploy] from the last question on, by the answer to it. *)
Lemma deploy_submit_declined creds s rest :
  confirm_lines (stdin s) = Some (false, rest) ->
  deploy_submit w creds s =
  (Done tt, {| config := config s; stdin := rest;
               trace := (trace s ++ [Confirm (final_text (config s)) false])%list |}).
Proof.
  intros H. unfold deploy_submit. unfold_goal. cbn. rewrite H. reflexivity.
Qed.

Lemma deploy_submit_eof creds s :
  confirm_lines (stdin s) = None ->
  deploy_submit w creds s =
  (Raised "Abort", {| config := config s; stdin := []; trace := trace s |}).
Proof.
  intros H. unfold deploy_submit. unfold_goal. cbn. rewrite H. reflexivity.
Qed.

Lemma deploy_submit_confirmed creds s rest api r s1 :
  confirm_lines (stdin s) = Some (true, rest) ->
  dict_get (config s) "api_url" = Some (PStr api) ->
  deploy_submit w creds s = (r, s1) ->
  config s1 = dict_set (config s) "credentials" creds /\
  exists tail,
    trace s1 =
      (trace s ++
       Confirm (final_text (config s)) true ::
       HttpPost (urljoin api "/deploy")
         (deploy_body (dict_set (config s) "credentials" creds)) :: tail)%list /\
    forallb is_echo tail = true.
Proof.
  intros Hc Ha H. unfold deploy_submit in H. unfold_program H. cbn in H.
  rewrite Hc in H. cbn in H.
  rewrite dict_get_set_other in H by reflexivity. rewrite Ha in H. cbn in H.
  fold (final_text (config s)) in H.
  fold (deploy_body (dict_set (config s) "credentials" creds)) in H.
  repeat (split_hyp H; cbn in H).
  all: apply pair_equal_spec in H as [_ H]; subst s1; cbv [config trace].
  all: split; [reflexivity|].
  all: rewrite <- ?List.app_assoc; cbn [List.app].
  all: eexists; split; [reflexivity | reflexivity].
Qed.

(** [logging] *)
Lemma logging_writes s path :
  dict_get (config s) "output_file" = Some (PStr path) ->
  writable w path = true ->
  logging w s =
  (Done tt,
   {| config := config s; stdin := stdin s;
      trace := (trace s ++
                [Echo ("Writing configs to " ++ path);
                 WriteFile path (dumps (Some 2%nat) (PDict (config s)))])%list |}).
Proof.
  intros Ho Hw. unfold logging. unfold_goal. cbn. rewrite Ho. cbn.
  rewrite Hw. cbn. now rewrite <- List.app_assoc.
Qed.

Lemma logging_done s s1 :
  logging w s = (Done tt, s1) ->
  exists path,
    dict_get (config s) "output_file" = Some (PStr path) /\
    writable w path = true /\
    config s1 = config s /\
    trace s1 =
      (trace s ++
       [Echo ("Writing configs to " ++ path);
        WriteFile path (dumps (Some 2%nat) (PDict (config s)))])%list.
Proof.
  intros H. unfold logging in H. unfold_program H. cbn in H.
  repeat (split_hyp H; cbn in H; try discriminate H).
  apply pair_equal_spec in H as [_ H]. subst s1. cbv [config trace].
  eexists. split; [reflexivity|]. split; [assumption|].
  split; [reflexivity|]. now rewrite <- List.app_assoc.
Qed.

Lemma emits_logging : emits reporting (logging w).
Proof. unfold logging, write_json, echo. emits_auto w. Qed.

(** [status] *)
Lemma status_cases app id s api r s1 :
  dict_get (config s) "api_url" = Some (PStr api) ->
  status w app id s = (r, s1) ->
  config s1 = config s /\
  exists tail,
    trace s1 = (trace s ++ HttpGet (status_url api app id) :: tail)%list /\
    forallb is_echo tail = true.
Proof.
  intros Ha H. unfold status in H. unfold_program H. cbn in H.
  rewrite Ha in H. cbn in H.
  repeat (split_hyp H; cbn in H).
  all: apply pair_equal_spec in H as [_ H]; subst s1; cbv [config trace].
  all: split; [reflexivity|].
  all: rewrite <- ?List.app_assoc; cbn [List.app].
  all: eexists; split; [reflexivity | reflexivity].
Qed.

(** *** Reading traces *)

Lemma posts_app (l1 l2 : list event) :
  posts (l1 ++ l2) = (posts l1 ++ posts l2)%list.
Proof. apply filter_app. Qed.

Lemma written_app (l1 l2 : list event) :
  written (l1 ++ l2) = (written l1 ++ written l2)%list.
Proof. apply flat_map_app. Qed.

Lemma posts_none (ok : event -> bool) (l : list event) :
  (forall e, ok e = true -> is_post e = false) ->
  forallb ok l = true -> posts l = [].
Proof.
  intros Hok. induction l as [|e l IH]; simpl; [reflexivity|].
  intros H. apply andb_prop in H as [He Hl]. rewrite (Hok e He). auto.
Qed.

Lemma written_none (ok : event -> bool) (l : list event) :
  (forall e, ok e = true -> is_write e = false) ->
  forallb ok l = true -> written l = [].
Proof.
  intros Hok. induction l as [|e l IH]; simpl; [reflexivity|].
  intros H. apply andb_prop in H as [He Hl]. specialize (Hok e He).
  destruct e; try discriminate Hok; simpl; auto.
Qed.

Lemma confirmation_app (l1 l2 : list event) :
  confirmation (l1 ++ l2) = fold_left confirm_step l2 (confirmation l1).
Proof. unfold confirmation. apply fold_left_app. Qed.

Lemma confirm_step_none (ok : event -> bool) (l : list event) acc :
  (forall e, ok e = true -> is_final_confirm e = false) ->
  forallb ok l = true -> fold_left confirm_step l acc = acc.
Proof.
  intros Hok. revert acc. induction l as [|e l IH]; simpl; [reflexivity|].
  intros acc H. apply andb_prop in H as [He Hl]. specialize (Hok e He).
  rewrite IH by assumption.
  destruct e; simpl in *; try reflexivity. now rewrite Hok.
Qed.

Lemma gathering_not_post e : gathering e = true -> is_post e = false.
Proof. destruct e; simpl; intros H; try reflexivity; discriminate H. Qed.

Lemma gathering_not_write e : gathering e = true -> is_write e = false.
Proof. destruct e; simpl; intros H; try reflexivity; discriminate H. Qed.

Lemma gathering_not_final e : gathering e = true -> is_final_confirm e = false.
Proof.
  unfold gathering. intros H. apply andb_prop in H as [_ H].
  now apply negb_true_iff in H.
Qed.

Lemma probing_gathering e : probing e = true -> gathering e = true.
Proof. destruct e; simpl; intros H; try reflexivity; discriminate H. Qed.

Lemma echo_not_post e : is_echo e = true -> is_post e = false.
Proof. destruct e; simpl; intros H; try reflexivity; discriminate H. Qed.

Lemma echo_not_write e : is_echo e = true -> is_write e = false.
Proof. destruct e; simpl; intros H; try reflexivity; discriminate H. Qed.

Lemma echo_not_final e : is_echo e = true -> is_final_confirm e = false.
Proof. destruct e; simpl; intros H; try reflexivity; discriminate H. Qed.

Lemma final_text_final c b :
  confirm_step None (Confirm (final_text c) b) = Some b.
Proof. reflexivity. Qed.

(** *** A whole [deploy] run that returns *)

Lemma gathered_get_api c p a sl ws fields vpc :
  dict_get (gathered c p a sl ws fields vpc) "api_url" = dict_get c "api_url".
Proof.
  unfold gathered. destruct vpc;
    now rewrite !dict_get_set_other by reflexivity.
Qed.

Lemma gathered_get_output c p a sl ws fields vpc :
  dict_get (gathered c p a sl ws fields vpc) "output_file" =
  dict_get c "output_file".
Proof.
  unfold gathered. destruct vpc;
    now rewrite !dict_get_set_other by reflexivity.
Qed.

Lemma probing_calls name l :
  forallb probing l = true -> existsb (is_call name) l = false.
Proof.
  induction l as [|e l IH]; simpl; [reflexivity|]. intros H.
  apply andb_prop in H as [He Hl]. rewrite IH by assumption.
  destruct e; try discriminate He; reflexivity.
Qed.

Lemma deploy_run_done out api p a input s' :
  run w out api (Deploy p a) input = (Done tt, s') ->
  deploy_shape out api p a s'.
Proof.
  intros H. unfold run, main, bind in H.
  destruct (cli w out api (start input)) as [[[]| |e] s1] eqn:Ecli;
    try discriminate H.
  destruct (emits_cli_probing out api _ _ _ Ecli) as (ev1 & Ht1 & Hok1).
  apply cli_done in Ecli as [Hc1 _].
  change (dict_set (dict_set (dict_set (config (start input)) "api_url"
            (PStr api)) "pygrid_root_path" (PStr (pygrid_root w)))
            "output_file" (PStr (pygrid_root w ++ "/" ++ out)))
    with (base_config out api) in Hc1.
  unfold run_command in H.
  destruct (choice_accepts provider_choices p &&
            choice_accepts deploy_app_choices a) eqn:Hacc;
    [|discriminate H].
  apply andb_prop in Hacc. unfold deploy, bind in H.
  destruct (deploy_gather w p a s1) as [[creds| |e] s2] eqn:Eg;
    try discriminate H.
  destruct (emits_deploy_gather p a _ _ _ Eg) as (ev2 & Ht2 & Hok2).
  apply deploy_gather_done in Eg
    as (cloud & db & sl & ws & fields & vpc & evs & Hcr & Hc2 & Hf & Hfs &
        Hv & Ht2' & Hvc & Hdc & Hcl & Hdb & Hvs).
  rewrite Ht2 in Ht2'. apply app_inv_head in Ht2'. subst evs.
  rewrite Hc1 in Hc2.
  destruct (deploy_submit w creds s2) as [[[]| |e] s3] eqn:Es;
    try discriminate H.
  apply logging_done in H as (path & Hout & Hw & Hc4 & Ht4).
  assert (Hpre : forallb gathering (ev1 ++ ev2) = true).
  { rewrite forallb_app, Hok2, andb_true_r.
    rewrite forallb_forall in *. intros e He. apply probing_gathering. auto. }
  assert (Hcalls : forall name,
             existsb (is_call name) (ev1 ++ ev2) = existsb (is_call name) ev2).
  { intros name. now rewrite existsb_app, (probing_calls name ev1 Hok1). }
  destruct (confirm_lines (stdin s2)) as [[ok rest]|] eqn:Ecf;
    [destruct ok|].
  - eapply deploy_submit_confirmed in Es as (Hc3 & tail & Ht3 & Hok3);
      [ | exact Ecf | rewrite Hc2, gathered_get_api; reflexivity ].
    rewrite Hc3, dict_get_set_other, Hc2, gathered_get_output in Hout
      by reflexivity.
    injection Hout as Hout. subst path.
    apply (DeployShape out api p a s' cloud db sl ws fields vpc true
             (ev1 ++ ev2)%list tail); try assumption.
    + rewrite Hc4, Hc3, Hc2, Hcr. reflexivity.
    + rewrite Ht4, Ht3, Ht2, Ht1, Hc4, Hc3, Hc2. cbn [start trace List.app].
      rewrite <- !List.app_assoc. reflexivity.
    + now rewrite Hcalls.
    + now rewrite Hcalls.
  - rewrite (deploy_submit_declined _ _ _ Ecf) in Es.
    apply pair_equal_spec in Es as [_ Es]. subst s3.
    cbn [config trace] in Hout, Hc4, Ht4.
    rewrite Hc2, gathered_get_output in Hout. injection Hout as Hout.
    subst path.
    apply (DeployShape out api p a s' cloud db sl ws fields vpc false
             (ev1 ++ ev2)%list []); try assumption; try reflexivity.
    + rewrite Hc4, Hc2. reflexivity.
    + rewrite Ht4, Ht2, Ht1, Hc4, Hc2. cbn [start trace List.app].
      rewrite <- !List.app_assoc. reflexivity.
    + now rewrite Hcalls.
    + now rewrite Hcalls.
  - rewrite (deploy_submit_eof _ _ Ecf) in Es. discriminate Es.
Qed.

(** *** A [deploy] run, however it ends *)

Lemma logging_config s r s1 : logging w s = (r, s1) -> config s1 = config s.
Proof.
  intros H. unfold logging in H. unfold_program H. cbn in H.
  repeat (split_hyp H; cbn in H).
  all: apply pair_equal_spec in H as [_ H]; subst s1; reflexivity.
Qed.

Lemma echo_reporting e : is_echo e = true -> reporting e = true.
Proof. destruct e; simpl; intros H; try reflexivity; discriminate H. Qed.

Lemma deploy_run_any out api p a input r s' :
  run w out api (Deploy p a) input = (r, s') ->
  forallb gathering (trace s') = true \/ submit_shape out api p a r s'.
Proof.
  intros H. unfold run, main, bind in H.
  destruct (cli w out api (start input)) as [[[]| |e] s1] eqn:Ecli;
    destruct (emits_cli_probing out api _ _ _ Ecli) as (ev1 & Ht1 & Hok1);
    cbn [start trace List.app] in Ht1;
    assert (Hg1 : forallb gathering ev1 = true)
      by (rewrite forallb_forall in *; intros e' He';
          apply probing_gathering; auto);
    try (apply pair_equal_spec in H as [_ H]; subst s'; left;
         now rewrite Ht1).
  apply cli_done in Ecli as [Hc1 _].
  change (dict_set (dict_set (dict_set (config (start input)) "api_url"
            (PStr api)) "pygrid_root_path" (PStr (pygrid_root w)))
            "output_file" (PStr (pygrid_root w ++ "/" ++ out)))
    with (base_config out api) in Hc1.
  unfold run_command in H.
  destruct (choice_accepts provider_choices p &&
            choice_accepts deploy_app_choices a);
    [ | apply pair_equal_spec in H as [_ H]; subst s'; left;
        now rewrite Ht1 ].
  unfold deploy, bind in H.
  destruct (deploy_gather w p a s1) as [[creds| |e] s2] eqn:Eg;
    destruct (emits_deploy_gather p a _ _ _ Eg) as (ev2 & Ht2 & Hok2);
    rewrite Ht1 in Ht2;
    assert (Hpre : forallb gathering (ev1 ++ ev2) = true)
      by (now rewrite forallb_app, Hg1, Hok2);
    try (apply pair_equal_spec in H as [_ H]; subst s'; left;
         now rewrite Ht2).
  apply deploy_gather_done in Eg
    as (cloud & db & sl & ws & fields & vpc & evs & Hcr & Hc2 & _).
  rewrite Hc1 in Hc2.
  destruct (confirm_lines (stdin s2)) as [[ok rest]|] eqn:Ecf;
    [destruct ok|].
  - destruct (deploy_submit w creds s2) as [r3 s3] eqn:Es.
    eapply deploy_submit_confirmed in Es as (Hc3 & tail & Ht3 & Hok3);
      [ | exact Ecf | rewrite Hc2, gathered_get_api; reflexivity ].
    assert (Hrest : exists evs',
               config s' = config s3 /\
               trace s' = (trace s3 ++ evs')%list /\
               forallb reporting evs' = true).
    { destruct r3 as [[]| |e].
      - destruct (emits_logging _ _ _ H) as (evs' & Ht & Hok).
        exists evs'. split; [now apply logging_config in H | auto].
      - apply pair_equal_spec in H as [_ H]. subst s'. exists [].
        now rewrite List.app_nil_r.
      - apply pair_equal_spec in H as [_ H]. subst s'. exists [].
        now rewrite List.app_nil_r. }
    destruct Hrest as (evs' & Hc4 & Ht4 & Hok4). right.
    apply (SubmitShape out api p a r s' cloud db sl ws fields vpc true
             (ev1 ++ ev2)%list (tail ++ evs')%list).
    + rewrite Hc4, Hc3, Hc2, Hcr. reflexivity.
    + rewrite Ht4, Ht3, Ht2, Hc4, Hc3, Hc2.
      rewrite <- !List.app_assoc. reflexivity.
    + assumption.
    + rewrite forallb_app, Hok4, andb_true_r.
      rewrite forallb_forall in *. intros e' He'. apply echo_reporting. auto.
    + discriminate.
  - rewrite (deploy_submit_declined _ _ _ Ecf) in H.
    destruct (emits_logging _ _ _ H) as (evs' & Ht & Hok).
    pose proof (logging_config _ _ _ H) as Hc4.
    cbn [config trace] in Ht, Hc4. right.
    apply (SubmitShape out api p a r s' cloud db sl ws fields vpc false
             (ev1 ++ ev2)%list evs').
    + now rewrite Hc4, Hc2.
    + rewrite Ht, Ht2, Hc2. rewrite <- !List.app_assoc. reflexivity.
    + assumption.
    + assumption.
    + intros _ Hw. rewrite logging_writes with (path := output_path out) in H.
      * apply pair_equal_spec in H as [Hr Hs]. split; [now rewrite <- Hr|].
        subst s'. cbn [config trace] in Ht |- *.
        rewrite <- !List.app_assoc in Ht. do 2 apply app_inv_head in Ht.
        now symmetry.
      * cbn [config]. rewrite Hc2, gathered_get_output. reflexivity.
      * assumption.
  - rewrite (deploy_submit_eof _ _ Ecf) in H.
    apply pair_equal_spec in H as [_ H]. subst s'. left. cbn [trace].
    now rewrite Ht2.
Qed.

(** *** A whole [status] run that returns *)

Lemma status_run_done out api app id input s' :
  run w out api (Status app id) input = (Done tt, s') ->
  exists pre tail,
    config s' = base_config out api /\
    trace s' =
      (pre ++ HttpGet (status_url api app id) :: tail ++
       [Echo ("Writing configs to " ++ output_path out);
        WriteFile (output_path out)
          (dumps (Some 2%nat) (PDict (config s')))])%list /\
    forallb probing pre = true /\ forallb is_echo tail = true /\
    choice_accepts status_app_choices app = true /\
    writable w (output_path out) = true.
Proof.
  intros H. unfold run, main, bind in H.
  destruct (cli w out api (start input)) as [[[]| |e] s1] eqn:Ecli;
    try discriminate H.
  destruct (emits_cli_probing out api _ _ _ Ecli) as (ev1 & Ht1 & Hok1).
  apply cli_done in Ecli as [Hc1 _].
  change (dict_set (dict_set (dict_set (config (start input)) "api_url"
            (PStr api)) "pygrid_root_path" (PStr (pygrid_root w)))
            "output_file" (PStr (pygrid_root w ++ "/" ++ out)))
    with (base_config out api) in Hc1.
  unfold run_command in H.
  destruct (choice_accepts status_app_choices app) eqn:Hacc;
    [|discriminate H].
  destruct (status w app id s1) as [[[]| |e] s2] eqn:Es; try discriminate H.
  apply status_cases with (api := api) in Es as (Hc2 & tail & Ht2 & Hok2);
    [ | rewrite Hc1; reflexivity ].
  apply logging_done in H as (path & Hout & Hw & Hc3 & Ht3).
  rewrite Hc2, Hc1 in Hout. injection Hout as Hout. subst path.
  exists ev1, tail. repeat split; try assumption.
  - now rewrite Hc3, Hc2.
  - rewrite Ht3, Ht2, Ht1, Hc3, Hc2. cbn [start trace List.app].
    rewrite <- !List.app_assoc. reflexivity.
Qed.

(** *** What shaped traces hold *)

Lemma reporting_not_post e : reporting e = true -> is_post e = false.
Proof. destruct e; simpl; intros H; try reflexivity; discriminate H. Qed.

Lemma reporting_not_final e : reporting e = true -> is_final_confirm e = false.
Proof. destruct e; simpl; intros H; try reflexivity; discriminate H. Qed.

Lemma gathering_confirmation tr :
  forallb gathering tr = true -> confirmation tr = None.
Proof.
  intros H. unfold confirmation.
  change (fold_left confirm_step tr None = None).
  now apply (confirm_step_none gathering tr None gathering_not_final).
Qed.

Lemma shaped_confirmation pre c ok mid post :
  forallb gathering pre = true ->
  forallb is_post mid = true ->
  forallb reporting post = true ->
  confirmation (pre ++ Confirm (final_text c) ok :: mid ++ post) = Some ok.
Proof.
  intros Hpre Hmid Hpost. rewrite confirmation_app.
  rewrite (gathering_confirmation pre Hpre). cbn [fold_left].
  rewrite final_text_final, fold_left_app.
  rewrite (confirm_step_none is_post mid (Some ok)); [ | | assumption ].
  - now apply (confirm_step_none reporting post (Some ok) reporting_not_final).
  - intros e He. destruct e; try discriminate He; reflexivity.
Qed.

Lemma shaped_posts pre text ok mid post :
  forallb gathering pre = true ->
  forallb is_post mid = true ->
  forallb reporting post = true ->
  posts (pre ++ Confirm text ok :: mid ++ post) = mid.
Proof.
  intros Hpre Hmid Hpost. rewrite posts_app.
  rewrite (posts_none gathering pre gathering_not_post Hpre).
  cbn [List.app]. unfold posts at 1. cbn [filter is_post].
  fold (posts (mid ++ post)). rewrite posts_app.
  rewrite (posts_none reporting post reporting_not_post Hpost).
  rewrite List.app_nil_r. unfold posts.
  clear - Hmid. induction mid as [|e l IH]; [reflexivity|].
  simpl in *. apply andb_prop in Hmid as [He Hl]. rewrite He. f_equal. auto.
Qed.

(** *** The file a run leaves behind *)

Lemma deploy_run_written out api p a input s' :
  run w out api (Deploy p a) input = (Done tt, s') ->
  written (trace s') =
    [(output_path out, dumps (Some 2%nat) (PDict (config s')))].
Proof.
  intros H. apply deploy_run_done in H.
  destruct H as [cloud db sl ws fields vpc ok pre tail g Hcfg Htr Hpre Htail
                   _ _ _ _ _ _ _ _ _ _].
  rewrite Htr, written_app.
  rewrite (written_none gathering pre gathering_not_write Hpre).
  cbn [List.app written flat_map]. rewrite written_app.
  assert (Hmid : written (if ok
                          then HttpPost (urljoin api "/deploy")
                                 (deploy_body (config s')) :: tail
                          else []) = []).
  { destruct ok; [|reflexivity]. cbn [written flat_map List.app].
    apply (written_none is_echo tail echo_not_write Htail). }
  unfold written in Hmid |- *. rewrite Hmid. reflexivity.
Qed.

Lemma status_run_written out api app id input s' :
  run w out api (Status app id) input = (Done tt, s') ->
  written (trace s') =
    [(output_path out, dumps (Some 2%nat) (PDict (config s')))].
Proof.
  intros H. apply status_run_done in H
    as (pre & tail & _ & Htr & Hpre & Htail & _).
  rewrite Htr, written_app.
  rewrite (written_none probing pre) by
    (try assumption; intros e He; destruct e; try discriminate He;
     reflexivity).
  cbn [List.app written flat_map]. rewrite written_app.
  pose proof (written_none is_echo tail echo_not_write Htail) as Hmid.
  unfold written in Hmid |- *. rewrite Hmid. reflexivity.
Qed.

Lemma all_str_wf (d : pydict) :
  all_str d = true -> forallb (fun kv => wf (snd kv)) d = true.
Proof.
  unfold all_str. induction d as [|[k v] d IH]; simpl; [reflexivity|].
  intros H. apply andb_prop in H as [Hv Hd]. rewrite IH by assumption.
  destruct v; try discriminate Hv; reflexivity.
Qed.

Lemma spec_app_fields_nodup name sl :
  nodup_keys ("name" :: spec_app_fields name sl) = true.
Proof.
  unfold spec_app_fields. destruct (str_eqb name "node"); [reflexivity|].
  destruct (str_eqb name "network" && negb sl); reflexivity.
Qed.

Lemma base_config_wf out api : wf (PDict (base_config out api)) = true.
Proof. reflexivity. Qed.

Lemma gathered_wf c p a sl ws fields vpc :
  wf (PDict c) = true ->
  map fst fields = spec_app_fields a sl -> all_str fields = true ->
  (forall v, vpc = Some v -> wf v = true) ->
  wf (PDict (gathered c p a sl ws fields vpc)) = true.
Proof.
  intros Hc Hf Hs Hv. unfold gathered.
  assert (H : wf (PDict
                (dict_set (dict_set (dict_set (dict_set c "provider" (PStr p))
                   "app" (PObj (("name", PStr a) :: fields)))
                   "serverless" (PBool sl)) "websockets" (PBool ws))) = true).
  { repeat apply JsonFacts.wf_dict_set; try assumption; try reflexivity.
    cbn [wf map fst snd forallb]. rewrite Hf, spec_app_fields_nodup.
    now rewrite all_str_wf. }
  destruct vpc as [v|]; [|exact H].
  apply JsonFacts.wf_dict_set; [exact H | now apply Hv].
Qed.

Lemma deploy_run_wf out api p a input s' :
  helpers_wf ->
  run w out api (Deploy p a) input = (Done tt, s') ->
  wf (PDict (config s')) = true.
Proof.
  intros Hw H. apply deploy_run_done in H.
  destruct H as [cloud db sl ws fields vpc ok pre tail g Hcfg _ _ _
                   Hf Hs _ _ _ (text & Hcl) (i1 & r1 & Hdb) Hvs _ _].
  assert (Hg : wf (PDict g) = true).
  { apply gathered_wf; try assumption; [apply base_config_wf|].
    intros v Hv. destruct (Hvs v Hv) as (i2 & r2 & Hsrc).
    apply (Hw i2 v r2). now left. }
  rewrite Hcfg. destruct ok; [|exact Hg].
  apply JsonFacts.wf_dict_set; [exact Hg|].
  cbn [wf map fst snd forallb nodup_keys].
  rewrite (JsonFacts.loads_wf _ _ Hcl), (Hw i1 db r1) by now right.
  reflexivity.
Qed.

End ProgramFacts.

End CliFacts.

(* ------------------------------------------------------------------ *)
(** ** The properties of the workflow *)

Import JsonFacts UrlFacts CliFacts.

(** C3: for every deploy run in which the user declines the final
    confirmation, no HTTP POST is issued and the finalizer still writes the
    output file, holding the configuration gathered up to that point. *)
Theorem deploy_declined_writes_without_post
    (w : world) (out api p a : string) (input : list string)
    (r : outcome unit) (s' : state) :
  run w out api (Deploy p a) input = (r, s') ->
  confirmation (trace s') = Some false ->
  writable w (output_path w out) = true ->
  r = Done tt /\
  posts (trace s') = [] /\
  written (trace s') =
    [(output_path w out, dumps (Some 2%nat) (PDict (config s')))] /\
  exists sl ws fields vpc,
    config s' =
      gathered (base_config w out api) (lower p) (lower a) sl ws fields vpc /\
    In (Confirm (final_text w (config s')) false) (trace s').
Proof.
  intros H Hc Hw. apply deploy_run_any in H as [H|H].
  - rewrite (gathering_confirmation _ H) in Hc. discriminate Hc.
  - destruct H as [cloud db sl ws fields vpc ok pre post g Hcfg Htr Hpre Hpost Hd].
    assert (Hok : confirmation (trace s') = Some ok).
    { rewrite Htr. apply shaped_confirmation; try assumption.
      destruct ok; reflexivity. }
    rewrite Hok in Hc. injection Hc as ->.
    destruct (Hd eq_refl Hw) as [-> Hp]. cbn iota in Hcfg, Htr.
    cbn [List.app] in Htr. split; [reflexivity|]. split; [|split].
    + rewrite Htr. apply (shaped_posts pre _ false [] post); auto.
    + rewrite Htr, written_app.
      rewrite (written_none gathering pre gathering_not_write Hpre).
      rewrite Hp. reflexivity.
    + exists sl, ws, fields, vpc. split; [exact Hcfg|].
      rewrite Htr, Hcfg. apply in_or_app. right. left. reflexivity.
Qed.

(** C4: for every completed deploy workflow the [vpc] field is in the
    assembled (and submitted) configuration if and only if the chosen
    provider is aws; for any other provider the VPC helper is never called
    and no [vpc] field is added. *)
Theorem vpc_present_iff_aws
    (w : world) (out api p a : string) (input : list string) (s' : state) :
  run w out api (Deploy p a) input = (Done tt, s') ->
  (has_key (config s') "vpc" = true <-> lower p = "aws") /\
  (In (Call "aws.get_vpc_config") (trace s') <-> lower p = "aws") /\
  (forall url body, In (HttpPost url body) (trace s') ->
     body = deploy_body (config s')).
Proof.
  intros H. apply deploy_run_done in H.
  destruct H as [cloud db sl ws fields vpc ok pre tail g Hcfg Htr Hpre Htail
                   _ _ Hvpc Hcall _ _ _ _ _ _].
  assert (Haws : str_eqb (lower p) "aws" = true <-> lower p = "aws")
    by apply String.eqb_eq.
  split; [|split].
  - rewrite <- Haws, <- Hvpc, Hcfg. subst g.
    destruct vpc, ok; cbn; split; intros E; try reflexivity; discriminate E.
  - rewrite <- Haws, <- Hcall, Htr. rewrite existsb_exists. split.
    + intros Hin. apply in_app_or in Hin as [Hin|Hin].
      * exists (Call "aws.get_vpc_config"). split; [assumption | reflexivity].
      * exfalso. destruct Hin as [E|Hin]; [discriminate E|].
        apply in_app_or in Hin as [Hin|Hin].
        -- destruct ok; [|contradiction]. destruct Hin as [E|Hin];
             [discriminate E|].
           rewrite forallb_forall in Htail. apply Htail in Hin.
           discriminate Hin.
        -- destruct Hin as [E|[E|[]]]; discriminate E.
    + intros (e & Hin & He). destruct e; try discriminate He.
      apply String.eqb_eq in He. subst name. apply in_or_app. now left.
  - intros url body Hin. rewrite Htr in Hin.
    apply in_app_or in Hin as [Hin|Hin].
    + rewrite forallb_forall in Hpre. apply Hpre in Hin. discriminate Hin.
    + destruct Hin as [E|Hin]; [discriminate E|].
      apply in_app_or in Hin as [Hin|Hin].
      * destruct ok; [|contradiction]. destruct Hin as [E|Hin].
        -- now injection E as _ <-.
        -- rewrite forallb_forall in Htail. apply Htail in Hin.
           discriminate Hin.
      * destruct Hin as [E|[E|[]]]; discriminate E.
Qed.

(** C10: the [credentials] field enters the shared configuration only in
    the confirmed branch, so the file that is written holds it if and only
    if the user confirmed; a declined deploy writes a file without it. *)
Theorem credentials_written_iff_confirmed
    (w : world) (out api p a : string) (input : list string) (s' : state) :
  run w out api (Deploy p a) input = (Done tt, s') ->
  written (trace s') =
    [(output_path w out, dumps (Some 2%nat) (PDict (config s')))] /\
  (has_key (config s') "credentials" = true <->
   confirmation (trace s') = Some true) /\
  (confirmation (trace s') = Some false ->
   has_key (config s') "credentials" = false).
Proof.
  intros H. pose proof (deploy_run_written w out api p a input s' H) as Hw.
  apply deploy_run_done in H.
  destruct H as [cloud db sl ws fields vpc ok pre tail g Hcfg Htr Hpre Htail
                   _ _ _ _ _ _ _ _ _ _].
  assert (Hok : confirmation (trace s') = Some ok).
  { rewrite Htr.
    destruct ok.
    - change (HttpPost ?u ?b :: tail) with ([HttpPost u b] ++ tail)%list.
      rewrite <- List.app_assoc.
      apply shaped_confirmation; try assumption; try reflexivity.
      rewrite forallb_app. cbn. rewrite andb_true_r.
      rewrite forallb_forall in *. intros e He. apply echo_reporting. auto.
    - apply (shaped_confirmation w pre g false []); auto. }
  assert (Hkey : has_key (config s') "credentials" = ok).
  { rewrite Hcfg. subst g. destruct vpc, ok; reflexivity. }
  split; [|split].
  - exact Hw.
  - rewrite Hkey, Hok. split; intros E; congruence.
  - rewrite Hkey, Hok. intros E. congruence.
Qed.

(** C2, as stated, fails: with an API base URL that has a path, the
    confirmed deploy posts to the root of the host, not below the base. *)
Lemma deploy_post_url_counterexample :
  let result := run (Demo.healthy Demo.path_api) "out.json" Demo.path_api
                  (Deploy "AWS" "Node") (Demo.node_answers "y") in
  fst result = Done tt /\
  confirmation (trace (snd result)) = Some true /\
  flat_map Demo.post_url (trace (snd result)) =
    ["http://localhost:5000/deploy"] /\
  ~ (exists body,
       In (HttpPost (Demo.path_api ++ "/deploy") body) (trace (snd result))).
Proof.
  cbv zeta. split; [vm_compute; reflexivity|].
  split; [vm_compute; reflexivity|]. split; [vm_compute; reflexivity|].
  intros [body Hin]. vm_compute in Hin.
  repeat (destruct Hin as [Hin|Hin]; [discriminate Hin|]). exact Hin.
Qed.

(** C2, amended: when the user confirms, the credentials record becomes
    the [credentials] field of the configuration, the whole object is
    serialised to JSON text, and one POST goes to
    [urljoin(api_url, "/deploy")] with a body that is that text encoded once
    more as a JSON string; the URL is [{api_url}/deploy] when [api_url] is a
    bare [http(s)://authority]. *)
Theorem deploy_confirmed_posts_json_string
    (w : world) (out api p a : string) (input : list string)
    (r : outcome unit) (s' : state) :
  run w out api (Deploy p a) input = (r, s') ->
  confirmation (trace s') = Some true ->
  exists cloud db text,
    dict_get (config s') "credentials" =
      Some (PObj [("cloud", cloud); ("db", db)]) /\
    text = dumps (Some 2%nat) (PDict (config s')) /\
    posts (trace s') = [HttpPost (urljoin api "/deploy") (encode_str text)] /\
    loads (encode_str text) = Some (PStr text) /\
    (is_origin api = true -> urljoin api "/deploy" = api ++ "/deploy").
Proof.
  intros H Hc. apply deploy_run_any in H as [H|H].
  - rewrite (gathering_confirmation _ H) in Hc. discriminate Hc.
  - destruct H as [cloud db sl ws fields vpc ok pre post g Hcfg Htr Hpre Hpost _].
    assert (Hok : confirmation (trace s') = Some ok).
    { rewrite Htr. apply shaped_confirmation; try assumption.
      destruct ok; reflexivity. }
    rewrite Hok in Hc. injection Hc as ->.
    exists cloud, db, (dumps (Some 2%nat) (PDict (config s'))).
    split; [|split; [|split; [|split]]].
    + rewrite Hcfg. apply dict_get_set_same.
    + reflexivity.
    + rewrite Htr. apply shaped_posts; auto.
    + apply (loads_dumps None (PStr _)). reflexivity.
    + intros Ho. now apply urljoin_origin.
Qed.

Lemma deploy_confirmed_posts_json_string_witness :
  let result := run (Demo.healthy Demo.origin_api) "out.json" Demo.origin_api
                  (Deploy "AWS" "Node") (Demo.node_answers "y") in
  confirmation (trace (snd result)) = Some true /\
  exists cloud db text,
    dict_get (config (snd result)) "credentials" =
      Some (PObj [("cloud", cloud); ("db", db)]) /\
    text = dumps (Some 2%nat) (PDict (config (snd result))) /\
    posts (trace (snd result)) =
      [HttpPost (urljoin Demo.origin_api "/deploy") (encode_str text)] /\
    loads (encode_str text) = Some (PStr text) /\
    (is_origin Demo.origin_api = true ->
     urljoin Demo.origin_api "/deploy" = Demo.origin_api ++ "/deploy").
Proof.
  cbv zeta. split; [vm_compute; reflexivity|].
  apply (deploy_confirmed_posts_json_string
           (Demo.healthy Demo.origin_api) "out.json" Demo.origin_api
           "AWS" "Node" (Demo.node_answers "y") (Done tt)
           (snd (run (Demo.healthy Demo.origin_api) "out.json"
                   Demo.origin_api (Deploy "AWS" "Node")
                   (Demo.node_answers "y")))).
  - vm_compute. reflexivity.
  - vm_compute. reflexivity.
Defined.

Lemma deploy_declined_writes_without_post_witness :
  let w := Demo.healthy Demo.origin_api in
  let result := run w "out.json" Demo.origin_api (Deploy "AWS" "Node")
                  (Demo.node_answers "n") in
  confirmation (trace (snd result)) = Some false /\
  writable w (output_path w "out.json") = true /\
  fst result = Done tt /\
  posts (trace (snd result)) = [] /\
  written (trace (snd result)) =
    [(output_path w "out.json",
      dumps (Some 2%nat) (PDict (config (snd result))))] /\
  exists sl ws fields vpc,
    config (snd result) =
      gathered (base_config w "out.json" Demo.origin_api)
        (lower "AWS") (lower "Node") sl ws fields vpc /\
    In (Confirm (final_text w (config (snd result))) false)
       (trace (snd result)).
Proof.
  cbv zeta. split; [vm_compute; reflexivity|]. split; [reflexivity|].
  apply (deploy_declined_writes_without_post
           (Demo.healthy Demo.origin_api) "out.json" Demo.origin_api
           "AWS" "Node" (Demo.node_answers "n")
           (fst (run (Demo.healthy Demo.origin_api) "out.json"
                   Demo.origin_api (Deploy "AWS" "Node")
                   (Demo.node_answers "n")))
           (snd (run (Demo.healthy Demo.origin_api) "out.json"
                   Demo.origin_api (Deploy "AWS" "Node")
                   (Demo.node_answers "n")))).
  - apply surjective_pairing.
  - vm_compute. reflexivity.
  - reflexivity.
Defined.

Lemma vpc_present_iff_aws_witness :
  let w := Demo.healthy Demo.origin_api in
  let result := run w "out.json" Demo.origin_api (Deploy "gcp" "Worker")
                  [Demo.credentials_path; "n"; "n"; "y"] in
  fst result = Done tt /\
  (has_key (config (snd result)) "vpc" = true <-> lower "gcp" = "aws") /\
  (In (Call "aws.get_vpc_config") (trace (snd result)) <->
   lower "gcp" = "aws") /\
  (forall url body, In (HttpPost url body) (trace (snd result)) ->
     body = deploy_body (config (snd result))).
Proof.
  cbv zeta. split; [vm_compute; reflexivity|].
  apply (vpc_present_iff_aws
           (Demo.healthy Demo.origin_api) "out.json" Demo.origin_api
           "gcp" "Worker" [Demo.credentials_path; "n"; "n"; "y"]
           (snd (run (Demo.healthy Demo.origin_api) "out.json"
                   Demo.origin_api (Deploy "gcp" "Worker")
                   [Demo.credentials_path; "n"; "n"; "y"]))).
  vm_compute. reflexivity.
Defined.

Lemma credentials_written_iff_confirmed_witness :
  let w := Demo.healthy Demo.origin_api in
  let result := run w "out.json" Demo.origin_api (Deploy "AWS" "Node")
                  (Demo.node_answers "n") in
  fst result = Done tt /\
  written (trace (snd result)) =
    [(output_path w "out.json",
      dumps (Some 2%nat) (PDict (config (snd result))))] /\
  (has_key (config (snd result)) "credentials" = true <->
   confirmation (trace (snd result)) = Some true) /\
  (confirmation (trace (snd result)) = Some false ->
   has_key (config (snd result)) "credentials" = false).
Proof.
  cbv zeta. split; [vm_compute; reflexivity|].
  apply (credentials_written_iff_confirmed
           (Demo.healthy Demo.origin_api) "out.json" Demo.origin_api
           "AWS" "Node" (Demo.node_answers "n")
           (snd (run (Demo.healthy Demo.origin_api) "out.json"
                   Demo.origin_api (Deploy "AWS" "Node")
                   (Demo.node_answers "n")))).
  vm_compute. reflexivity.
Defined.

(** C5, as stated, fails: with an API base URL that has a path, the status
    request goes to the root of the host, not below the base. *)
Lemma status_url_counterexample :
  let result := run (Demo.healthy Demo.path_api) "out.json" Demo.path_api
                  (Status "Node" None) [] in
  fst result = Done tt /\
  flat_map Demo.get_url (trace (snd result)) =
    [Demo.path_api; "http://localhost:5000/deployed/nodes"] /\
  ~ In (HttpGet (Demo.path_api ++ "/deployed/" ++ lower "Node" ++ "s"))
       (trace (snd result)).
Proof.
  cbv zeta. split; [vm_compute; reflexivity|].
  split; [vm_compute; reflexivity|].
  intros Hin. vm_compute in Hin.
  repeat (destruct Hin as [Hin|Hin]; [discriminate Hin|]). exact Hin.
Qed.

(** C5, amended: without an id the request is a GET to
    [urljoin(api_url, "/deployed/{app}s")], with an id a GET to
    [urljoin(api_url, "/deployed/{app}/{id}")], [app] being the lower-cased
    application name; these are [{api_url}/deployed/{app}s] and
    [{api_url}/deployed/{app}/{id}] when [api_url] is a bare
    [http(s)://authority]. *)
Theorem status_requests_joined_url
    (w : world) (app : string) (id : option Z) (s : state) (api : string)
    (r : outcome unit) (s1 : state) :
  dict_get (config s) "api_url" = Some (PStr api) ->
  status w app id s = (r, s1) ->
  let path := match id with
              | None => "/deployed/" ++ lower app ++ "s"
              | Some n => "/deployed/" ++ lower app ++ "/" ++ str_of_int n
              end in
  (exists tail,
     trace s1 = (trace s ++ HttpGet (urljoin api path) :: tail)%list /\
     forallb is_echo tail = true) /\
  (is_origin api = true -> choice_accepts status_app_choices app = true ->
   urljoin api path = api ++ path).
Proof.
  intros Ha H path. split.
  - apply (status_cases w app id s api r s1 Ha) in H as (_ & tail & Ht & Hok).
    exists tail. split; [|assumption]. rewrite Ht. unfold status_url, path.
    destruct id; reflexivity.
  - intros Ho Hacc. apply urljoin_origin; [assumption|].
    destruct (status_paths_plain app (match id with Some n => n | None => 0 end)
                Hacc) as [H1 H2].
    unfold path. destruct id; assumption.
Qed.

Lemma status_requests_joined_url_witness :
  let w := Demo.healthy Demo.origin_api in
  let s := {| config := base_config w "out.json" Demo.origin_api;
              stdin := []; trace := [] |} in
  let result := status w "Node" (Some 7) s in
  let path := "/deployed/" ++ lower "Node" ++ "/" ++ str_of_int 7 in
  (exists tail,
     trace (snd result) =
       (trace s ++ HttpGet (urljoin Demo.origin_api path) :: tail)%list /\
     forallb is_echo tail = true) /\
  (is_origin Demo.origin_api = true ->
   choice_accepts status_app_choices "Node" = true ->
   urljoin Demo.origin_api path = Demo.origin_api ++ path).
Proof.
  cbv zeta.
  apply (status_requests_joined_url
           (Demo.healthy Demo.origin_api) "Node" (Some 7)
           {| config := base_config (Demo.healthy Demo.origin_api) "out.json"
                          Demo.origin_api;
              stdin := []; trace := [] |}
           Demo.origin_api
           (fst (status (Demo.healthy Demo.origin_api) "Node" (Some 7)
                   {| config := base_config (Demo.healthy Demo.origin_api)
                                  "out.json" Demo.origin_api;
                      stdin := []; trace := [] |}))).
  - reflexivity.
  - apply surjective_pairing.
Defined.

(** C6: for every application name and deployment mode the
    application-argument step adds exactly the listed fields to the [app]
    record and nothing else: [id], [port], [host], [network] for a node;
    [port], [host] for a network that is not serverless; none for a
    serverless network and for a worker, whose record keeps only [name]. *)
Theorem app_arguments_add_exact_fields
    (w : world) (s s1 : state) (name : string) (serverless : bool) :
  dict_get (config s) "app" = Some (PObj [("name", PStr name)]) ->
  dict_get (config s) "serverless" = Some (PBool serverless) ->
  get_app_arguments w s = (Done tt, s1) ->
  (exists app,
     dict_get (config s1) "app" = Some (PObj app) /\
     map fst app = "name" :: spec_app_fields name serverless /\
     dict_get app "name" = Some (PStr name) /\
     forall k, str_eqb "app" k = false ->
               dict_get (config s1) k = dict_get (config s) k) /\
  spec_app_fields "node" serverless = ["id"; "port"; "host"; "network"] /\
  spec_app_fields "network" false = ["port"; "host"] /\
  spec_app_fields "network" true = [] /\
  spec_app_fields "worker" serverless = [].
Proof.
  intros Ha Hs H.
  destruct (get_app_arguments_done w s s1 name serverless Ha Hs H)
    as (fields & Happ & Hf & Hframe).
  split; [|repeat split; destruct serverless; reflexivity].
  exists (("name", PStr name) :: fields). repeat split.
  - exact Happ.
  - simpl. now rewrite Hf.
  - exact Hframe.
Qed.

Lemma app_arguments_add_exact_fields_witness :
  let w := Demo.healthy Demo.origin_api in
  let s := Demo.before_arguments "network" false ["7001"; EmptyString] in
  let s1 := snd (get_app_arguments w s) in
  get_app_arguments w s = (Done tt, s1) /\
  (exists app,
     dict_get (config s1) "app" = Some (PObj app) /\
     map fst app = "name" :: spec_app_fields "network" false /\
     dict_get app "name" = Some (PStr "network") /\
     forall k, str_eqb "app" k = false ->
               dict_get (config s1) k = dict_get (config s) k) /\
  spec_app_fields "node" false = ["id"; "port"; "host"; "network"] /\
  spec_app_fields "network" false = ["port"; "host"] /\
  spec_app_fields "network" true = [] /\
  spec_app_fields "worker" false = [].
Proof.
  cbv zeta. split; [vm_compute; reflexivity|].
  apply (app_arguments_add_exact_fields
           (Demo.healthy Demo.origin_api)
           (Demo.before_arguments "network" false ["7001"; EmptyString])
           (snd (get_app_arguments (Demo.healthy Demo.origin_api)
                   (Demo.before_arguments "network" false
                      ["7001"; EmptyString])))
           "network" false).
  - reflexivity.
  - reflexivity.
  - vm_compute. reflexivity.
Defined.

(** C7: in every deploy run that gets as far, the database configuration
    is obtained from the helper and becomes [credentials.db], whatever the
    provider. *)
Theorem db_config_attached_for_every_provider
    (w : world) (p a : string) (s : state) (credentials : pyval) (s1 : state) :
  deploy_gather w p a s = (Done credentials, s1) ->
  exists cloud db evs input rest,
    get_db_config w input = Some (db, rest) /\
    credentials = PObj [("cloud", cloud); ("db", db)] /\
    trace s1 = (trace s ++ evs)%list /\
    In (Call "aws.get_db_config") evs.
Proof.
  intros H. apply deploy_gather_done in H
    as (cloud & db & sl & ws & fields & vpc & evs & Hcr & _ & _ & _ & _ &
        Ht & _ & Hdb & _ & (input & rest & Hsrc) & _).
  exists cloud, db, evs, input, rest. repeat split; try assumption.
  apply existsb_exists in Hdb as (e & Hin & He).
  destruct e; try discriminate He. apply String.eqb_eq in He. now subst name.
Qed.

Lemma db_config_attached_for_every_provider_witness :
  let w := Demo.healthy Demo.origin_api in
  let s := {| config := base_config w "out.json" Demo.origin_api;
              stdin := [Demo.credentials_path; "y"; "n"]; trace := [] |} in
  let result := deploy_gather w "Azure" "Worker" s in
  fst result = Done (PObj [("cloud", PDict [("key", PStr "secret")]);
                           ("db", PObj [("username", PStr "admin")])]) /\
  exists cloud db evs input rest,
    get_db_config w input = Some (db, rest) /\
    fst result = Done (PObj [("cloud", cloud); ("db", db)]) /\
    trace (snd result) = (trace s ++ evs)%list /\
    In (Call "aws.get_db_config") evs.
Proof.
  cbv zeta. split; [vm_compute; reflexivity|].
  destruct (db_config_attached_for_every_provider
              (Demo.healthy Demo.origin_api) "Azure" "Worker"
              {| config := base_config (Demo.healthy Demo.origin_api)
                             "out.json" Demo.origin_api;
                 stdin := [Demo.credentials_path; "y"; "n"]; trace := [] |}
              (PObj [("cloud", PDict [("key", PStr "secret")]);
                     ("db", PObj [("username", PStr "admin")])])
              (snd (deploy_gather (Demo.healthy Demo.origin_api)
                      "Azure" "Worker"
                      {| config := base_config (Demo.healthy Demo.origin_api)
                                     "out.json" Demo.origin_api;
                         stdin := [Demo.credentials_path; "y"; "n"];
                         trace := [] |})))
    as (cloud & db & evs & input & rest & H1 & H2 & H3 & H4).
  - vm_compute. reflexivity.
  - exists cloud, db, evs, input, rest. repeat split; try assumption.
    rewrite <- H2. vm_compute. reflexivity.
Defined.

(** C8: for every supported provider and application input, whatever its
    letter case, the stored [provider] is lower case and one of aws, gcp,
    azure, and the stored [app.name] is lower case and one of node,
    network, worker. *)
Theorem stored_names_lowercase_enumerated
    (w : world) (p a : string) (s : state) (credentials : pyval) (s1 : state) :
  choice_accepts provider_choices p = true ->
  choice_accepts deploy_app_choices a = true ->
  deploy_gather w p a s = (Done credentials, s1) ->
  exists provider app name,
    dict_get (config s1) "provider" = Some (PStr provider) /\
    dict_get (config s1) "app" = Some (PObj app) /\
    dict_get app "name" = Some (PStr name) /\
    provider = lower p /\ name = lower a /\
    lower provider = provider /\ In provider ["aws"; "gcp"; "azure"] /\
    lower name = name /\ In name ["node"; "network"; "worker"].
Proof.
  intros Hp Ha H. apply deploy_gather_done in H
    as (cloud & db & sl & ws & fields & vpc & evs & _ & Hc & _).
  assert (Hprov : In (lower p) ["aws"; "gcp"; "azure"]).
  { unfold choice_accepts, provider_choices in Hp. cbn [existsb] in Hp.
    change (lower "AWS") with "aws" in Hp.
    change (lower "GCP") with "gcp" in Hp.
    change (lower "AZURE") with "azure" in Hp.
    repeat (apply orb_prop in Hp as [Hp|Hp];
            [apply String.eqb_eq in Hp; rewrite <- Hp; simpl; tauto|]).
    discriminate Hp. }
  assert (Hname : In (lower a) ["node"; "network"; "worker"]).
  { unfold choice_accepts, deploy_app_choices in Ha. cbn [existsb] in Ha.
    change (lower "Node") with "node" in Ha.
    change (lower "Network") with "network" in Ha.
    change (lower "Worker") with "worker" in Ha.
    repeat (apply orb_prop in Ha as [Ha|Ha];
            [apply String.eqb_eq in Ha; rewrite <- Ha; simpl; tauto|]).
    discriminate Ha. }
  exists (lower p), (("name", PStr (lower a)) :: fields), (lower a).
  repeat split; try assumption.
  - rewrite Hc. unfold gathered.
    destruct vpc; now rewrite !dict_get_set_other, dict_get_set_same
      by reflexivity.
  - rewrite Hc. unfold gathered.
    destruct vpc; now rewrite !dict_get_set_other, dict_get_set_same
      by reflexivity.
  - simpl in Hprov. destruct Hprov as [E|[E|[E|[]]]]; rewrite <- E; reflexivity.
  - simpl in Hname. destruct Hname as [E|[E|[E|[]]]]; rewrite <- E; reflexivity.
Qed.

Lemma stored_names_lowercase_enumerated_witness :
  let w := Demo.healthy Demo.origin_api in
  let s := {| config := base_config w "out.json" Demo.origin_api;
              stdin := [Demo.credentials_path; "y"; "n"]; trace := [] |} in
  let result := deploy_gather w "aZuRe" "WORKER" s in
  choice_accepts provider_choices "aZuRe" = true /\
  choice_accepts deploy_app_choices "WORKER" = true /\
  exists provider app name,
    dict_get (config (snd result)) "provider" = Some (PStr provider) /\
    dict_get (config (snd result)) "app" = Some (PObj app) /\
    dict_get app "name" = Some (PStr name) /\
    provider = lower "aZuRe" /\ name = lower "WORKER" /\
    lower provider = provider /\ In provider ["aws"; "gcp"; "azure"] /\
    lower name = name /\ In name ["node"; "network"; "worker"].
Proof.
  cbv zeta. split; [reflexivity|]. split; [reflexivity|].
  apply (stored_names_lowercase_enumerated
           (Demo.healthy Demo.origin_api) "aZuRe" "WORKER"
           {| config := base_config (Demo.healthy Demo.origin_api)
                          "out.json" Demo.origin_api;
              stdin := [Demo.credentials_path; "y"; "n"]; trace := [] |}
           (PObj [("cloud", PDict [("key", PStr "secret")]);
                  ("db", PObj [("username", PStr "admin")])])).
  - reflexivity.
  - reflexivity.
  - vm_compute. reflexivity.
Defined.

(** C1 does not hold of the code: a health probe answered with status 500
    raises nothing, so no error is printed and the process does not stop;
    the root directory is made and the first question of [deploy] follows. *)
Theorem health_probe_500_goes_on :
  let result := run Demo.failing "out.json" Demo.origin_api
                  (Deploy "AWS" "Node") (Demo.node_answers "n") in
  http_get Demo.failing Demo.origin_api =
    Response 500 "Internal Server Error" /\
  fst result = Done tt /\
  firstn 3 (trace (snd result)) =
    [HttpGet Demo.origin_api;
     Makedirs "/home/user/.pygrid/cli";
     Prompt "Please enter path to your  aws credentials json file"
       Demo.credentials_path] /\
  existsb is_prompt (trace (snd result)) = true /\
  ~ In (Echo (colored Demo.failing (PStr "Please enter a valid API URL")
                (Some "red")))
       (trace (snd result)).
Proof.
  cbv zeta. split; [reflexivity|]. split; [vm_compute; reflexivity|].
  split; [vm_compute; reflexivity|]. split; [vm_compute; reflexivity|].
  intros Hin. vm_compute in Hin.
  repeat (destruct Hin as [Hin|Hin]; [discriminate Hin|]). exact Hin.
Qed.

(** C9: round trip.  For every invocation that ends normally, the JSON
    document that the finalizer writes, parsed back, is the configuration
    with every nested [Config] read as a dict: every field that the
    subcommand set is there, at any depth. *)
Theorem output_file_round_trip
    (w : world) (out api : string) (c : command) (input : list string)
    (s' : state) :
  helpers_wf w ->
  run w out api c input = (Done tt, s') ->
  exists content parsed,
    written (trace s') = [(output_path w out, content)] /\
    loads content = Some parsed /\
    parsed = plain (PDict (config s')) /\
    forall path v,
      lookup_path path (PDict (config s')) = Some v ->
      lookup_path path parsed = Some (plain v).
Proof.
  intros Hw H.
  assert (Hwr : written (trace s') =
                [(output_path w out, dumps (Some 2%nat) (PDict (config s')))]).
  { destruct c; [now apply deploy_run_written in H
                | now apply status_run_written in H]. }
  assert (Hwf : wf (PDict (config s')) = true).
  { destruct c.
    - now apply deploy_run_wf in H.
    - apply status_run_done in H as (pre & tail & Hc & _). rewrite Hc.
      apply base_config_wf. }
  exists (dumps (Some 2%nat) (PDict (config s'))), (plain (PDict (config s'))).
  split; [exact Hwr|]. split; [now apply loads_dumps|]. split; [reflexivity|].
  intros path v Hv. now rewrite lookup_path_plain, Hv.
Qed.

Lemma output_file_round_trip_witness :
  let w := Demo.healthy Demo.origin_api in
  let result := run w "out.json" Demo.origin_api (Deploy "AWS" "Node")
                  (Demo.node_answers "y") in
  fst result = Done tt /\
  lookup_path ["credentials"; "cloud"; "key"] (PDict (config (snd result))) =
    Some (PStr "secret") /\
  exists content parsed,
    written (trace (snd result)) = [(output_path w "out.json", content)] /\
    loads content = Some parsed /\
    parsed = plain (PDict (config (snd result))) /\
    forall path v,
      lookup_path path (PDict (config (snd result))) = Some v ->
      lookup_path path parsed = Some (plain v).
Proof.
  cbv zeta. split; [vm_compute; reflexivity|]. split; [vm_compute; reflexivity|].
  apply (output_file_round_trip
           (Demo.healthy Demo.origin_api) "out.json" Demo.origin_api
           (Deploy "AWS" "Node") (Demo.node_answers "y")
           (snd (run (Demo.healthy Demo.origin_api) "out.json"
                   Demo.origin_api (Deploy "AWS" "Node")
                   (Demo.node_answers "y")))).
  - intros input v rest [H|H]; vm_compute in H; injection H as <- _;
      reflexivity.
  - vm_compute. reflexivity.
Defined.

(* ------------------------------------------------------------------ *)
(** ** Whole runs, however they end *)

Module RunFacts.

#[local] Arguments lower : simpl never.
#[local] Arguments dumps : simpl never.
#[local] Arguments urljoin : simpl never.
#[local] Arguments loads : simpl never.
#[local] Arguments prompt_lines : simpl never.
#[local] Arguments confirm_lines : simpl never.
#[local] Arguments pygrid_root : simpl never.
#[local] Arguments dict_set : simpl nomatch.
#[local] Arguments dict_get : simpl nomatch.

Ltac unfold_all H :=
  cbv [run_command deploy deploy_submit status
       logging cli set_app_attr attr_of
       requests_get requests_post open_read makedirs write_json call_helper
       json_loads subscript_message echo_response vars_config
       click_prompt click_confirm echo emit setattr getattr
       bind ret raise quit try_except] in H.

Ltac unfold_here :=
  cbv [run_command deploy deploy_submit status
       logging cli set_app_attr attr_of
       requests_get requests_post open_read makedirs write_json call_helper
       json_loads subscript_message echo_response vars_config
       click_prompt click_confirm echo emit setattr getattr
       bind ret raise quit try_except].

Ltac split_match H :=
  match type of H with
  | context [match ?X with _ => _ end] =>
      lazymatch X with
      | context [match _ with _ => _ end] => fail
      | _ => destruct X eqn:?
      end
  end.

Ltac run_step H :=
  first [ rewrite dict_get_set_same in H
        | rewrite dict_get_set_other in H by reflexivity
        | rewrite dict_set_set_same in H
        | split_match H ];
  cbn in H; try discriminate H.

Ltac close_state H s1 :=
  apply pair_equal_spec in H as [_ H]; subst s1.

(** *** A base URL with a path *)

Lemma remove_unsafe_app_authority (n rest : string) :
  all_chars is_authority_char n = true ->
  remove_unsafe (n ++ rest) = n ++ remove_unsafe rest.
Proof.
  induction n as [|c n IH]; simpl; [reflexivity|]. intros H.
  apply andb_prop in H as [Hc Hn]. unfold is_authority_char in Hc.
  apply andb_prop in Hc as [_ Hc]. apply negb_true_iff in Hc.
  rewrite Hc, IH by assumption. reflexivity.
Qed.

Lemma break_at_app_authority (n : string) (c : ascii) (rest : string) :
  all_chars is_authority_char n = true -> is_netloc_end c = true ->
  break_at is_netloc_end (n ++ String c rest) = (n, String c rest).
Proof.
  intros Hn Hc. induction n as [|b n IH]; simpl.
  - now rewrite Hc.
  - apply andb_prop in Hn as [Hb Hn]. unfold is_authority_char in Hb.
    apply andb_prop in Hb as [Hb _]. apply negb_true_iff in Hb.
    rewrite Hb, IH by assumption. reflexivity.
Qed.

Lemma netloc_end_safe (c : ascii) :
  is_netloc_end c = true ->
  ((code c =? 9) || (code c =? 10) || (code c =? 13))%N = false.
Proof.
  unfold is_netloc_end. intros H.
  apply orb_prop in H as [H|H]; [apply orb_prop in H as [H|H]|].
  all: apply N.eqb_eq in H; rewrite H; reflexivity.
Qed.

Lemma base_below (scheme n : string) (c : ascii) (rest : string) :
  (scheme = "http" \/ scheme = "https") ->
  is_authority n = true -> is_netloc_end c = true ->
  base_scheme_netloc (scheme ++ "://" ++ n ++ String c rest) = (scheme, n).
Proof.
  intros Hs Hn Hc. unfold is_authority in Hn.
  apply andb_prop in Hn as [_ Hn]. unfold base_scheme_netloc.
  destruct Hs; subst scheme; simpl;
    rewrite (remove_unsafe_app_authority n _ Hn); simpl;
    rewrite (netloc_end_safe c Hc), (break_at_app_authority n c _ Hn Hc);
    reflexivity.
Qed.

(** What follows the authority of the base plays no part. *)
Lemma urljoin_below (origin : string) (c : ascii) (rest path : string) :
  is_origin origin = true -> is_netloc_end c = true ->
  urljoin (below origin c rest) path = urljoin origin path.
Proof.
  intros Ho Hc. unfold is_origin in Ho.
  assert (H : exists scheme n,
             (scheme = "http" \/ scheme = "https") /\ is_authority n = true /\
             origin = scheme ++ "://" ++ n).
  { destruct (drop_prefix "http://" origin) as [n|] eqn:E.
    - exists "http", n. apply drop_prefix_app in E. auto.
    - destruct (drop_prefix "https://" origin) as [n|] eqn:E'; [|discriminate].
      exists "https", n. apply drop_prefix_app in E'. auto. }
  destruct H as (scheme & n & Hs & Hn & ->).
  rewrite (urljoin_authority scheme n path Hs Hn).
  unfold below. rewrite !sapp_assoc. unfold urljoin.
  rewrite (base_below scheme n c rest Hs Hn Hc).
  destruct Hs; subst scheme; reflexivity.
Qed.

(** *** Prompts *)

Lemma prompt_typed (default : option string) (l : string)
    (rest : list string) :
  l <> EmptyString -> prompt_lines default (l :: rest) = Some (l, rest).
Proof.
  intros H. unfold prompt_lines. fold prompt_lines.
  destruct (str_eqb l EmptyString) eqn:E; [|reflexivity].
  apply String.eqb_eq in E. contradiction.
Qed.

Lemma prompt_defaulted (d l : string) (rest : list string) :
  prompt_lines (Some d) (l :: rest) = Some (answered l d, rest).
Proof.
  unfold prompt_lines, answered. now destruct (str_eqb l EmptyString).
Qed.

Lemma prompt_required (lines : list string) (v : string)
    (rest : list string) :
  prompt_lines None lines = Some (v, rest) ->
  v <> EmptyString /\ In v lines /\ incl rest lines.
Proof.
  induction lines as [|l lines IH]; [discriminate|].
  unfold prompt_lines. fold prompt_lines.
  destruct (str_eqb l EmptyString) eqn:E.
  - intros H. destruct (IH H) as (Hv & Hin & Hrest).
    split; [exact Hv|]. split; [now right|]. now apply incl_tl.
  - intros H. inversion H; subst v rest; clear H.
    split; [|split; [now left | now apply incl_tl, incl_refl]].
    intros ->. discriminate E.
Qed.

Lemma prompt_rest (default : option string) (lines : list string)
    (v : string) (rest : list string) :
  prompt_lines default lines = Some (v, rest) -> incl rest lines.
Proof.
  induction lines as [|l lines IH]; [discriminate|].
  unfold prompt_lines. fold prompt_lines.
  destruct (str_eqb l EmptyString), default as [d|]; intros H.
  - inversion H; subst. now apply incl_tl, incl_refl.
  - now apply incl_tl, IH.
  - inversion H; subst. now apply incl_tl, incl_refl.
  - inversion H; subst. now apply incl_tl, incl_refl.
Qed.

Section Runs.

Variable w : world.

Lemma environ_get_fallback (name fallback : string) :
  environ_get w name (Some fallback) = Some (env_or w name fallback).
Proof. unfold environ_get, env_or. now destruct (environ w name). Qed.

(** The three stages of a run. *)
Lemma run_stages out api c input r s' :
  run w out api c input = (r, s') ->
  exists r1 s1,
    cli w out api (start input) = (r1, s1) /\
    match r1 with
    | Done _ =>
        exists r2 s2,
          run_command w c s1 = (r2, s2) /\
          match r2 with
          | Done _ => logging w s2 = (r, s')
          | Quit => r = Quit /\ s' = s2
          | Raised e => r = Raised e /\ s' = s2
          end
    | Quit => r = Quit /\ s' = s1
    | Raised e => r = Raised e /\ s' = s1
    end.
Proof.
  intros H. unfold run, main, bind in H.
  destruct (cli w out api (start input)) as [[[]| |e] s1];
    eexists; exists s1; (split; [reflexivity|]).
  - destruct (run_command w c s1) as [[[]| |e] s2];
      eexists; exists s2; (split; [reflexivity|]).
    + exact H.
    + now inversion H.
    + now inversion H.
  - now inversion H.
  - now inversion H.
Qed.

(** The input is read by the subcommand only. *)
Lemma cli_stdin out api s r s1 :
  cli w out api s = (r, s1) -> stdin s1 = stdin s.
Proof.
  intros H. unfold cli in H. unfold_all H. cbn in H.
  repeat (split_match H; cbn in H).
  all: close_state H s1; reflexivity.
Qed.

Lemma status_stdin app id s r s1 :
  status w app id s = (r, s1) -> stdin s1 = stdin s.
Proof.
  intros H. unfold status in H. unfold_all H. cbn in H.
  repeat (split_match H; cbn in H).
  all: close_state H s1; reflexivity.
Qed.

Lemma logging_stdin s r s1 : logging w s = (r, s1) -> stdin s1 = stdin s.
Proof.
  intros H. unfold logging in H. unfold_all H. cbn in H.
  repeat (split_match H; cbn in H).
  all: close_state H s1; reflexivity.
Qed.

(** [logging] that does not return has written nothing. *)
Lemma logging_raised s r s1 :
  logging w s = (r, s1) -> r <> Done tt ->
  exists evs, trace s1 = (trace s ++ evs)%list /\ forallb is_echo evs = true.
Proof.
  intros H Hr. unfold logging in H. unfold_all H. cbn in H.
  repeat (split_match H; cbn in H).
  all: try (apply pair_equal_spec in H as [H _]; now symmetry in H).
  all: close_state H s1; cbn [trace].
  all: try (exists []; now rewrite List.app_nil_r).
  all: eexists; split; [reflexivity | reflexivity].
Qed.

(** What the subcommands emit. *)
Lemma emits_status_reading app id : emits reading (status w app id).
Proof.
  unfold status, echo_response, echo, json_loads.
  emits_auto w; apply emits_requests_get; reflexivity.
Qed.

Lemma emits_deploy_submit creds :
  emits not_write (deploy_submit w creds).
Proof.
  unfold deploy_submit, requests_post, echo_response, echo, json_loads.
  emits_auto w.
Qed.

Lemma emits_run_command c : emits not_write (run_command w c).
Proof.
  destruct c as [p a|app id]; unfold run_command.
  - destruct (_ && _); [|apply emits_raise].
    unfold deploy. apply emits_bind.
    + apply (emits_weaken _ gathering); [|apply emits_deploy_gather].
      intros e He. unfold not_write. now rewrite gathering_not_write.
    + intros creds. apply emits_deploy_submit.
  - destruct (choice_accepts _ _); [|apply emits_raise].
    unfold status, echo_response, echo, json_loads.
    emits_auto w; apply emits_requests_get; reflexivity.
Qed.

(** *** Reading traces by class *)

Lemma probing_reading e : probing e = true -> reading e = true.
Proof. destruct e; simpl; intros H; try reflexivity; discriminate H. Qed.

Lemma reporting_reading e : reporting e = true -> reading e = true.
Proof. destruct e; simpl; intros H; try reflexivity; discriminate H. Qed.

Lemma reading_not_post e : reading e = true -> is_post e = false.
Proof. destruct e; simpl; intros H; try reflexivity; discriminate H. Qed.

Lemma probing_not_write e : probing e = true -> is_write e = false.
Proof. destruct e; simpl; intros H; try reflexivity; discriminate H. Qed.

Lemma not_write_spec e : not_write e = true -> is_write e = false.
Proof. unfold not_write. now destruct (is_write e). Qed.

Lemma forallb_weaken (ok ok' : event -> bool) (l : list event) :
  (forall e, ok e = true -> ok' e = true) ->
  forallb ok l = true -> forallb ok' l = true.
Proof. intros Hw H. rewrite forallb_forall in *. auto. Qed.

(** *** Runs that do not end normally *)

Lemma run_failed_writes_nothing out api c input r s' :
  run w out api c input = (r, s') -> r <> Done tt ->
  written (trace s') = [].
Proof.
  intros H Hr. apply run_stages in H as (r1 & s1 & Hcli & H).
  destruct (emits_cli_probing w out api _ _ _ Hcli) as (ev1 & Ht1 & Hok1).
  cbn [start trace List.app] in Ht1.
  assert (Hw1 : written (trace s1) = []).
  { rewrite Ht1. now apply (written_none probing ev1 probing_not_write). }
  destruct r1 as [[]| |e];
    [ | destruct H as [_ ->]; exact Hw1 | destruct H as [_ ->]; exact Hw1 ].
  destruct H as (r2 & s2 & Hcmd & H).
  destruct (emits_run_command c _ _ _ Hcmd) as (ev2 & Ht2 & Hok2).
  assert (Hw2 : written (trace s2) = []).
  { rewrite Ht2, written_app, Hw1.
    now apply (written_none not_write ev2 not_write_spec). }
  destruct r2 as [[]| |e];
    [ | destruct H as [_ ->]; exact Hw2 | destruct H as [_ ->]; exact Hw2 ].
  destruct (logging_raised _ _ _ H Hr) as (ev3 & Ht3 & Hok3).
  rewrite Ht3, written_app, Hw2.
  now apply (written_none is_echo ev3 echo_not_write).
Qed.

(** *** [status] runs *)

Lemma status_run_reading out api app id input r s' :
  run w out api (Status app id) input = (r, s') ->
  forallb reading (trace s') = true /\ stdin s' = input.
Proof.
  intros H. apply run_stages in H as (r1 & s1 & Hcli & H).
  destruct (emits_cli_probing w out api _ _ _ Hcli) as (ev1 & Ht1 & Hok1).
  cbn [start trace List.app] in Ht1.
  apply (forallb_weaken _ _ _ probing_reading) in Hok1.
  apply cli_stdin in Hcli. cbn [start stdin] in Hcli.
  destruct r1 as [[]| |e];
    [ | destruct H as [_ ->]; rewrite Ht1; now split
      | destruct H as [_ ->]; rewrite Ht1; now split ].
  destruct H as (r2 & s2 & Hcmd & H). unfold run_command in Hcmd.
  assert (Hs2 : forallb reading (trace s2) = true /\ stdin s2 = input).
  { destruct (choice_accepts status_app_choices app).
    - destruct (emits_status_reading app id _ _ _ Hcmd) as (ev2 & Ht2 & Hok2).
      apply status_stdin in Hcmd. split; [|congruence].
      now rewrite Ht2, Ht1, forallb_app, Hok1, Hok2.
    - inversion Hcmd; subst s2. rewrite Ht1. now split. }
  destruct Hs2 as [Hr2 Hi2].
  destruct r2 as [[]| |e];
    [ | destruct H as [_ ->]; now split | destruct H as [_ ->]; now split ].
  destruct (emits_logging w _ _ _ H) as (ev3 & Ht3 & Hok3).
  apply (forallb_weaken _ _ _ reporting_reading) in Hok3.
  apply logging_stdin in H. split; [|congruence].
  now rewrite Ht3, forallb_app, Hr2, Hok3.
Qed.

Lemma gets_app (l1 l2 : list event) :
  gets (l1 ++ l2) = (gets l1 ++ gets l2)%list.
Proof. unfold gets. now rewrite flat_map_app. Qed.

Lemma gets_echo (l : list event) : forallb is_echo l = true -> gets l = [].
Proof.
  induction l as [|e l IH]; simpl; [reflexivity|]. intros H.
  apply andb_prop in H as [He Hl]. cbn [gets flat_map] in *.
  rewrite (IH Hl). destruct e; try discriminate He; reflexivity.
Qed.

(** [cli] requests the base URL, once. *)
Lemma cli_gets out api s r s1 :
  cli w out api s = (r, s1) -> gets (trace s1) = (gets (trace s) ++ [api])%list.
Proof.
  intros H. unfold cli in H. unfold_all H. cbn in H.
  repeat (split_match H; cbn in H).
  all: close_state H s1; cbn [trace].
  all: rewrite ?gets_app; cbn; rewrite <- ?List.app_assoc, ?List.app_nil_r.
  all: reflexivity.
Qed.

(** [cli] when the probe does not raise inside the [try]. *)
Lemma cli_passes out api s :
  probe_fails (http_get w api) = false ->
  exists s1,
    cli w out api s =
    (if makedirs_ok w (pygrid_root w) then Done tt else Raised "OSError", s1).
Proof.
  intros H. unfold probe_fails, probe_welcomes, has_key in H.
  unfold cli. unfold_here. cbn.
  destruct (http_get w api) as [code text|]; cbn; [|discriminate H].
  destruct (code =? 200); cbn in H |- *.
  - destruct (loads text) as [[| | | | |d|]|]; cbn; try discriminate H.
    destruct (dict_get d "message"); cbn; [|discriminate H].
    rewrite dict_get_set_same. cbn.
    destruct (makedirs_ok w (pygrid_root w)); cbn; eexists; reflexivity.
  - rewrite dict_get_set_same. cbn.
    destruct (makedirs_ok w (pygrid_root w)); cbn; eexists; reflexivity.
Qed.



(** [cli] after a welcome. *)
Lemma cli_welcome out api s text d message :
  http_get w api = Response 200 text ->
  loads text = Some (PDict d) ->
  dict_get d "message" = Some message ->
  exists r s1,
    cli w out api s = (r, s1) /\
    trace s1 =
      (trace s ++
       [HttpGet api;
        Echo (colored w message None);
        Echo (colored w (PStr "Welcome to OpenMined PyGrid CLI")
                (Some "blue"));
        Makedirs (pygrid_root w)])%list.
Proof.
  intros Hg Hl Hm. unfold cli. unfold_here. cbn. rewrite Hg. cbn.
  rewrite Hl. cbn. rewrite Hm. cbn. rewrite dict_get_set_same. cbn.
  destruct (makedirs_ok w (pygrid_root w)); cbn.
  all: eexists; eexists; split; [reflexivity|]; cbn [trace].
  all: now rewrite <- !List.app_assoc.
Qed.

(** The trace of a run starts with the trace of [cli]. *)
Lemma run_extends_cli out api c input r s' r1 s1 :
  run w out api c input = (r, s') ->
  cli w out api (start input) = (r1, s1) ->
  exists evs, trace s' = (trace s1 ++ evs)%list.
Proof.
  intros H Hcli. apply run_stages in H as (r1' & s1' & Hcli' & H).
  rewrite Hcli in Hcli'. inversion Hcli'; subst r1' s1'; clear Hcli'.
  destruct r1 as [[]| |e];
    [ | destruct H as [_ ->]; exists []; now rewrite List.app_nil_r
      | destruct H as [_ ->]; exists []; now rewrite List.app_nil_r ].
  destruct H as (r2 & s2 & Hcmd & H).
  destruct (emits_run_command c _ _ _ Hcmd) as (ev2 & Ht2 & _).
  destruct r2 as [[]| |e];
    [ | destruct H as [_ ->]; now exists ev2
      | destruct H as [_ ->]; now exists ev2 ].
  destruct (emits_logging w _ _ _ H) as (ev3 & Ht3 & _).
  exists (ev2 ++ ev3)%list. now rewrite Ht3, Ht2, List.app_assoc.
Qed.

(** The stages of a [deploy] run that returns. *)
Lemma deploy_run_stages out api p a input s' :
  run w out api (Deploy p a) input = (Done tt, s') ->
  exists s1 creds s2 s3,
    cli w out api (start input) = (Done tt, s1) /\
    deploy_gather w p a s1 = (Done creds, s2) /\
    deploy_submit w creds s2 = (Done tt, s3) /\
    logging w s3 = (Done tt, s').
Proof.
  intros H. unfold run, main, bind in H.
  destruct (cli w out api (start input)) as [[[]| |e] s1] eqn:Ecli;
    try discriminate H.
  unfold run_command in H.
  destruct (choice_accepts provider_choices p &&
            choice_accepts deploy_app_choices a); [|discriminate H].
  unfold deploy, bind in H.
  destruct (deploy_gather w p a s1) as [[creds| |e] s2] eqn:Eg;
    try discriminate H.
  destruct (deploy_submit w creds s2) as [[[]| |e] s3] eqn:Es;
    try discriminate H.
  exists s1, creds, s2, s3. auto.
Qed.

(** [deploy] from the last question on, when it returns after a yes. *)
Lemma deploy_submit_returns creds s rest api s1 :
  confirm_lines (stdin s) = Some (true, rest) ->
  dict_get (config s) "api_url" = Some (PStr api) ->
  deploy_submit w creds s = (Done tt, s1) ->
  exists code text body,
    http_post w (urljoin api "/deploy")
      (deploy_body (dict_set (config s) "credentials" creds)) =
      Response code text /\
    loads text = Some body /\
    config s1 = dict_set (config s) "credentials" creds /\
    trace s1 =
      (trace s ++
       [Confirm (final_text w (config s)) true;
        HttpPost (urljoin api "/deploy")
          (deploy_body (dict_set (config s) "credentials" creds));
        Echo (colored w (PStr (dumps (Some 2%nat) body)) None)])%list.
Proof.
  intros Hc Ha H. unfold deploy_submit in H. unfold_all H. cbn in H.
  rewrite Hc in H. cbn in H.
  rewrite dict_get_set_other in H by reflexivity. rewrite Ha in H. cbn in H.
  fold (final_text w (config s)) in H.
  fold (deploy_body (dict_set (config s) "credentials" creds)) in H.
  destruct (http_post w (urljoin api "/deploy")
              (deploy_body (dict_set (config s) "credentials" creds)))
    as [code text|]; cbn in H; [|discriminate H].
  exists code, text.
  destruct (code =? 200); cbn in H.
  all: destruct (loads text) as [body|]; cbn in H; [|discriminate H].
  all: exists body; close_state H s1; cbn [config trace].
  all: repeat (split; [reflexivity|]).
  all: now rewrite <- !List.app_assoc.
Qed.

(** A [deploy] run that returns after a yes, by its stages. *)
Lemma deploy_run_confirmed out api p a input s' :
  run w out api (Deploy p a) input = (Done tt, s') ->
  confirmation (trace s') = Some true ->
  exists s1 creds s2 s3 rest,
    cli w out api (start input) = (Done tt, s1) /\
    deploy_gather w p a s1 = (Done creds, s2) /\
    confirm_lines (stdin s2) = Some (true, rest) /\
    deploy_submit w creds s2 = (Done tt, s3) /\
    logging w s3 = (Done tt, s').
Proof.
  intros H Hyes.
  apply deploy_run_stages in H as (s1 & creds & s2 & s3 & Hcli & Hg & Hs & Hl).
  exists s1, creds, s2, s3.
  destruct (emits_cli_probing w out api _ _ _ Hcli) as (ev1 & Ht1 & Hok1).
  cbn [start trace List.app] in Ht1.
  destruct (emits_deploy_gather w p a _ _ _ Hg) as (ev2 & Ht2 & Hok2).
  assert (Hpre : forallb gathering (ev1 ++ ev2) = true).
  { rewrite forallb_app, Hok2, andb_true_r.
    exact (forallb_weaken _ _ _ probing_gathering Hok1). }
  destruct (confirm_lines (stdin s2)) as [[ok rest]|] eqn:Ecf;
    [destruct ok|].
  - exists rest. auto.
  - exfalso. rewrite (deploy_submit_declined w _ _ _ Ecf) in Hs.
    apply pair_equal_spec in Hs as [_ Hs]. subst s3.
    apply logging_done in Hl as (path & _ & _ & _ & Ht4).
    cbn [trace config] in Ht4.
    assert (Hno : confirmation (trace s') = Some false).
    { rewrite Ht4, Ht2, Ht1. rewrite <- List.app_assoc.
      apply (shaped_confirmation w (ev1 ++ ev2) (config s2) false []
               [Echo ("Writing configs to " ++ path);
                WriteFile path (dumps (Some 2%nat) (PDict (config s2)))]);
        auto. }
    rewrite Hno in Hyes. discriminate Hyes.
  - rewrite (deploy_submit_eof w _ _ Ecf) in Hs. discriminate Hs.
Qed.

(** The configuration with which [deploy] reaches the last question. *)
Lemma deploy_gathered_config out api p a input s1 creds s2 :
  cli w out api (start input) = (Done tt, s1) ->
  deploy_gather w p a s1 = (Done creds, s2) ->
  dict_get (config s2) "api_url" = Some (PStr api) /\
  dict_get (config s2) "output_file" = Some (PStr (output_path w out)).
Proof.
  intros Hcli Hg. apply cli_done in Hcli as [Hc1 _].
  apply deploy_gather_done in Hg
    as (cloud & db & sl & ws & fields & vpc & evs & _ & Hc2 & _).
  rewrite Hc2, gathered_get_api, gathered_get_output, Hc1. now split.
Qed.

(** A [deploy] run that returns after a yes: the answer to the POST was
    JSON and is shown before the file is written. *)
Lemma deploy_run_response out api p a input s' :
  run w out api (Deploy p a) input = (Done tt, s') ->
  confirmation (trace s') = Some true ->
  exists code text body pre,
    http_post w (urljoin api "/deploy") (deploy_body (config s')) =
      Response code text /\
    loads text = Some body /\
    trace s' =
      (pre ++
       [HttpPost (urljoin api "/deploy") (deploy_body (config s'));
        Echo (colored w (PStr (dumps (Some 2%nat) body)) None);
        Echo ("Writing configs to " ++ output_path w out);
        WriteFile (output_path w out)
          (dumps (Some 2%nat) (PDict (config s')))])%list.
Proof.
  intros H Hyes.
  destruct (deploy_run_confirmed out api p a input s' H Hyes)
    as (s1 & creds & s2 & s3 & rest & Hcli & Hg & Ecf & Hs & Hl).
  destruct (deploy_gathered_config out api p a input s1 creds s2 Hcli Hg)
    as [Hapi Hout2].
  apply logging_done in Hl as (path & Hout & Hw & Hc4 & Ht4).
  eapply deploy_submit_returns in Hs
    as (code & text & body & Hpost & Hbody & Hc3 & Ht3);
    [ | exact Ecf | exact Hapi ].
  rewrite Hc3, dict_get_set_other, Hout2 in Hout by reflexivity.
  injection Hout as Hout. subst path.
  exists code, text, body,
    (trace s2 ++ [Confirm (final_text w (config s2)) true])%list.
  rewrite Hc4, Hc3. split; [exact Hpost|]. split; [exact Hbody|].
  rewrite Ht4, Ht3, Hc3. rewrite <- !List.app_assoc. reflexivity.
Qed.

(** [deploy] up to the database step, when it returns: the credentials
    file that was loaded and the answers to the two yes/no questions. *)
Lemma deploy_gather_cloud p a s creds s1 :
  deploy_gather w p a s = (Done creds, s1) ->
  exists path rest text cloud db sl ws evs,
    prompt_lines (Some (default_credentials w (lower p))) (stdin s) =
      Some (path, rest) /\
    read_file w path = Some text /\
    loads text = Some cloud /\
    creds = PObj [("cloud", cloud); ("db", db)] /\
    trace s1 =
      (trace s ++
       Prompt (credentials_question w (lower p)) path ::
       OpenRead path ::
       Confirm "Do you want to deploy serverless?" sl ::
       Confirm "Will you need to support Websockets?" ws :: evs)%list /\
    dict_get (config s1) "serverless" = Some (PBool sl) /\
    dict_get (config s1) "websockets" = Some (PBool ws).
Proof.
  intros H. unfold deploy_gather, get_app_arguments in H. unfold_all H.
  cbn in H. repeat run_step H.
  all: rewrite <- ?List.app_assoc in H; cbn [List.app] in H.
  all: apply pair_equal_spec in H as [Hcreds Hs1];
    injection Hcreds as Hcreds; subst creds s1; cbn [config trace].
  all: unfold default_credentials, credentials_question.
  all: do 8 eexists.
  all: split; [eassumption|]; split; [eassumption|]; split; [eassumption|].
  all: split; [reflexivity|]; split; [reflexivity|].
  all: split; rewrite ?dict_get_set_other by reflexivity;
    apply dict_get_set_same.
Qed.

End Runs.

End RunFacts.
Import RunFacts.

(* ------------------------------------------------------------------ *)
(** ** Further properties of the commands *)

#[local] Arguments lower : simpl never.
#[local] Arguments dumps : simpl never.
#[local] Arguments urljoin : simpl never.
#[local] Arguments loads : simpl never.
#[local] Arguments prompt_lines : simpl never.
#[local] Arguments confirm_lines : simpl never.
#[local] Arguments pygrid_root : simpl never.



(** X2: the output file is written at the very end of a run that ends
    normally, and only then: a run of any subcommand either ends normally
    having written exactly one file, the configuration at
    [{root}/{output_file}], or has written nothing at all. *)
Theorem output_file_all_or_nothing
    (w : world) (out api : string) (c : command) (input : list string) :
  let result := run w out api c input in
  (fst result = Done tt /\
   written (trace (snd result)) =
     [(output_path w out,
       dumps (Some 2%nat) (PDict (config (snd result))))]) \/
  (fst result <> Done tt /\ written (trace (snd result)) = []).
Proof.
  cbv zeta. destruct (run w out api c input) as [r s'] eqn:H. cbn [fst snd].
  destruct r as [[]| |e].
  - left. split; [reflexivity|]. destruct c as [p a|app id].
    + exact (deploy_run_written w out api p a input s' H).
    + exact (status_run_written w out api app id input s' H).
  - right. split; [discriminate|].
    apply (run_failed_writes_nothing w out api c input _ _ H). discriminate.
  - right. split; [discriminate|].
    apply (run_failed_writes_nothing w out api c input _ _ H). discriminate.
Qed.

(** X3: nothing is submitted without an explicit yes: in a run of any
    subcommand, however it ends, a POST is in the trace only if the
    subcommand is [deploy] and the last question was asked and answered
    yes. *)
Theorem post_only_after_yes
    (w : world) (out api : string) (c : command) (input : list string)
    (r : outcome unit) (s' : state) :
  run w out api c input = (r, s') ->
  posts (trace s') <> [] ->
  confirmation (trace s') = Some true /\
  exists p a, c = Deploy p a.
Proof.
  intros H Hp. destruct c as [p a|app id].
  - split; [|now exists p, a]. apply deploy_run_any in H as [H|H].
    + exfalso. apply Hp.
      exact (posts_none gathering _ gathering_not_post H).
    + destruct H
        as [cloud db sl ws fields vpc ok pre post g Hcfg Htr Hpre Hpost _].
      assert (Hok : confirmation (trace s') = Some ok).
      { rewrite Htr. apply shaped_confirmation; try assumption.
        destruct ok; reflexivity. }
      destruct ok; [exact Hok|]. exfalso. apply Hp. rewrite Htr.
      apply (shaped_posts pre _ false [] post); auto.
  - exfalso. apply Hp. apply status_run_reading in H as [H _].
    exact (posts_none reading _ reading_not_post H).
Qed.

Lemma post_only_after_yes_witness :
  let result := run (Demo.healthy Demo.origin_api) "out.json" Demo.origin_api
                  (Deploy "AWS" "Node") (Demo.node_answers "yes") in
  posts (trace (snd result)) <> [] /\
  confirmation (trace (snd result)) = Some true /\
  exists p a, Deploy "AWS" "Node" = Deploy p a.
Proof.
  cbv zeta. split; [vm_compute; discriminate|].
  apply (post_only_after_yes
           (Demo.healthy Demo.origin_api) "out.json" Demo.origin_api
           (Deploy "AWS" "Node") (Demo.node_answers "yes")
           (fst (run (Demo.healthy Demo.origin_api) "out.json"
                   Demo.origin_api (Deploy "AWS" "Node")
                   (Demo.node_answers "yes")))
           (snd (run (Demo.healthy Demo.origin_api) "out.json"
                   Demo.origin_api (Deploy "AWS" "Node")
                   (Demo.node_answers "yes")))).
  - apply surjective_pairing.
  - vm_compute. discriminate.
Defined.

(** X4: a [status] run only reads: however it ends, its trace holds GET
    requests, output, the root directory and the output file, so it asks
    nothing, posts nothing, opens no file for reading and calls no provider
    helper, and it leaves the standard input as it was.  When it ends
    normally it has sent two requests, the probe and the status request,
    and the shared configuration holds just the three fields of the group
    callback. *)
Theorem status_run_only_reads
    (w : world) (out api app : string) (id : option Z) (input : list string) :
  let result := run w out api (Status app id) input in
  forallb reading (trace (snd result)) = true /\
  stdin (snd result) = input /\
  (fst result = Done tt ->
   gets (trace (snd result)) = [api; status_url api app id] /\
   config (snd result) = base_config w out api).
Proof.
  cbv zeta. destruct (run w out api (Status app id) input) as [r s'] eqn:H.
  cbn [fst snd].
  destruct (status_run_reading w out api app id input r s' H) as [Hr Hi].
  split; [exact Hr|]. split; [exact Hi|]. intros ->.
  apply run_stages in H as (r1 & s1 & Hcli & H).
  destruct r1 as [[]| |e]; [ | now destruct H | now destruct H ].
  destruct H as (r2 & s2 & Hcmd & H).
  destruct r2 as [[]| |e]; [ | now destruct H | now destruct H ].
  pose proof (cli_gets w out api _ _ _ Hcli) as Hg1.
  apply cli_done in Hcli as [Hc1 _]. cbn [start trace gets flat_map] in Hg1.
  unfold run_command in Hcmd.
  destruct (choice_accepts status_app_choices app); [|discriminate Hcmd].
  apply status_cases with (api := api) in Hcmd as (Hc2 & tail & Ht2 & Hok2);
    [ | rewrite Hc1; reflexivity ].
  apply logging_done in H as (path & _ & _ & Hc3 & Ht3). split.
  - rewrite Ht3, Ht2, !gets_app, Hg1.
    change (gets (HttpGet (status_url api app id) :: tail))
      with (status_url api app id :: gets tail).
    rewrite (gets_echo tail Hok2). reflexivity.
  - rewrite Hc3, Hc2, Hc1. reflexivity.
Qed.



(** X6: the root directory is made outside the [try]: when the probe
    passes and the directory cannot be made, the run of any subcommand ends
    with [OSError], not with the message about the API URL; the subcommand
    is not entered, no line of input is read and nothing is written. *)
Theorem root_directory_failure_is_not_caught
    (w : world) (out api : string) (c : command) (input : list string) :
  probe_fails (http_get w api) = false ->
  makedirs_ok w (pygrid_root w) = false ->
  let result := run w out api c input in
  fst result = Raised "OSError" /\
  forallb probing (trace (snd result)) = true /\
  In (Makedirs (pygrid_root w)) (trace (snd result)) /\
  stdin (snd result) = input /\
  has_key (config (snd result)) "output_file" = false.
Proof.
  intros Hp Hm. cbv zeta.
  destruct (cli_passes w out api (start input) Hp) as (s1 & Hcli).
  rewrite Hm in Hcli. unfold run, main, bind. rewrite Hcli. cbn [fst snd].
  split; [reflexivity|].
  destruct (emits_cli_probing w out api _ _ _ Hcli) as (ev1 & Ht1 & Hok1).
  cbn [start trace List.app] in Ht1. rewrite Ht1.
  split; [exact Hok1|]. rewrite <- Ht1.
  pose proof (cli_stdin w out api _ _ _ Hcli) as Hi.
  split; [|split; [exact Hi|]]; clear Hi Ht1 Hok1.
  all: unfold cli in Hcli; unfold_all Hcli; cbn in Hcli.
  all: repeat (split_match Hcli; cbn in Hcli; try discriminate Hcli).
  all: close_state Hcli s1; cbn [trace config].
  all: first [ reflexivity | cbn; auto 10 ].
Qed.

Lemma root_directory_failure_is_not_caught_witness :
  let w := Cases.read_only_home in
  let result := run w "out.json" Demo.origin_api (Status "Node" None) [] in
  probe_fails (http_get w Demo.origin_api) = false /\
  makedirs_ok w (pygrid_root w) = false /\
  fst result = Raised "OSError" /\
  forallb probing (trace (snd result)) = true /\
  In (Makedirs (pygrid_root w)) (trace (snd result)) /\
  stdin (snd result) = [] /\
  has_key (config (snd result)) "output_file" = false.
Proof.
  cbv zeta. split; [vm_compute; reflexivity|]. split; [reflexivity|].
  apply (root_directory_failure_is_not_caught Cases.read_only_home "out.json"
           Demo.origin_api (Status "Node" None) []).
  - vm_compute. reflexivity.
  - reflexivity.
Defined.

(** X7: a probe answered 200 with a JSON object that has a [message] opens
    the run of any subcommand in the same way: the request, the message of
    the API, the welcome line, and the making of the root directory, in
    that order and before anything else. *)
Theorem welcomed_probe_opens_the_run
    (w : world) (out api : string) (c : command) (input : list string)
    (text : string) (d : pydict) (message : pyval) :
  http_get w api = Response 200 text ->
  loads text = Some (PDict d) ->
  dict_get d "message" = Some message ->
  firstn 4 (trace (snd (run w out api c input))) =
    [HttpGet api;
     Echo (colored w message None);
     Echo (colored w (PStr "Welcome to OpenMined PyGrid CLI") (Some "blue"));
     Makedirs (pygrid_root w)].
Proof.
  intros Hg Hl Hm.
  destruct (cli_welcome w out api (start input) text d message Hg Hl Hm)
    as (r1 & s1 & Hcli & Ht1).
  destruct (run w out api c input) as [r s'] eqn:H. cbn [snd].
  destruct (run_extends_cli w out api c input r s' r1 s1 H Hcli)
    as (evs & Ht).
  rewrite Ht, Ht1. reflexivity.
Qed.

Lemma welcomed_probe_opens_the_run_witness :
  let w := Demo.healthy Demo.origin_api in
  http_get w Demo.origin_api =
    Response 200 (dumps None (PDict [("message", PStr "ok")])) /\
  firstn 4 (trace (snd (run w "out.json" Demo.origin_api
                          (Status "Node" None) []))) =
    [HttpGet Demo.origin_api;
     Echo (colored w (PStr "ok") None);
     Echo (colored w (PStr "Welcome to OpenMined PyGrid CLI") (Some "blue"));
     Makedirs (pygrid_root w)].
Proof.
  cbv zeta. split; [vm_compute; reflexivity|].
  apply (welcomed_probe_opens_the_run (Demo.healthy Demo.origin_api)
           "out.json" Demo.origin_api (Status "Node" None) []
           (dumps None (PDict [("message", PStr "ok")]))
           [("message", PStr "ok")] (PStr "ok")).
  - vm_compute. reflexivity.
  - vm_compute. reflexivity.
  - reflexivity.
Defined.



(** X9: after a confirmed [deploy] that ends normally, the answer to the
    POST was JSON, and it is shown re-serialised with indent 2 whatever
    its status code was; it is the last thing shown before the file is
    written. *)
Theorem deploy_shows_response_whatever_status
    (w : world) (out api p a : string) (input : list string) (s' : state) :
  run w out api (Deploy p a) input = (Done tt, s') ->
  confirmation (trace s') = Some true ->
  exists code text body pre,
    http_post w (urljoin api "/deploy") (deploy_body (config s')) =
      Response code text /\
    loads text = Some body /\
    trace s' =
      (pre ++
       [HttpPost (urljoin api "/deploy") (deploy_body (config s'));
        Echo (colored w (PStr (dumps (Some 2%nat) body)) None);
        Echo ("Writing configs to " ++ output_path w out);
        WriteFile (output_path w out)
          (dumps (Some 2%nat) (PDict (config s')))])%list.
Proof. intros H Hyes. exact (deploy_run_response w out api p a input s' H Hyes). Qed.

Lemma deploy_shows_response_whatever_status_witness :
  let w := Demo.healthy Demo.origin_api in
  let s' := snd (run w "out.json" Demo.origin_api (Deploy "AWS" "Node")
                   (Demo.node_answers "y")) in
  exists code text body pre,
    http_post w (urljoin Demo.origin_api "/deploy") (deploy_body (config s')) =
      Response code text /\
    loads text = Some body /\
    trace s' =
      (pre ++
       [HttpPost (urljoin Demo.origin_api "/deploy") (deploy_body (config s'));
        Echo (colored w (PStr (dumps (Some 2%nat) body)) None);
        Echo ("Writing configs to " ++ output_path w "out.json");
        WriteFile (output_path w "out.json")
          (dumps (Some 2%nat) (PDict (config s')))])%list.
Proof.
  cbv zeta.
  apply (deploy_shows_response_whatever_status
           (Demo.healthy Demo.origin_api) "out.json" Demo.origin_api
           "AWS" "Node" (Demo.node_answers "y")
           (snd (run (Demo.healthy Demo.origin_api) "out.json"
                   Demo.origin_api (Deploy "AWS" "Node")
                   (Demo.node_answers "y")))).
  - vm_compute. reflexivity.
  - vm_compute. reflexivity.
Defined.



(** X11: the credentials are not part of what is shown for confirmation:
    whenever a [deploy] run asks the last question, the configuration it
    displays has no [credentials] field; that field, which holds the
    content of the credentials file and the database configuration, is
    added to the shared configuration after the question only. *)
Theorem credentials_not_shown_for_confirmation
    (w : world) (out api p a : string) (input : list string)
    (r : outcome unit) (s' : state) (text : string) (answer : bool) :
  run w out api (Deploy p a) input = (r, s') ->
  In (Confirm text answer) (trace s') ->
  startswith "Your current configration are: " text = true ->
  exists shown,
    text = final_text w shown /\
    has_key shown "credentials" = false /\
    (config s' = shown \/
     exists credentials,
       config s' = dict_set shown "credentials" credentials).
Proof.
  intros H Hin Hfinal. apply deploy_run_any in H as [H|H].
  - rewrite forallb_forall in H. apply H in Hin.
    apply gathering_not_final in Hin. unfold is_final_confirm in Hin.
    rewrite Hfinal in Hin. discriminate Hin.
  - destruct H
      as [cloud db sl ws fields vpc ok pre post g Hcfg Htr Hpre Hpost _].
    rewrite Htr in Hin. apply in_app_or in Hin as [Hin|Hin].
    + rewrite forallb_forall in Hpre. apply Hpre in Hin.
      apply gathering_not_final in Hin. unfold is_final_confirm in Hin.
      rewrite Hfinal in Hin. discriminate Hin.
    + destruct Hin as [Hin|Hin].
      * inversion Hin; subst text answer; clear Hin. exists g.
        split; [reflexivity|]. split.
        -- subst g. unfold gathered. destruct vpc; reflexivity.
        -- destruct ok; [right; eauto | now left].
      * exfalso. apply in_app_or in Hin as [Hin|Hin].
        -- destruct ok; [|contradiction]. destruct Hin as [Hin|[]].
           discriminate Hin.
        -- rewrite forallb_forall in Hpost. apply Hpost in Hin.
           discriminate Hin.
Qed.

Lemma credentials_not_shown_for_confirmation_witness :
  let w := Demo.healthy Demo.origin_api in
  let result := run w "out.json" Demo.origin_api (Deploy "AWS" "Node")
                  (Demo.node_answers "y") in
  let shown := gathered (base_config w "out.json" Demo.origin_api)
                 "aws" "node" false false
                 [("id", PStr "n1"); ("port", PStr "5000");
                  ("host", PStr "0.0.0.0"); ("network", PStr "0.0.0.0:7000")]
                 (Some (PObj [("cidr_block", PStr "10.0.0.0/16")])) in
  In (Confirm (final_text w shown) true) (trace (snd result)) /\
  exists shown',
    final_text w shown = final_text w shown' /\
    has_key shown' "credentials" = false /\
    (config (snd result) = shown' \/
     exists credentials,
       config (snd result) = dict_set shown' "credentials" credentials).
Proof.
  cbv zeta.
  assert (Hin : In (Confirm
                      (final_text (Demo.healthy Demo.origin_api)
                         (gathered
                            (base_config (Demo.healthy Demo.origin_api)
                               "out.json" Demo.origin_api)
                            "aws" "node" false false
                            [("id", PStr "n1"); ("port", PStr "5000");
                             ("host", PStr "0.0.0.0");
                             ("network", PStr "0.0.0.0:7000")]
                            (Some (PObj [("cidr_block",
                                          PStr "10.0.0.0/16")]))))
                      true)
                   (trace (snd (run (Demo.healthy Demo.origin_api) "out.json"
                                  Demo.origin_api (Deploy "AWS" "Node")
                                  (Demo.node_answers "y"))))).
  { vm_compute. repeat first [ left; reflexivity | right ]. }
  split; [exact Hin|].
  apply (credentials_not_shown_for_confirmation
           (Demo.healthy Demo.origin_api) "out.json" Demo.origin_api
           "AWS" "Node" (Demo.node_answers "y")
           (fst (run (Demo.healthy Demo.origin_api) "out.json"
                   Demo.origin_api (Deploy "AWS" "Node")
                   (Demo.node_answers "y")))
           (snd (run (Demo.healthy Demo.origin_api) "out.json"
                   Demo.origin_api (Deploy "AWS" "Node")
                   (Demo.node_answers "y")))
           _ true).
  - apply surjective_pairing.
  - exact Hin.
  - vm_compute. reflexivity.
Defined.

(** X12: the document that a [deploy] run writes has a fixed layout: the
    three fields of the group callback, then [provider], [app],
    [serverless] and [websockets], then [vpc] for aws only, then
    [credentials] after a yes only, in this order; [provider] is the
    lower-cased option, [serverless] and [websockets] are booleans and
    [app] is a record that starts with the lower-cased application name. *)
Theorem deploy_written_layout
    (w : world) (out api p a : string) (input : list string) (s' : state) :
  run w out api (Deploy p a) input = (Done tt, s') ->
  written (trace s') =
    [(output_path w out, dumps (Some 2%nat) (PDict (config s')))] /\
  dict_keys (config s') =
    deploy_keys (str_eqb (lower p) "aws") (said_yes (trace s')) /\
  dict_get (config s') "provider" = Some (PStr (lower p)) /\
  exists sl ws fields,
    dict_get (config s') "serverless" = Some (PBool sl) /\
    dict_get (config s') "websockets" = Some (PBool ws) /\
    dict_get (config s') "app" =
      Some (PObj (("name", PStr (lower a)) :: fields)).
Proof.
  intros H. split; [exact (deploy_run_written w out api p a input s' H)|].
  apply deploy_run_done in H.
  destruct H as [cloud db sl ws fields vpc ok pre tail g Hcfg Htr Hpre Htail
                   _ _ Hvpc _ _ _ _ _ _ _].
  assert (Hok : confirmation (trace s') = Some ok).
  { rewrite Htr.
    destruct ok.
    - change (HttpPost (urljoin api "/deploy") (deploy_body (config s')) ::
              tail)
        with ([HttpPost (urljoin api "/deploy") (deploy_body (config s'))] ++
              tail)%list.
      rewrite <- List.app_assoc. apply shaped_confirmation; auto.
      rewrite forallb_app. cbn [forallb reporting andb].
      rewrite (forallb_weaken _ _ _ echo_reporting Htail). reflexivity.
    - apply (shaped_confirmation w pre g false []); auto. }
  unfold said_yes. rewrite Hok, <- Hvpc, Hcfg. subst g. unfold gathered.
  split; [|split].
  - destruct ok, vpc; reflexivity.
  - destruct ok, vpc; reflexivity.
  - exists sl, ws, fields. destruct ok, vpc; repeat split; reflexivity.
Qed.

Lemma deploy_written_layout_witness :
  let w := Demo.healthy Demo.origin_api in
  let result := run w "out.json" Demo.origin_api (Deploy "Azure" "Network")
                  [Demo.credentials_path; "y"; "n"; "y"] in
  fst result = Done tt /\
  dict_keys (config (snd result)) =
    ["api_url"; "pygrid_root_path"; "output_file"; "provider"; "app";
     "serverless"; "websockets"; "credentials"] /\
  written (trace (snd result)) =
    [(output_path w "out.json",
      dumps (Some 2%nat) (PDict (config (snd result))))] /\
  dict_keys (config (snd result)) =
    deploy_keys (str_eqb (lower "Azure") "aws")
      (said_yes (trace (snd result))) /\
  dict_get (config (snd result)) "provider" = Some (PStr (lower "Azure")) /\
  exists sl ws fields,
    dict_get (config (snd result)) "serverless" = Some (PBool sl) /\
    dict_get (config (snd result)) "websockets" = Some (PBool ws) /\
    dict_get (config (snd result)) "app" =
      Some (PObj (("name", PStr (lower "Network")) :: fields)).
Proof.
  cbv zeta. split; [vm_compute; reflexivity|].
  split; [vm_compute; reflexivity|].
  apply (deploy_written_layout (Demo.healthy Demo.origin_api) "out.json"
           Demo.origin_api "Azure" "Network"
           [Demo.credentials_path; "y"; "n"; "y"]
           (snd (run (Demo.healthy Demo.origin_api) "out.json"
                   Demo.origin_api (Deploy "Azure" "Network")
                   [Demo.credentials_path; "y"; "n"; "y"]))).
  vm_compute. reflexivity.
Defined.

(** X13: the arguments of a node come from four questions in the order
    id, port, host, network.  With an id and a network address typed, the
    port is the line typed or, for an empty line, [GRID_NODE_PORT] from the
    environment, and the host is the line typed or, for an empty line,
    [GRID_NODE_HOST] from the environment or else 0.0.0.0. *)
Theorem node_arguments_take_defaults
    (w : world) (s : state) (id port host network : string)
    (rest : list string) :
  dict_get (config s) "app" = Some (PObj [("name", PStr "node")]) ->
  stdin s = id :: port :: host :: network :: rest ->
  id <> EmptyString -> network <> EmptyString ->
  (port = EmptyString -> environ w "GRID_NODE_PORT" <> None) ->
  exists s1,
    get_app_arguments w s = (Done tt, s1) /\
    dict_get (config s1) "app" =
      Some (PObj [("name", PStr "node");
                  ("id", PStr id);
                  ("port",
                   PStr match environ w "GRID_NODE_PORT" with
                        | Some v => answered port v
                        | None => port
                        end);
                  ("host",
                   PStr (answered host (env_or w "GRID_NODE_HOST" "0.0.0.0")));
                  ("network", PStr network)]) /\
    stdin s1 = rest.
Proof.
  intros Happ Hin Hid Hnet Hport.
  assert (Hp : answered port (env_or w "GRID_NODE_PORT" "5000") =
               match environ w "GRID_NODE_PORT" with
               | Some v => answered port v
               | None => port
               end).
  { unfold env_or, answered.
    destruct (environ w "GRID_NODE_PORT"); [reflexivity|].
    destruct (str_eqb port EmptyString) eqn:E; [|reflexivity].
    apply String.eqb_eq in E. now destruct (Hport E). }
  rewrite <- Hp. unfold get_app_arguments. unfold_here. cbn.
  repeat (first [ rewrite Happ | rewrite Hin
                | rewrite environ_get_fallback | rewrite prompt_defaulted
                | rewrite (prompt_typed _ id _ Hid)
                | rewrite (prompt_typed _ network _ Hnet)
                | rewrite dict_get_set_same ]; cbn).
  eexists. split; [reflexivity|]. cbn [config stdin].
  split; [|reflexivity]. rewrite !dict_set_set_same.
  apply dict_get_set_same.
Qed.

Lemma node_arguments_take_defaults_witness :
  let w := Cases.preset in
  let s := Demo.before_arguments "node" false
             ["n1"; EmptyString; EmptyString; "0.0.0.0:7000"; "y"] in
  exists s1,
    get_app_arguments w s = (Done tt, s1) /\
    dict_get (config s1) "app" =
      Some (PObj [("name", PStr "node");
                  ("id", PStr "n1");
                  ("port",
                   PStr match environ w "GRID_NODE_PORT" with
                        | Some v => answered EmptyString v
                        | None => EmptyString
                        end);
                  ("host",
                   PStr (answered EmptyString
                           (env_or w "GRID_NODE_HOST" "0.0.0.0")));
                  ("network", PStr "0.0.0.0:7000")]) /\
    stdin s1 = ["y"].
Proof.
  cbv zeta.
  apply (node_arguments_take_defaults Cases.preset
           (Demo.before_arguments "node" false
              ["n1"; EmptyString; EmptyString; "0.0.0.0:7000"; "y"])
           "n1" EmptyString EmptyString "0.0.0.0:7000" ["y"]).
  - reflexivity.
  - reflexivity.
  - discriminate.
  - discriminate.
  - intros _. discriminate.
Defined.

(** X14: a network that is not serverless is asked for a port and a host:
    the port is the line typed or, for an empty line, [GRID_NETWORK_PORT]
    from the environment or else 7000, the host the line typed or
    [GRID_NETWORK_HOST] or else 0.0.0.0. *)
Theorem network_arguments_take_defaults
    (w : world) (s : state) (port host : string) (rest : list string) :
  dict_get (config s) "app" = Some (PObj [("name", PStr "network")]) ->
  dict_get (config s) "serverless" = Some (PBool false) ->
  stdin s = port :: host :: rest ->
  exists s1,
    get_app_arguments w s = (Done tt, s1) /\
    dict_get (config s1) "app" =
      Some (PObj [("name", PStr "network");
                  ("port",
                   PStr (answered port (env_or w "GRID_NETWORK_PORT" "7000")));
                  ("host",
                   PStr (answered host
                           (env_or w "GRID_NETWORK_HOST" "0.0.0.0")))]) /\
    stdin s1 = rest.
Proof.
  intros Happ Hsl Hin. unfold get_app_arguments. unfold_here. cbn.
  repeat (first [ rewrite Happ | rewrite Hsl | rewrite Hin
                | rewrite environ_get_fallback | rewrite prompt_defaulted
                | rewrite dict_get_set_same ]; cbn).
  eexists. split; [reflexivity|]. cbn [config stdin].
  split; [|reflexivity]. rewrite !dict_set_set_same.
  apply dict_get_set_same.
Qed.

Lemma network_arguments_take_defaults_witness :
  let w := Demo.healthy Demo.origin_api in
  let s := Demo.before_arguments "network" false [EmptyString; "10.0.0.1"] in
  answered EmptyString (env_or w "GRID_NETWORK_PORT" "7000") = "7000" /\
  exists s1,
    get_app_arguments w s = (Done tt, s1) /\
    dict_get (config s1) "app" =
      Some (PObj [("name", PStr "network");
                  ("port",
                   PStr (answered EmptyString
                           (env_or w "GRID_NETWORK_PORT" "7000")));
                  ("host",
                   PStr (answered "10.0.0.1"
                           (env_or w "GRID_NETWORK_HOST" "0.0.0.0")))]) /\
    stdin s1 = [].
Proof.
  cbv zeta. split; [reflexivity|].
  apply (network_arguments_take_defaults (Demo.healthy Demo.origin_api)
           (Demo.before_arguments "network" false [EmptyString; "10.0.0.1"])
           EmptyString "10.0.0.1" []).
  - reflexivity.
  - reflexivity.
  - reflexivity.
Defined.

(** X15: without [NODE_ID] and [NETWORK] in the environment the id and the
    network address of a node have no default, so an empty line is asked
    again: when [get_app_arguments] returns, both are lines of the input
    and neither is empty. *)
Theorem node_id_and_network_are_typed
    (w : world) (s s1 : state) :
  dict_get (config s) "app" = Some (PObj [("name", PStr "node")]) ->
  environ w "NODE_ID" = None ->
  environ w "NETWORK" = None ->
  get_app_arguments w s = (Done tt, s1) ->
  exists app id network,
    dict_get (config s1) "app" = Some (PObj app) /\
    dict_get app "id" = Some (PStr id) /\
    dict_get app "network" = Some (PStr network) /\
    id <> EmptyString /\ network <> EmptyString /\
    In id (stdin s) /\ In network (stdin s).
Proof.
  intros Happ Hid Hnet H. unfold get_app_arguments in H. unfold_all H.
  unfold environ_get in H. rewrite Hid, Hnet in H. cbn in H.
  rewrite Happ in H. cbn in H.
  destruct (prompt_lines None (stdin s)) as [[id r1]|] eqn:E1; cbn in H;
    [|discriminate H].
  rewrite Happ in H. cbn in H.
  destruct (prompt_lines _ r1) as [[port r2]|] eqn:E2; cbn in H;
    [|discriminate H].
  rewrite dict_get_set_same in H. cbn in H.
  destruct (prompt_lines _ r2) as [[host r3]|] eqn:E3; cbn in H;
    [|discriminate H].
  rewrite dict_get_set_same in H. cbn in H.
  destruct (prompt_lines None r3) as [[network r4]|] eqn:E4; cbn in H;
    [|discriminate H].
  rewrite dict_get_set_same in H. cbn in H.
  apply pair_equal_spec in H as [_ H]. subst s1. cbn [config].
  rewrite !dict_set_set_same.
  apply prompt_required in E1 as (Hi & Hin1 & Hr1).
  apply prompt_rest in E2. apply prompt_rest in E3.
  apply prompt_required in E4 as (Hn & Hin4 & _).
  eexists. exists id, network. split; [apply dict_get_set_same|].
  split; [reflexivity|]. split; [reflexivity|].
  split; [exact Hi|]. split; [exact Hn|]. split; [exact Hin1|].
  apply Hr1, E2, E3, Hin4.
Qed.

Lemma node_id_and_network_are_typed_witness :
  let w := Demo.healthy Demo.origin_api in
  let s := Demo.before_arguments "node" false
             [EmptyString; EmptyString; "n1"; "5000"; EmptyString;
              EmptyString; "0.0.0.0:7000"] in
  let s1 := snd (get_app_arguments w s) in
  exists app id network,
    dict_get (config s1) "app" = Some (PObj app) /\
    dict_get app "id" = Some (PStr id) /\
    dict_get app "network" = Some (PStr network) /\
    id <> EmptyString /\ network <> EmptyString /\
    In id (stdin s) /\ In network (stdin s).
Proof.
  cbv zeta.
  apply (node_id_and_network_are_typed (Demo.healthy Demo.origin_api)
           (Demo.before_arguments "node" false
              [EmptyString; EmptyString; "n1"; "5000"; EmptyString;
               EmptyString; "0.0.0.0:7000"])
           (snd (get_app_arguments (Demo.healthy Demo.origin_api)
                   (Demo.before_arguments "node" false
                      [EmptyString; EmptyString; "n1"; "5000"; EmptyString;
                       EmptyString; "0.0.0.0:7000"])))).
  - reflexivity.
  - reflexivity.
  - reflexivity.
  - vm_compute. reflexivity.
Defined.

(** X16: what follows the authority of the API base URL plays no part in
    the status request: for a base that is [http(s)://authority] followed
    by a path, a query or a fragment (a trailing slash included) and an
    accepted application name, the request goes to
    [http(s)://authority/deployed/{app}s], or to
    [http(s)://authority/deployed/{app}/{id}] when an id is given. *)
Theorem status_url_drops_base_path
    (origin : string) (c : ascii) (rest app : string) (id : option Z) :
  is_origin origin = true ->
  is_netloc_end c = true ->
  choice_accepts status_app_choices app = true ->
  status_url (below origin c rest) app id =
  origin ++
  match id with
  | None => "/deployed/" ++ lower app ++ "s"
  | Some n => "/deployed/" ++ lower app ++ "/" ++ str_of_int n
  end.
Proof.
  intros Ho Hc Ha. unfold status_url.
  destruct id as [n|]; rewrite (urljoin_below origin c rest _ Ho Hc).
  - apply urljoin_origin; [exact Ho|]. now apply status_paths_plain.
  - apply urljoin_origin; [exact Ho|].
    now apply (status_paths_plain app 0).
Qed.

Lemma status_url_drops_base_path_witness :
  below Demo.origin_api "/" "api" = Demo.path_api /\
  status_url (below Demo.origin_api "/" "api") "Network" (Some 12) =
  Demo.origin_api ++ "/deployed/" ++ lower "Network" ++ "/" ++ str_of_int 12.
Proof.
  split; [reflexivity|].
  apply (status_url_drops_base_path Demo.origin_api "/" "api" "Network"
           (Some 12)).
  - vm_compute. reflexivity.
  - reflexivity.
  - vm_compute. reflexivity.
Defined.

(** X17: likewise for the submission: with a base URL that is
    [http(s)://authority] followed by a path, a query or a fragment, a
    confirmed [deploy] sends its one POST to [http(s)://authority/deploy]. *)
Theorem deploy_post_drops_base_path
    (w : world) (out origin : string) (c : ascii) (rest p a : string)
    (input : list string) (r : outcome unit) (s' : state) :
  run w out (below origin c rest) (Deploy p a) input = (r, s') ->
  confirmation (trace s') = Some true ->
  is_origin origin = true ->
  is_netloc_end c = true ->
  posts (trace s') =
    [HttpPost (origin ++ "/deploy") (deploy_body (config s'))].
Proof.
  intros H Hyes Ho Hc. apply deploy_run_any in H as [H|H].
  - rewrite (gathering_confirmation _ H) in Hyes. discriminate Hyes.
  - destruct H
      as [cloud db sl ws fields vpc ok pre post g Hcfg Htr Hpre Hpost _].
    assert (Hok : confirmation (trace s') = Some ok).
    { rewrite Htr. apply shaped_confirmation; try assumption.
      destruct ok; reflexivity. }
    rewrite Hok in Hyes. injection Hyes as ->.
    rewrite Htr, (urljoin_below origin c rest _ Ho Hc).
    rewrite (urljoin_origin origin "/deploy" Ho eq_refl).
    apply shaped_posts; auto.
Qed.

Lemma deploy_post_drops_base_path_witness :
  let w := Demo.healthy Demo.path_api in
  let result := run w "out.json" (below Demo.origin_api "/" "api")
                  (Deploy "AWS" "Node") (Demo.node_answers "y") in
  posts (trace (snd result)) =
    [HttpPost (Demo.origin_api ++ "/deploy")
       (deploy_body (config (snd result)))].
Proof.
  cbv zeta.
  apply (deploy_post_drops_base_path (Demo.healthy Demo.path_api) "out.json"
           Demo.origin_api "/" "api" "AWS" "Node" (Demo.node_answers "y")
           (fst (run (Demo.healthy Demo.path_api) "out.json"
                   (below Demo.origin_api "/" "api")
                   (Deploy "AWS" "Node") (Demo.node_answers "y")))
           (snd (run (Demo.healthy Demo.path_api) "out.json"
                   (below Demo.origin_api "/" "api")
                   (Deploy "AWS" "Node") (Demo.node_answers "y")))).
  - apply surjective_pairing.
  - vm_compute. reflexivity.
  - vm_compute. reflexivity.
  - reflexivity.
Defined.

(** X18: [status] knows nodes and networks only: an application name that
    is [worker] up to case, which [deploy] accepts, is refused by [status];
    the run does not end normally, the probe is the only request sent, and
    nothing is written. *)
Theorem status_refuses_worker
    (w : world) (out api app : string) (id : option Z) (input : list string) :
  lower app = "worker" ->
  let result := run w out api (Status app id) input in
  choice_accepts deploy_app_choices app = true /\
  fst result <> Done tt /\
  gets (trace (snd result)) = [api] /\
  written (trace (snd result)) = [].
Proof.
  intros Hw. cbv zeta.
  assert (Hno : choice_accepts status_app_choices app = false).
  { unfold choice_accepts, status_app_choices. cbn [existsb].
    rewrite Hw. reflexivity. }
  split.
  { unfold choice_accepts, deploy_app_choices. cbn [existsb].
    rewrite Hw. reflexivity. }
  destruct (run w out api (Status app id) input) as [r s'] eqn:H.
  cbn [fst snd].
  assert (Hr : r <> Done tt).
  { intros ->. apply status_run_done in H as (_ & _ & _ & _ & _ & _ & Ha & _).
    rewrite Hno in Ha. discriminate Ha. }
  split; [exact Hr|]. split.
  - apply run_stages in H as (r1 & s1 & Hcli & H).
    apply cli_gets in Hcli. cbn [start trace gets flat_map List.app] in Hcli.
    destruct r1 as [[]| |e];
      [ | destruct H as [_ ->]; exact Hcli | destruct H as [_ ->]; exact Hcli ].
    destruct H as (r2 & s2 & Hcmd & H). unfold run_command in Hcmd.
    rewrite Hno in Hcmd. inversion Hcmd; subst r2 s2; clear Hcmd.
    destruct H as [_ ->]. exact Hcli.
  - exact (run_failed_writes_nothing w out api _ input r s' H Hr).
Qed.

Lemma status_refuses_worker_witness :
  let w := Demo.healthy Demo.origin_api in
  let result := run w "out.json" Demo.origin_api (Status "Worker" None) [] in
  fst result = Raised "UsageError" /\
  choice_accepts deploy_app_choices "Worker" = true /\
  fst result <> Done tt /\
  gets (trace (snd result)) = [Demo.origin_api] /\
  written (trace (snd result)) = [].
Proof.
  cbv zeta. split; [vm_compute; reflexivity|].
  apply (status_refuses_worker (Demo.healthy Demo.origin_api) "out.json"
           Demo.origin_api "Worker" None []).
  vm_compute. reflexivity.
Defined.

(** X19: a confirmed [deploy] keeps the content of the credentials file:
    the file named at the first question is opened and parsed, and after a
    yes its content is the [cloud] field of [credentials] in the
    configuration that is written to the output file. *)
Theorem confirmed_deploy_stores_credentials_file
    (w : world) (out api p a : string) (input : list string) (s' : state) :
  run w out api (Deploy p a) input = (Done tt, s') ->
  confirmation (trace s') = Some true ->
  exists path text cloud db,
    In (Prompt (credentials_question w (lower p)) path) (trace s') /\
    In (OpenRead path) (trace s') /\
    read_file w path = Some text /\
    loads text = Some cloud /\
    dict_get (config s') "credentials" =
      Some (PObj [("cloud", cloud); ("db", db)]) /\
    written (trace s') =
      [(output_path w out, dumps (Some 2%nat) (PDict (config s')))].
Proof.
  intros H Hyes.
  pose proof (deploy_run_written w out api p a input s' H) as Hwr.
  destruct (deploy_run_confirmed w out api p a input s' H Hyes)
    as (s1 & creds & s2 & s3 & rest & Hcli & Hg & Ecf & Hs & Hl).
  destruct (deploy_gathered_config w out api p a input s1 creds s2 Hcli Hg)
    as [Hapi _].
  apply deploy_gather_cloud in Hg
    as (path & rest' & text & cloud & db & sl & ws & evs & _ & Hr & Hload &
        Hcr & Ht2 & _).
  eapply deploy_submit_confirmed in Hs as (Hc3 & tail & Ht3 & _);
    [ | exact Ecf | exact Hapi ].
  apply logging_done in Hl as (path' & _ & _ & Hc4 & Ht4).
  exists path, text, cloud, db.
  assert (Hin : forall e,
             In e [Prompt (credentials_question w (lower p)) path;
                   OpenRead path] -> In e (trace s')).
  { intros e He. rewrite Ht4, Ht3, Ht2. apply in_or_app. left.
    apply in_or_app. left. apply in_or_app. right.
    destruct He as [<-|[<-|[]]]; [now left | now right; left]. }
  split; [apply Hin; now left|]. split; [apply Hin; now right; left|].
  split; [exact Hr|]. split; [exact Hload|]. split; [|exact Hwr].
  rewrite Hc4, Hc3, Hcr. apply dict_get_set_same.
Qed.

Lemma confirmed_deploy_stores_credentials_file_witness :
  let w := Demo.healthy Demo.origin_api in
  let s' := snd (run w "out.json" Demo.origin_api (Deploy "AWS" "Node")
                   (Demo.node_answers "y")) in
  exists path text cloud db,
    In (Prompt (credentials_question w (lower "AWS")) path) (trace s') /\
    In (OpenRead path) (trace s') /\
    read_file w path = Some text /\
    loads text = Some cloud /\
    dict_get (config s') "credentials" =
      Some (PObj [("cloud", cloud); ("db", db)]) /\
    written (trace s') =
      [(output_path w "out.json", dumps (Some 2%nat) (PDict (config s')))].
Proof.
  cbv zeta.
  apply (confirmed_deploy_stores_credentials_file
           (Demo.healthy Demo.origin_api) "out.json" Demo.origin_api
           "AWS" "Node" (Demo.node_answers "y")
           (snd (run (Demo.healthy Demo.origin_api) "out.json"
                   Demo.origin_api (Deploy "AWS" "Node")
                   (Demo.node_answers "y")))).
  - vm_compute. reflexivity.
  - vm_compute. reflexivity.
Defined.

(** X20: the two yes/no questions of [deploy] are asked right after the
    credentials file is opened, serverless first, and their answers are
    what the written configuration holds as [serverless] and
    [websockets]. *)
Theorem deploy_stores_yes_no_answers
    (w : world) (out api p a : string) (input : list string) (s' : state) :
  run w out api (Deploy p a) input = (Done tt, s') ->
  exists path sl ws before after,
    trace s' =
      (before ++
       OpenRead path ::
       Confirm "Do you want to deploy serverless?" sl ::
       Confirm "Will you need to support Websockets?" ws :: after)%list /\
    dict_get (config s') "serverless" = Some (PBool sl) /\
    dict_get (config s') "websockets" = Some (PBool ws).
Proof.
  intros H.
  apply deploy_run_stages in H as (s1 & creds & s2 & s3 & Hcli & Hg & Hs & Hl).
  apply deploy_gather_cloud in Hg
    as (path & rest' & text & cloud & db & sl & ws & evs & _ & _ & _ &
        _ & Ht2 & Hsl & Hws).
  destruct (emits_deploy_submit w creds _ _ _ Hs) as (ev3 & Ht3 & _).
  destruct (emits_logging w _ _ _ Hl) as (ev4 & Ht4 & _).
  apply logging_config in Hl.
  assert (Hc3 : forall k, str_eqb "credentials" k = false ->
                          dict_get (config s3) k = dict_get (config s2) k).
  { intros k Hk. unfold deploy_submit in Hs. unfold_all Hs. cbn in Hs.
    repeat (split_match Hs; cbn in Hs).
    all: close_state Hs s3; cbn [config].
    all: first [ reflexivity | now apply dict_get_set_other ]. }
  exists path, sl, ws,
    (trace s1 ++ [Prompt (credentials_question w (lower p)) path])%list,
    (evs ++ ev3 ++ ev4)%list.
  split; [|split].
  - rewrite Ht4, Ht3, Ht2. rewrite <- !List.app_assoc. reflexivity.
  - rewrite Hl, Hc3 by reflexivity. exact Hsl.
  - rewrite Hl, Hc3 by reflexivity. exact Hws.
Qed.

Lemma deploy_stores_yes_no_answers_witness :
  let w := Demo.healthy Demo.origin_api in
  let s' := snd (run w "out.json" Demo.origin_api (Deploy "GCP" "Worker")
                   [Demo.credentials_path; "YES"; EmptyString; "n"]) in
  dict_get (config s') "serverless" = Some (PBool true) /\
  exists path sl ws before after,
    trace s' =
      (before ++
       OpenRead path ::
       Confirm "Do you want to deploy serverless?" sl ::
       Confirm "Will you need to support Websockets?" ws :: after)%list /\
    dict_get (config s') "serverless" = Some (PBool sl) /\
    dict_get (config s') "websockets" = Some (PBool ws).
Proof.
  cbv zeta. split; [vm_compute; reflexivity|].
  apply (deploy_stores_yes_no_answers
           (Demo.healthy Demo.origin_api) "out.json" Demo.origin_api
           "GCP" "Worker" [Demo.credentials_path; "YES"; EmptyString; "n"]
           (snd (run (Demo.healthy Demo.origin_api) "out.json"
                   Demo.origin_api (Deploy "GCP" "Worker")
                   [Demo.credentials_path; "YES"; EmptyString; "n"]))).
  vm_compute. reflexivity.
Defined.
